(** * FeedbackJSONSync-AI: a shallow embedding of [FeedbackJSONSyncAI]

    The development follows [src/FeedbackJSONSync-AI.py].  Python values are
    an inductive type, exceptions are carried by an error monad, [float] is
    IEEE-754 binary64 as specified by [SpecFloat], and the parts of the
    Python standard library whose behaviour is not fixed by the repository
    (the JSON and CSV codecs, [datetime.fromisoformat], [repr] of a float,
    the local time zone of the machine) are fields of the classes [Library]
    and [Host].  The general properties hold for every library and host;
    the module [Reference] gives executable library functions, used to run
    the pipeline on concrete documents.

    A Python [str] is modelled as a [string] of code points below 256
    (Latin-1): [lower], [split], [strip] and [isspace] are those of CPython
    restricted to that range.

    Layout: the model of the program, the reference library, the
    definitions used in statements, then the properties. *)

From Stdlib Require Import ZArith List String Ascii Bool Lia Permutation.
From Stdlib Require Import Decimal DecimalString.
From Stdlib Require Import Floats.SpecFloat.
Import ListNotations.

Open Scope string_scope.
Open Scope Z_scope.

(** ** Exceptions and the error monad *)

Inductive exn : Type :=
| ValueError (msg : string)
| JSONDecodeError            (* a subclass of ValueError, raised by json.loads *)
| TypeError
| AttributeError
| KeyError
| OverflowError
| ZeroDivisionError
| HostError.                 (* any other exception raised by the host library *)

Inductive result (A : Type) : Type :=
| Ok (a : A)
| Raise (e : exn).
Arguments Ok {A} a.
Arguments Raise {A} e.

Definition bind {A B} (c : result A) (k : A -> result B) : result B :=
  match c with
  | Ok a => k a
  | Raise e => Raise e
  end.

Declare Scope py_scope.
Delimit Scope py_scope with py.
Notation "x <- c ;; k" := (bind c (fun x => k))
  (at level 61, c at next level, right associativity) : py_scope.
Notation "' p <- c ;; k" := (bind c (fun x => match x with p => k end))
  (at level 61, p pattern, c at next level, right associativity) : py_scope.
Open Scope py_scope.

(** ** Strings *)

Definition nl : string := String (ascii_of_nat 10) "".
Definition dq : string := String (ascii_of_nat 34) "".

Definition code (c : ascii) : nat := nat_of_ascii c.

Definition in_range (lo hi : nat) (c : ascii) : bool :=
  (Nat.leb lo (code c) && Nat.leb (code c) hi)%bool.

(** [str.isspace] on one code point below 256. *)
Definition is_space (c : ascii) : bool :=
  (in_range 9 13 c || in_range 28 32 c
   || Nat.eqb (code c) 133 || Nat.eqb (code c) 160)%bool.

(** [str.lower] on one code point below 256: A-Z, and the Latin-1 capitals
    U+00C0-U+00DE except the multiplication sign U+00D7. *)
Definition lower_char (c : ascii) : ascii :=
  if (in_range 65 90 c
      || (in_range 192 222 c && negb (Nat.eqb (code c) 215)))%bool
  then ascii_of_nat (code c + 32) else c.

Fixpoint str_map (f : ascii -> ascii) (s : string) : string :=
  match s with
  | EmptyString => EmptyString
  | String c s' => String (f c) (str_map f s')
  end.

Definition str_lower (s : string) : string := str_map lower_char s.

Definition str_is_empty (s : string) : bool :=
  match s with EmptyString => true | _ => false end.

(** [s.split()]: the maximal runs of non-whitespace, in order. *)
Fixpoint split_go (s : string) : string * list string :=
  match s with
  | EmptyString => (EmptyString, [])
  | String c s' =>
      let '(cur, toks) := split_go s' in
      if is_space c
      then (EmptyString, if str_is_empty cur then toks else cur :: toks)
      else (String c cur, toks)
  end.

Definition str_split (s : string) : list string :=
  let '(cur, toks) := split_go s in
  if str_is_empty cur then toks else cur :: toks.

(** [s.split(sep)] for a one-character separator: empty pieces are kept. *)
Fixpoint split_on_go (sep : ascii) (s : string) : string * list string :=
  match s with
  | EmptyString => (EmptyString, [])
  | String c s' =>
      let '(cur, rest) := split_on_go sep s' in
      if Ascii.eqb c sep then (EmptyString, cur :: rest)
      else (String c cur, rest)
  end.

Definition str_split_on (sep : ascii) (s : string) : list string :=
  let '(cur, rest) := split_on_go sep s in cur :: rest.

Fixpoint lstrip_with (p : ascii -> bool) (s : string) : string :=
  match s with
  | EmptyString => EmptyString
  | String c s' => if p c then lstrip_with p s' else s
  end.

Fixpoint rstrip_with (p : ascii -> bool) (s : string) : string :=
  match s with
  | EmptyString => EmptyString
  | String c s' =>
      let r := rstrip_with p s' in
      if (p c && str_is_empty r)%bool then EmptyString else String c r
  end.

Definition strip_with (p : ascii -> bool) (s : string) : string :=
  rstrip_with p (lstrip_with p s).

(** [s.strip()] *)
Definition str_strip (s : string) : string := strip_with is_space s.

(** [s.startswith(p)] *)
Definition str_startswith (p s : string) : bool := String.prefix p s.

(** [needle in s] for strings. *)
Fixpoint str_contains (needle s : string) : bool :=
  (String.prefix needle s
   || match s with
      | EmptyString => false
      | String _ s' => str_contains needle s'
      end)%bool.

(** [s.replace(c, by)] for a one-character pattern. *)
Fixpoint str_replace (c : ascii) (by_ : string) (s : string) : string :=
  match s with
  | EmptyString => EmptyString
  | String a s' =>
      if Ascii.eqb a c then by_ ++ str_replace c by_ s'
      else String a (str_replace c by_ s')
  end.

(** [sep.join(l)] *)
Fixpoint str_join (sep : string) (l : list string) : string :=
  match l with
  | [] => EmptyString
  | [x] => x
  | x :: rest => x ++ sep ++ str_join sep rest
  end.

Definition str_mem (s : string) (l : list string) : bool :=
  existsb (String.eqb s) l.

(** Decimal rendering of an [int]. *)
Definition str_of_Z (z : Z) : string := NilEmpty.string_of_int (Z.to_int z).
Definition str_of_nat (n : nat) : string := str_of_Z (Z.of_nat n).

Fixpoint str_forallb (p : ascii -> bool) (s : string) : bool :=
  match s with
  | EmptyString => true
  | String c s' => (p c && str_forallb p s')%bool
  end.

Fixpoint str_existsb (p : ascii -> bool) (s : string) : bool :=
  match s with
  | EmptyString => false
  | String c s' => (p c || str_existsb p s')%bool
  end.

Definition hex_digit (n : nat) : ascii :=
  ascii_of_nat (if Nat.ltb n 10 then 48 + n else 87 + n).

(** [repr(s)]: the quote is the apostrophe unless the text holds one and no
    double quote; control and non-printable code points are escaped. *)
Definition repr_char (quote : ascii) (c : ascii) : string :=
  let n := code c in
  if (Ascii.eqb c quote || Nat.eqb n 92)%bool then String "\" (String c "")
  else if Nat.eqb n 9 then "\t"
  else if Nat.eqb n 10 then "\n"
  else if Nat.eqb n 13 then "\r"
  else if (Nat.ltb n 32 || in_range 127 160 c || Nat.eqb n 173)%bool
  then String "\" (String "x" (String (hex_digit (Nat.div n 16))
                                 (String (hex_digit (Nat.modulo n 16)) "")))
  else String c "".

Fixpoint str_concat_map (f : ascii -> string) (s : string) : string :=
  match s with
  | EmptyString => EmptyString
  | String c s' => f c ++ str_concat_map f s'
  end.

Definition repr_str (s : string) : string :=
  let apostrophe := ascii_of_nat 39 in
  let dquote := ascii_of_nat 34 in
  let quote :=
    if (str_existsb (Ascii.eqb apostrophe) s
        && negb (str_existsb (Ascii.eqb dquote) s))%bool
    then dquote else apostrophe in
  String quote (str_concat_map (repr_char quote) s) ++ String quote "".

(** ** Floats: IEEE-754 binary64 *)

Definition prec : Z := 53.
Definition emax : Z := 1024.

Definition float : Type := spec_float.

Definition float_zero : float := S754_zero false.
Definition float_one : float := S754_finite false 4503599627370496 (-52).
Definition float_neg_one : float := S754_finite true 4503599627370496 (-52).

Definition float_ltb (x y : float) : bool := SFltb x y.
Definition float_leb (x y : float) : bool := SFleb x y.

(** [float(n)] for an [int]: round to nearest even, OverflowError past the
    largest double. *)
Definition float_of_Z (z : Z) : result float :=
  match binary_normalize prec emax z 0 false with
  | S754_infinity _ => Raise OverflowError
  | f => Ok f
  end.

(** [a / b] on two [int]s: the correctly rounded quotient. *)
Definition int_truediv (a b : Z) : result float :=
  match b, a with
  | Z0, _ => Raise ZeroDivisionError
  | _, Z0 => Ok (S754_zero (b <? 0))
  | _, _ =>
      match SFdiv prec emax
              (S754_finite (a <? 0) (Z.to_pos (Z.abs a)) 0)
              (S754_finite (b <? 0) (Z.to_pos (Z.abs b)) 0) with
      | S754_infinity _ => Raise OverflowError
      | f => Ok f
      end
  end.

(** Nearest integer to [n / d], ties to even ([0 < d]). *)
Definition round_half_even_div (n d : Z) : Z :=
  let q := n / d in
  let r := n mod d in
  match 2 * r ?= d with
  | Lt => q
  | Gt => q + 1
  | Eq => if Z.even q then q else q + 1
  end.

(** The number of hundredths nearest to the exact value [m * 2^e]. *)
Definition hundredths (m : positive) (e : Z) : Z :=
  if 0 <=? e then Z.pos m * 100 * 2 ^ e
  else round_half_even_div (Z.pos m * 100) (2 ^ (- e)).

(** [round(x, 2)]: the double nearest to the two-decimal numeral nearest to
    the exact value of [x]; the sign of [x] is kept on a zero result. *)
Definition round2 (x : float) : float :=
  match x with
  | S754_finite s m e =>
      match hundredths m e with
      | Zpos h => SFdiv prec emax (S754_finite s h 0) (S754_finite false 100 0)
      | _ => S754_zero s
      end
  | _ => x
  end.

(** *** [float(s)] on a string *)

Definition is_digit (c : ascii) : bool := in_range 48 57 c.
Definition digit_val (c : ascii) : Z := Z.of_nat (code c - 48).

(** The white space [float] strips: the ASCII white space of the C locale,
    and the non-ASCII spaces U+0085 and U+00A0 that the parser first turns
    into blanks. *)
Definition is_float_space (c : ascii) : bool :=
  (in_range 9 13 c || Nat.eqb (code c) 32
   || Nat.eqb (code c) 133 || Nat.eqb (code c) 160)%bool.

(** An underscore must stand between two digits; they are then dropped. *)
Fixpoint drop_underscores (prev_digit prev_us : bool) (s : string)
  : option string :=
  match s with
  | EmptyString => if prev_us then None else Some EmptyString
  | String c s' =>
      if Ascii.eqb c "_" then
        if prev_digit then drop_underscores false true s' else None
      else if (prev_us && negb (is_digit c))%bool then None
      else option_map (String c) (drop_underscores (is_digit c) false s')
  end.

(** Reads a run of digits: value so far, number of digits read, the rest. *)
Fixpoint read_digits (acc : Z) (n : Z) (s : string) : Z * Z * string :=
  match s with
  | String c s' =>
      if is_digit c then read_digits (10 * acc + digit_val c) (n + 1) s'
      else (acc, n, s)
  | EmptyString => (acc, n, s)
  end.

Definition read_sign (s : string) : bool * string :=
  match s with
  | String "-" s' => (true, s')
  | String "+" s' => (false, s')
  | _ => (false, s)
  end.

Definition ascii_lower (c : ascii) : ascii :=
  if in_range 65 90 c then ascii_of_nat (code c + 32) else c.

(** The correctly rounded double of [(-1)^s * m * 10^e]. *)
Definition float_of_decimal (s : bool) (m e : Z) : float :=
  match m with
  | Zpos p =>
      if 0 <=? e then binary_round prec emax s (p * Z.to_pos (10 ^ e)) 0
      else SFdiv prec emax (S754_finite s p 0)
                           (S754_finite false (Z.to_pos (10 ^ (- e))) 0)
  | _ => S754_zero s
  end.

Definition read_exponent (s : string) : option Z :=
  match s with
  | EmptyString => Some 0
  | String c s' =>
      if (Ascii.eqb c "e" || Ascii.eqb c "E")%bool then
        let '(neg, s1) := read_sign s' in
        let '(v, n, rest) := read_digits 0 0 s1 in
        if ((0 <? n) && str_is_empty rest)%bool
        then Some (if neg then - v else v) else None
      else None
  end.

Definition parse_float_body (s : string) : option float :=
  let '(neg, s1) := read_sign s in
  let word := str_map ascii_lower s1 in
  if (String.eqb word "inf" || String.eqb word "infinity")%bool
  then Some (S754_infinity neg)
  else if String.eqb word "nan" then Some S754_nan
  else
    let '(ip, ni, s2) := read_digits 0 0 s1 in
    let '(m, nf, s3) :=
      match s2 with
      | String "." s2' => read_digits ip 0 s2'
      | _ => (ip, 0, s2)
      end in
    if (ni + nf) =? 0 then None
    else match read_exponent s3 with
         | Some ex => Some (float_of_decimal neg m (ex - nf))
         | None => None
         end.

(** [float(s)]: [None] stands for ValueError. *)
Definition float_of_string (s : string) : option float :=
  match drop_underscores false false (strip_with is_float_space s) with
  | Some t => parse_float_body t
  | None => None
  end.

Definition float_error (s : string) : exn :=
  ValueError ("could not convert string to float: " ++ repr_str s).

(** ** Python values

    The values a decoder can hand to the pipeline: what [json.loads] builds
    (with [str] keys in every [dict]) and the rows of [csv.DictReader].  A
    [dict] keeps its insertion order, as an association list without
    repeated keys. *)

#[local] Set Warnings "-register-all".

Inductive pyval : Type :=
| PNone
| PBool (b : bool)
| PInt (z : Z)
| PFloat (f : float)
| PStr (s : string)
| PList (l : list pyval)
| PDict (d : list (string * pyval)).

Definition batch : Type := list pyval.

Fixpoint dict_get (d : list (string * pyval)) (k : string) : option pyval :=
  match d with
  | [] => None
  | (k', v) :: d' => if String.eqb k' k then Some v else dict_get d' k
  end.

(** [d[k] = v]: an existing key keeps its place. *)
Fixpoint dict_set (d : list (string * pyval)) (k : string) (v : pyval)
  : list (string * pyval) :=
  match d with
  | [] => [(k, v)]
  | (k', v') :: d' =>
      if String.eqb k' k then (k', v) :: d' else (k', v') :: dict_set d' k v
  end.

Definition dict_has (d : list (string * pyval)) (k : string) : bool :=
  match dict_get d k with Some _ => true | None => false end.

(** [v == s] for a [str] constant [s]. *)
Definition eq_str (v : pyval) (s : string) : bool :=
  match v with
  | PStr t => String.eqb t s
  | _ => false
  end.

Definition float_is_zero (f : float) : bool :=
  match f with S754_zero _ => true | _ => false end.

(** [bool(v)] *)
Definition truthy (v : pyval) : bool :=
  match v with
  | PNone => false
  | PBool b => b
  | PInt z => negb (z =? 0)
  | PFloat f => negb (float_is_zero f)
  | PStr s => negb (str_is_empty s)
  | PList l => match l with [] => false | _ => true end
  | PDict d => match d with [] => false | _ => true end
  end.

Definition is_none (v : pyval) : bool :=
  match v with PNone => true | _ => false end.

(** [k in v] for a [str] key [k]: key test on a dict, membership on a list,
    substring test on a string, TypeError elsewhere. *)
Definition contains (k : string) (v : pyval) : result bool :=
  match v with
  | PDict d => Ok (dict_has d k)
  | PList l => Ok (existsb (fun x => eq_str x k) l)
  | PStr s => Ok (str_contains k s)
  | _ => Raise TypeError
  end.

(** [v[k]] for a [str] key [k]. *)
Definition getitem (v : pyval) (k : string) : result pyval :=
  match v with
  | PDict d => match dict_get d k with Some x => Ok x | None => Raise KeyError end
  | _ => Raise TypeError
  end.

(** [float(v)] *)
Definition py_float (v : pyval) : result float :=
  match v with
  | PFloat f => Ok f
  | PInt z => float_of_Z z
  | PBool b => Ok (if b then float_one else float_zero)
  | PStr s => match float_of_string s with
              | Some f => Ok f
              | None => Raise (float_error s)
              end
  | _ => Raise TypeError
  end.

(** [v.lower()], [v.replace('Z', '+00:00')]: only a [str] has the method. *)
Definition py_lower (v : pyval) : result string :=
  match v with
  | PStr s => Ok (str_lower s)
  | _ => Raise AttributeError
  end.

Definition py_replace_Z (v : pyval) : result string :=
  match v with
  | PStr s => Ok (str_replace "Z" "+00:00" s)
  | _ => Raise AttributeError
  end.

(** [re.match(r'^[a-z]{2}$', v)] as a truth value: two lower-case ASCII
    letters, optionally followed by one final newline; TypeError when [v] is
    not a string. *)
Definition is_az (c : ascii) : bool := in_range 97 122 c.

Definition match_language (v : pyval) : result bool :=
  match v with
  | PStr (String a (String b rest)) =>
      Ok (is_az a && is_az b
          && (str_is_empty rest || String.eqb rest nl))%bool
  | PStr _ => Ok false
  | _ => Raise TypeError
  end.

(** Monadic list helpers for comprehensions and [all(...)] *)
Fixpoint filterM {A} (p : A -> result bool) (l : list A) : result (list A) :=
  match l with
  | [] => Ok []
  | x :: l' =>
      b <- p x;;
      r <- filterM p l';;
      Ok (if b then x :: r else r)
  end.

Fixpoint allM {A} (p : A -> result bool) (l : list A) : result bool :=
  match l with
  | [] => Ok true
  | x :: l' =>
      b <- p x;;
      if b then allM p l' else Ok false
  end.

Fixpoint mapM {A B} (f : A -> result B) (l : list A) : result (list B) :=
  match l with
  | [] => Ok []
  | x :: l' =>
      y <- f x;;
      r <- mapM f l';;
      Ok (y :: r)
  end.

(** ** The lexicon and the sentiment scorer *)

Definition positive_words : list string :=
  ["good"; "excellent"; "great"; "happy"; "love"; "positive"; "satisfied"].
Definition negative_words : list string :=
  ["bad"; "poor"; "terrible"; "unhappy"; "hate"; "negative"; "dissatisfied"].
Definition required_fields : list string :=
  ["feedback_id"; "language"; "feedback_text"; "timestamp"].

(** [sum(1 for word in words if word in tokens)] *)
Definition count_words (words tokens : list string) : Z :=
  Z.of_nat (List.length (filter (fun word => str_mem word tokens) words)).

Definition calculate_sentiment_score (text : pyval)
  : result (float * Z * Z * Z) :=
  lower_text <- py_lower text;;
  let positive_count := count_words positive_words (str_split lower_text) in
  let negative_count := count_words negative_words (str_split lower_text) in
  let total_words := Z.of_nat (List.length (str_split lower_text)) in
  sentiment_score <-
    (if 0 <? total_words
     then int_truediv (positive_count - negative_count) total_words
     else Ok float_zero);;
  let sentiment_score := round2 sentiment_score in
  Ok (sentiment_score, positive_count, negative_count, total_words).

(** ** Dates and times

    A [datetime.datetime]; [tzinfo] is the UTC offset in microseconds of an
    aware value and [None] for a naive one. *)

Record datetime : Type := mk_datetime {
  year : Z; month : Z; day : Z;
  hour : Z; minute : Z; second : Z; microsecond : Z;
  tzinfo : option Z
}.

Definition is_leap (y : Z) : bool :=
  ((y mod 4 =? 0) && (negb (y mod 100 =? 0) || (y mod 400 =? 0)))%bool.

Definition days_before_year (y : Z) : Z :=
  let p := y - 1 in p * 365 + p / 4 - p / 100 + p / 400.

Definition days_in_month (y m : Z) : Z :=
  if m =? 2 then (if is_leap y then 29 else 28)
  else if ((m =? 4) || (m =? 6) || (m =? 9) || (m =? 11))%bool then 30
  else 31.

Definition days_before_month (y m : Z) : Z :=
  nth (Z.to_nat m) [0; 0; 31; 59; 90; 120; 151; 181; 212; 243; 273; 304; 334] 0
  + (if ((2 <? m) && is_leap y)%bool then 1 else 0).

Definition ymd2ord (y m d : Z) : Z :=
  days_before_year y + days_before_month y m + d.

(** The proleptic Gregorian date of an ordinal (day 1 is 0001-01-01). *)
Definition ord2ymd (n : Z) : Z * Z * Z :=
  let n := n - 1 in
  let n400 := n / 146097 in
  let n := n mod 146097 in
  let n100 := n / 36524 in
  let n := n mod 36524 in
  let n4 := n / 1461 in
  let n := n mod 1461 in
  let n1 := n / 365 in
  let n := n mod 365 in
  let y := n400 * 400 + 1 + n100 * 100 + n4 * 4 + n1 in
  if ((n1 =? 4) || (n100 =? 4))%bool then (y - 1, 12, 31)
  else
    let leapyear := ((n1 =? 3) && (negb (n4 =? 24) || (n100 =? 3)))%bool in
    let m := Z.shiftr (n + 50) 5 in
    let preceding :=
      days_before_month 1 m + (if ((2 <? m) && leapyear)%bool then 1 else 0) in
    if n <? preceding then
      let m' := m - 1 in
      let preceding' :=
        preceding - (days_in_month 1 m'
                     + (if ((m' =? 2) && leapyear)%bool then 1 else 0)) in
      (y, m', n - preceding' + 1)
    else (y, m, n - preceding + 1).

Definition us_per_day : Z := 86400000000.
Definition max_ordinal : Z := 3652059.

(** The same instant at offset zero: [d - offset] with [tzinfo] UTC;
    OverflowError outside the years 1..9999. *)
Definition shift_to_utc (d : datetime) (offset : Z) : result datetime :=
  let total :=
    (((ymd2ord (year d) (month d) (day d) * 24 + hour d) * 60 + minute d) * 60
     + second d) * 1000000 + microsecond d - offset in
  let days := total / us_per_day in
  let rest := total mod us_per_day in
  if ((days <? 1) || (max_ordinal <? days))%bool then Raise OverflowError
  else
    let '(y, m, dd) := ord2ymd days in
    Ok {| year := y; month := m; day := dd;
          hour := rest / 3600000000;
          minute := (rest / 60000000) mod 60;
          second := (rest / 1000000) mod 60;
          microsecond := rest mod 1000000;
          tzinfo := Some 0 |}.

Fixpoint zeros (n : nat) : string :=
  match n with
  | O => ""
  | S n' => "0" ++ zeros n'
  end.

(** [str(z)] padded with zeros on the left to [w] characters. *)
Definition zero_pad (w : nat) (s : string) : string :=
  zeros (w - String.length s) ++ s.

Definition pad (w : nat) (z : Z) : string := zero_pad w (str_of_Z z).

Definition format_offset (off : Z) : string :=
  let a := Z.abs off in
  (if off <? 0 then "-" else "+")
  ++ pad 2 (a / 3600000000) ++ ":" ++ pad 2 ((a / 60000000) mod 60)
  ++ (if a mod 60000000 =? 0 then ""
      else ":" ++ pad 2 ((a / 1000000) mod 60)
           ++ (if a mod 1000000 =? 0 then "" else "." ++ pad 6 (a mod 1000000))).

(** [d.isoformat()] *)
Definition isoformat (d : datetime) : string :=
  pad 4 (year d) ++ "-" ++ pad 2 (month d) ++ "-" ++ pad 2 (day d) ++ "T"
  ++ pad 2 (hour d) ++ ":" ++ pad 2 (minute d) ++ ":" ++ pad 2 (second d)
  ++ (if microsecond d =? 0 then "" else "." ++ pad 6 (microsecond d))
  ++ match tzinfo d with
     | Some off => format_offset off
     | None => ""
     end.

(** ** The host library

    [Library] gathers what the standard library does for the program;
    [Host] is the machine it runs on, which [datetime.astimezone] consults
    for a naive value. *)

Class Library : Type := {
  (** [json.loads(text)] *)
  json_loads : string -> result pyval;
  (** [json.dumps(obj, indent=2)] *)
  json_dumps : pyval -> string;
  (** [csv.DictReader(lines)] run to its end: the rows it yields (a cell is
      a [str], or [None] where the row is shorter than the header), then
      the message of the exception that stopped it, if any *)
  csv_DictReader : list string -> list (list (string * option string))
                                  * option string;
  (** [datetime.datetime.fromisoformat(text)]; [None] is ValueError *)
  fromisoformat : string -> option datetime;
  (** [repr(x)] for a float *)
  float_repr : float -> string
}.

Class Host : Type := {
  (** the UTC offset, in microseconds, of local time at a naive datetime *)
  local_utcoffset : datetime -> result Z
}.

Section Pipeline.
Context {L : Library}.

(** [repr(v)] and [str(v)], the latter being what an f-string inserts. *)
Fixpoint py_repr (v : pyval) : string :=
  match v with
  | PNone => "None"
  | PBool b => if b then "True" else "False"
  | PInt z => str_of_Z z
  | PFloat f => float_repr f
  | PStr s => repr_str s
  | PList l => "[" ++ str_join ", " (map py_repr l) ++ "]"
  | PDict d =>
      "{" ++ str_join ", "
               (map (fun kv => repr_str (fst kv) ++ ": " ++ py_repr (snd kv)) d)
      ++ "}"
  end.

Definition py_str (v : pyval) : string :=
  match v with
  | PStr s => s
  | _ => py_repr v
  end.

(** ** validate_data *)

Definition msg_missing (fields : list string) (row_num : nat) : string :=
  "ERROR: Missing required field(s): " ++ str_join ", " fields
  ++ " in row " ++ str_of_nat row_num ++ ".".

Definition msg_score_range (row_num : nat) : string :=
  "ERROR: Invalid value for the field(s): sentiment_score in row "
  ++ str_of_nat row_num ++ ". Score must be between -1 and 1.".

Definition msg_score_type (row_num : nat) : string :=
  "ERROR: Invalid data type for the field(s): sentiment_score in row "
  ++ str_of_nat row_num ++ ". Please ensure correct data types.".

Definition msg_language (row_num : nat) : string :=
  "ERROR: Invalid value for the field(s): language in row "
  ++ str_of_nat row_num ++ ". Language must be in ISO 639-1 format.".

Definition msg_timestamp (row_num : nat) : string :=
  "ERROR: Invalid value for the field(s): timestamp in row "
  ++ str_of_nat row_num ++ ". Timestamp must be in ISO 8601 format.".

(** The two variables of the loop: [is_valid] and [error_messages]. *)
Definition vstate : Type := bool * list string.

Definition flag (st : vstate) (msg : string) : vstate :=
  (false, (snd st ++ [msg])%list).

(** [except (ValueError, TypeError)] *)
Definition is_value_or_type_error (e : exn) : bool :=
  match e with
  | ValueError _ | JSONDecodeError | TypeError => true
  | _ => false
  end.

(** [field not in record or not record[field]] *)
Definition is_missing (record : pyval) (field : string) : result bool :=
  has <- contains field record;;
  if negb has then Ok true
  else v <- getitem record field;; Ok (negb (truthy v)).

Definition check_required (record : pyval) (row_num : nat) (st : vstate)
  : result vstate :=
  missing_fields <- filterM (is_missing record) required_fields;;
  match missing_fields with
  | [] => Ok st
  | _ => Ok (flag st (msg_missing missing_fields row_num))
  end.

Definition out_of_range (score : float) : bool :=
  (float_ltb score float_neg_one || float_ltb float_one score)%bool.

Definition check_sentiment_score (record : pyval) (row_num : nat)
  (st : vstate) : result vstate :=
  has <- contains "sentiment_score" record;;
  if has then
    v <- getitem record "sentiment_score";;
    if is_none v then Ok st
    else match py_float v with
         | Ok score =>
             if out_of_range score then Ok (flag st (msg_score_range row_num))
             else Ok st
         | Raise e =>
             if is_value_or_type_error e
             then Ok (flag st (msg_score_type row_num))
             else Raise e
         end
  else Ok st.

Definition check_language (record : pyval) (row_num : nat) (st : vstate)
  : result vstate :=
  has <- contains "language" record;;
  if has then
    v <- getitem record "language";;
    if truthy v then
      m <- match_language v;;
      if m then Ok st else Ok (flag st (msg_language row_num))
    else Ok st
  else Ok st.

Definition check_timestamp (record : pyval) (row_num : nat) (st : vstate)
  : result vstate :=
  has <- contains "timestamp" record;;
  if has then
    v <- getitem record "timestamp";;
    if truthy v then
      text <- py_replace_Z v;;
      match fromisoformat text with
      | Some _ => Ok st
      | None => Ok (flag st (msg_timestamp row_num))
      end
    else Ok st
  else Ok st.

Definition validate_record (record : pyval) (row_num : nat) (st : vstate)
  : result vstate :=
  st <- check_required record row_num st;;
  st <- check_sentiment_score record row_num st;;
  st <- check_language record row_num st;;
  check_timestamp record row_num st.

(** [for idx, record in enumerate(data)] *)
Fixpoint validate_loop (data : batch) (idx : nat) (st : vstate)
  : result vstate :=
  match data with
  | [] => Ok st
  | record :: rest =>
      st' <- validate_record record (idx + 1) st;;
      validate_loop rest (S idx) st'
  end.

Definition validate_data (data : batch) : result (bool * list string) :=
  validate_loop data 0%nat (true, []).


(** ** generate_validation_report *)

Definition present_and_truthy (field : string) (record : pyval)
  : result bool :=
  has <- contains field record;;
  if has then v <- getitem record field;; Ok (truthy v) else Ok false.

(** One step of
    [all("language" in r and re.match(...) for r in data if "language" in r)]:
    a record without the key is skipped by the generator's filter. *)
Definition language_ok (record : pyval) : result bool :=
  selected <- contains "language" record;;
  if selected then
    has <- contains "language" record;;
    if has then v <- getitem record "language";; match_language v
    else Ok false
  else Ok true.

Fixpoint sentiment_status (data : batch) : result string :=
  match data with
  | [] => Ok "valid"
  | record :: rest =>
      has <- contains "sentiment_score" record;;
      if has then
        v <- getitem record "sentiment_score";;
        if is_none v then sentiment_status rest
        else match py_float v with
             | Ok score =>
                 if out_of_range score then Ok "invalid"
                 else sentiment_status rest
             | Raise e =>
                 if is_value_or_type_error e then Ok "invalid" else Raise e
             end
      else sentiment_status rest
  end.

Definition validation_header (n : nat) (s_id s_lang s_text s_ts s_score : string)
  : string :=
  "# Customer Feedback Data Validation Report:" ++ nl
  ++ "- Total Feedback Records: " ++ str_of_nat n ++ nl
  ++ "## Required Fields Check:" ++ nl
  ++ "  feedback_id: " ++ s_id ++ nl
  ++ "  language: " ++ s_lang ++ nl
  ++ "  feedback_text: " ++ s_text ++ nl
  ++ "  timestamp: " ++ s_ts ++ nl
  ++ "  sentiment_score: " ++ s_score ++ nl
  ++ nl
  ++ "## Validation Status:" ++ nl.

Definition success_message : string :=
  "Data validation is successful! Would you like to proceed with the analysis or provide another dataset?".

Definition generate_validation_report (data : batch) : result string :=
  '(is_valid, error_messages) <- validate_data data;;
  id_ok <- allM (present_and_truthy "feedback_id") data;;
  lang_ok <- allM language_ok data;;
  text_ok <- allM (contains "feedback_text") data;;
  ts_ok <- allM (present_and_truthy "timestamp") data;;
  s_score <- sentiment_status data;;
  let report :=
    validation_header (List.length data)
      (if id_ok then "present" else "missing")
      (if lang_ok then "valid" else "invalid")
      (if text_ok then "valid" else "invalid")
      (if ts_ok then "valid" else "invalid")
      s_score in
  Ok (report ++ (if is_valid then success_message
                 else str_join nl error_messages)).

(** ** Enrichment *)

Definition translate_feedback (text language : pyval) : pyval :=
  if eq_str language "en" then text
  else PStr ("[Translated from " ++ py_str language ++ "] " ++ py_str text).

Context {H : Host}.

(** [dt.astimezone(datetime.timezone.utc)]: a naive value is read as local
    time of the host. *)
Definition astimezone_utc (dt : datetime) : result datetime :=
  offset <- match tzinfo dt with
            | Some off => Ok off
            | None => local_utcoffset dt
            end;;
  shift_to_utc dt offset.

Definition synchronize_timestamp (timestamp : pyval) : result string :=
  text <- py_replace_Z timestamp;;
  match fromisoformat text with
  | None => Raise (ValueError ("Invalid isoformat string: " ++ repr_str text))
  | Some dt => utc <- astimezone_utc dt;; Ok (isoformat utc)
  end.

(** The body of the loop of [process_feedback]. *)
Definition process_record (record : pyval) : result pyval :=
  feedback_id <- getitem record "feedback_id";;
  language <- getitem record "language";;
  feedback_text <- getitem record "feedback_text";;
  language' <- getitem record "language";;
  let translated := translate_feedback feedback_text language' in
  timestamp <- getitem record "timestamp";;
  synchronized <- synchronize_timestamp timestamp;;
  let processed_record :=
    [("feedback_id", feedback_id); ("language", language);
     ("feedback_text", translated); ("timestamp", PStr synchronized)] in
  has <- contains "sentiment_score" record;;
  provided <- (if has then v <- getitem record "sentiment_score";;
                           Ok (if is_none v then None else Some v)
               else Ok None);;
  match provided with
  | None =>
      '(sentiment_score, _, _, _) <- calculate_sentiment_score translated;;
      Ok (PDict (dict_set processed_record "sentiment_score"
                          (PFloat sentiment_score)))
  | Some v =>
      score <- py_float v;;
      Ok (PDict (dict_set processed_record "sentiment_score" (PFloat score)))
  end.

Definition process_feedback (data : batch) : result batch :=
  mapM process_record data.

(** ** generate_detailed_report *)

(** [original.get("sentiment_score", "Not provided")] *)
Definition get_or (v : pyval) (k : string) (default : pyval) : result pyval :=
  match v with
  | PDict d => Ok (match dict_get d k with Some x => x | None => default end)
  | _ => Raise AttributeError
  end.

Definition detail_header (n : nat) : string :=
  "# Customer Feedback JSON Summary" ++ nl ++ nl
  ++ "**Total Feedback Records Evaluated:** " ++ str_of_nat n ++ nl ++ nl
  ++ "---" ++ nl ++ nl.

Definition detail_block (original processed : pyval) : result string :=
  text <- getitem processed "feedback_text";;
  '(sentiment_score, positive_count, negative_count, total_words) <-
     calculate_sentiment_score text;;
  o_id <- getitem original "feedback_id";;
  o_lang <- getitem original "language";;
  o_text <- getitem original "feedback_text";;
  o_score <- get_or original "sentiment_score" (PStr "Not provided");;
  o_ts <- getitem original "timestamp";;
  p_text <- getitem processed "feedback_text";;
  p_score <- getitem processed "sentiment_score";;
  p_ts <- getitem processed "timestamp";;
  Ok ("## Detailed Analysis per Feedback" ++ nl ++ nl
      ++ "### Feedback: " ++ py_str o_id ++ nl ++ nl
      ++ "#### Input Data:" ++ nl
      ++ "- **Language:** " ++ py_str o_lang ++ nl
      ++ "- **Feedback Text:** " ++ py_str o_text ++ nl
      ++ "- **Sentiment Score (if provided):** " ++ py_str o_score ++ nl
      ++ "- **Timestamp:** " ++ py_str o_ts ++ nl ++ nl
      ++ "---" ++ nl ++ nl
      ++ "## Processing Steps" ++ nl ++ nl
      ++ "### 1. Translation Check" ++ nl
      ++ "- **IF** language is not " ++ dq ++ "en" ++ dq
      ++ ", **THEN** the translated text is: " ++ py_str p_text ++ nl
      ++ "- **ELSE**: Use the original text." ++ nl ++ nl
      ++ "### 2. Sentiment Analysis Calculation" ++ nl
      ++ "- **Count of Positive Words (P):** " ++ str_of_Z positive_count ++ nl
      ++ "- **Count of Negative Words (N):** " ++ str_of_Z negative_count ++ nl
      ++ "- **Total Words:** " ++ str_of_Z total_words ++ nl
      ++ "- **Calculation:**  " ++ nl
      ++ "  $$ \text{sentiment\_score} = \frac{("
      ++ str_of_Z positive_count ++ " - " ++ str_of_Z negative_count
      ++ ")}{total\_words} = \frac{"
      ++ str_of_Z (positive_count - negative_count) ++ "}{"
      ++ str_of_Z total_words ++ "} = " ++ float_repr sentiment_score
      ++ " $$" ++ nl
      ++ "- **Final Sentiment Score:** " ++ py_str p_score ++ nl ++ nl
      ++ "### 3. Timestamp Synchronization" ++ nl
      ++ "- **Synchronized Timestamp:** " ++ py_str p_ts ++ nl ++ nl
      ++ "---" ++ nl ++ nl).

(** [for idx, (original, processed) in enumerate(zip(data, processed_data))] *)
Fixpoint detail_blocks (pairs : list (pyval * pyval)) (report : string)
  : result string :=
  match pairs with
  | [] => Ok report
  | (original, processed) :: rest =>
      block <- detail_block original processed;;
      detail_blocks rest (report ++ block)
  end.

Definition json_output (processed_data : batch) : pyval :=
  PDict [("feedbacks", PList processed_data)].

Definition generate_detailed_report (data processed_data : batch)
  : result string :=
  report <- detail_blocks (combine data processed_data)
                          (detail_header (List.length data));;
  Ok (report ++ "## Structured JSON OUTPUT" ++ nl ++ nl ++ "```json" ++ nl
      ++ json_dumps (json_output processed_data) ++ nl ++ "```").

(** ** The decoders *)

Definition invalid_csv (msg : string) : exn :=
  ValueError ("ERROR: Invalid CSV format. " ++ msg).

Definition exn_message (e : exn) : string :=
  match e with
  | ValueError msg => msg
  | _ => ""
  end.

Definition cell_value (c : option string) : pyval :=
  match c with
  | Some s => PStr s
  | None => PNone
  end.

Definition row_dict (row : list (string * option string)) : list (string * pyval) :=
  map (fun kv => (fst kv, cell_value (snd kv))) row.

(** The body of the loop of [parse_csv], with its [except Exception]. *)
Definition csv_row (row : list (string * pyval)) : result pyval :=
  match dict_get row "sentiment_score" with
  | Some v =>
      if (negb (truthy v)
          || match v with
             | PStr s => String.eqb (str_lower s) "null"
             | _ => false
             end)%bool
      then Ok (PDict (dict_set row "sentiment_score" PNone))
      else match py_float v with
           | Ok f => Ok (PDict (dict_set row "sentiment_score" (PFloat f)))
           | Raise e => Raise (invalid_csv (exn_message e))
           end
  | None => Ok (PDict row)
  end.

Definition parse_csv (csv_data : string) : result batch :=
  let '(rows, failure) :=
    csv_DictReader (str_split_on (ascii_of_nat 10) (str_strip csv_data)) in
  records <- mapM (fun row => csv_row (row_dict row)) rows;;
  match failure with
  | Some msg => Raise (invalid_csv msg)
  | None => Ok records
  end.

Definition setitem (record : pyval) (k : string) (v : pyval) : result pyval :=
  match record with
  | PDict d => Ok (PDict (dict_set d k v))
  | _ => Raise TypeError
  end.

(** The body of the loop of [parse_json]. *)
Definition json_record (record : pyval) : result pyval :=
  has <- contains "sentiment_score" record;;
  if has then
    v <- getitem record "sentiment_score";;
    if (is_none v || eq_str v "null")%bool
    then setitem record "sentiment_score" PNone
    else if negb (eq_str v "")
    then f <- py_float v;; setitem record "sentiment_score" (PFloat f)
    else Ok record
  else Ok record.

Definition invalid_json_structure : exn :=
  ValueError "ERROR: Invalid JSON structure. Expected 'feedbacks' array.".

Definition parse_json (json_data : string) : result batch :=
  match json_loads json_data with
  | Raise JSONDecodeError => Raise (ValueError "ERROR: Invalid JSON format.")
  | Raise e => Raise e
  | Ok data =>
      has <- contains "feedbacks" data;;
      if has then
        feedbacks <- getitem data "feedbacks";;
        match feedbacks with
        | PList records => mapM json_record records
        | _ => Raise invalid_json_structure
        end
      else Raise invalid_json_structure
  end.

(** ** process_data *)

Definition decode (data_input : string) : result batch :=
  if str_startswith "{" (str_strip data_input)
  then parse_json data_input
  else parse_csv data_input.

Definition is_value_error (e : exn) : bool :=
  match e with
  | ValueError _ | JSONDecodeError => true
  | _ => false
  end.

Definition process_data (data_input : string) : result string :=
  match decode data_input with
  | Raise e => if is_value_error e then Ok (exn_message e) else Raise e
  | Ok data =>
      '(is_valid, error_messages) <- validate_data data;;
      if negb is_valid then generate_validation_report data
      else
        processed_data <- process_feedback data;;
        generate_detailed_report data processed_data
  end.

End Pipeline.

(** * A reference host library

    Executable definitions of the library functions, for running the
    pipeline on concrete inputs.  They follow CPython on the fragment
    described with each function. *)

Module Reference.

(** ** [repr] of a float: the shortest decimal numeral that reads back as
    the same double, the nearest to it among the shortest. *)

Definition float_eqb (x y : float) : bool :=
  match x, y with
  | S754_zero a, S754_zero b => Bool.eqb a b
  | S754_infinity a, S754_infinity b => Bool.eqb a b
  | S754_nan, S754_nan => true
  | S754_finite a m e, S754_finite b n f =>
      (Bool.eqb a b && Pos.eqb m n && (e =? f))%bool
  | _, _ => false
  end.

(** [m * 2^e] as a fraction. *)
Definition frac_of (m : positive) (e : Z) : Z * Z :=
  (Z.pos m * 2 ^ Z.max e 0, 2 ^ Z.max (- e) 0).

(** [10^k <= n / d] *)
Definition ge_pow10 (n d k : Z) : bool :=
  if 0 <=? k then d * 10 ^ k <=? n else d <=? n * 10 ^ (- k).

(** The decimal exponent [k] with [10^k <= n / d < 10^(k+1)]. *)
Definition decimal_exponent (n d : Z) : Z :=
  let est := ((Z.log2 n - Z.log2 d) * 30103) / 100000 in
  let k := est - 2 in
  let k := if ge_pow10 n d (k + 1) then k + 1 else k in
  let k := if ge_pow10 n d (k + 1) then k + 1 else k in
  let k := if ge_pow10 n d (k + 1) then k + 1 else k in
  let k := if ge_pow10 n d (k + 1) then k + 1 else k in
  k.

(** The [digits]-digit candidates around [m * 2^e], as (numeral, power of
    ten), nearest first. *)
Definition candidates (m : positive) (e : Z) (k : Z) (digits : Z)
  : list (Z * Z) :=
  let '(n, d) := frac_of m e in
  let p := digits - 1 - k in
  let '(sn, sd) := if 0 <=? p then (n * 10 ^ p, d) else (n, d * 10 ^ (- p)) in
  let lo := sn / sd in
  let r := sn mod sd in
  let near_lo :=
    match 2 * r ?= sd with
    | Lt => true
    | Gt => false
    | Eq => Z.even lo
    end in
  if r =? 0 then [(lo, - p)]
  else if near_lo then [(lo, - p); (lo + 1, - p)]
  else [(lo + 1, - p); (lo, - p)].

Definition reads_back (x : float) (c : Z * Z) : bool :=
  float_eqb (float_of_decimal false (fst c) (snd c)) x.

Fixpoint shortest (m : positive) (e : Z) (k : Z) (digits : Z) (fuel : nat)
  : Z * Z :=
  match fuel with
  | O => (Z.pos m, 0)
  | S fuel' =>
      match filter (reads_back (S754_finite false m e)) (candidates m e k digits) with
      | c :: _ => c
      | [] => shortest m e k (digits + 1) fuel'
      end
  end.

Fixpoint strip_zeros (fuel : nat) (c p : Z) : Z * Z :=
  match fuel with
  | O => (c, p)
  | S fuel' =>
      if ((c mod 10 =? 0) && negb (c =? 0))%bool
      then strip_zeros fuel' (c / 10) (p + 1) else (c, p)
  end.

Fixpoint str_repeat (n : nat) (s : string) : string :=
  match n with
  | O => ""
  | S n' => s ++ str_repeat n' s
  end.

Definition str_take (n : nat) (s : string) : string := String.substring 0 n s.
Definition str_drop (n : nat) (s : string) : string :=
  String.substring n (String.length s - n) s.

(** The layout of [repr]: positional when the decimal point falls within
    (-4, 16], exponent notation otherwise. *)
Definition layout (digits : string) (decpt : Z) : string :=
  let len := Z.of_nat (String.length digits) in
  if ((-4 <? decpt) && (decpt <=? 16))%bool then
    if decpt <=? 0 then "0." ++ str_repeat (Z.to_nat (- decpt)) "0" ++ digits
    else if len <=? decpt
    then digits ++ str_repeat (Z.to_nat (decpt - len)) "0" ++ ".0"
    else str_take (Z.to_nat decpt) digits ++ "." ++ str_drop (Z.to_nat decpt) digits
  else
    let ex := decpt - 1 in
    str_take 1 digits
    ++ (if 1 <? len then "." ++ str_drop 1 digits else "")
    ++ "e" ++ (if ex <? 0 then "-" else "+") ++ pad 2 (Z.abs ex).

Definition float_repr (x : float) : string :=
  match x with
  | S754_nan => "nan"
  | S754_infinity s => if s then "-inf" else "inf"
  | S754_zero s => if s then "-0.0" else "0.0"
  | S754_finite s m e =>
      let '(n, d) := frac_of m e in
      let k := decimal_exponent n d in
      let '(c, p) := shortest m e k 1 17 in
      let '(c, p) := strip_zeros 20 c p in
      let digits := str_of_Z c in
      (if s then "-" else "")
      ++ layout digits (Z.of_nat (String.length digits) + p)
  end.

(** ** [csv.DictReader] with the default (excel) dialect

    The reader of CPython 3.11 and later: delimiter comma, quote character
    the double quote (doubled inside a quoted field), no escape character,
    not strict, fields of at most 131072 characters. *)

Inductive csv_state : Type :=
| START_RECORD | START_FIELD | IN_FIELD
| IN_QUOTED_FIELD | QUOTE_IN_QUOTED_FIELD | EAT_CRNL.

Record reader : Type := mk_reader {
  fields : list string;
  field : string;
  state : csv_state
}.

Definition fresh : reader := mk_reader [] "" START_RECORD.

Definition set_state (r : reader) (st : csv_state) : reader :=
  mk_reader (fields r) (field r) st.

Definition save_field (r : reader) (st : csv_state) : reader :=
  mk_reader (fields r ++ [field r])%list "" st.

Definition field_limit : Z := 131072.

Definition add_char (r : reader) (c : ascii) (st : csv_state)
  : reader + string :=
  if field_limit <=? Z.of_nat (String.length (field r))
  then inr "field larger than field limit (131072)"
  else inl (mk_reader (fields r) (field r ++ String c "") st).

Definition is_newline (c : ascii) : bool :=
  (Nat.eqb (code c) 10 || Nat.eqb (code c) 13)%bool.

Definition is_quote (c : ascii) : bool := Nat.eqb (code c) 34.
Definition is_comma (c : ascii) : bool := Nat.eqb (code c) 44.

Definition start_field (r : reader) (c : option ascii) : reader + string :=
  match c with
  | None => inl (save_field r START_RECORD)
  | Some ch =>
      if is_newline ch then inl (save_field r EAT_CRNL)
      else if is_quote ch then inl (set_state r IN_QUOTED_FIELD)
      else if is_comma ch then inl (save_field r START_FIELD)
      else add_char r ch IN_FIELD
  end.

(** One character of a line, or [None] at its end. *)
Definition process_char (r : reader) (c : option ascii) : reader + string :=
  match state r with
  | START_RECORD =>
      match c with
      | None => inl r
      | Some ch =>
          if is_newline ch then inl (set_state r EAT_CRNL)
          else start_field r c
      end
  | START_FIELD => start_field r c
  | IN_FIELD =>
      match c with
      | None => inl (save_field r START_RECORD)
      | Some ch =>
          if is_newline ch then inl (save_field r EAT_CRNL)
          else if is_comma ch then inl (save_field r START_FIELD)
          else add_char r ch IN_FIELD
      end
  | IN_QUOTED_FIELD =>
      match c with
      | None => inl r
      | Some ch =>
          if is_quote ch then inl (set_state r QUOTE_IN_QUOTED_FIELD)
          else add_char r ch IN_QUOTED_FIELD
      end
  | QUOTE_IN_QUOTED_FIELD =>
      match c with
      | None => inl (save_field r START_RECORD)
      | Some ch =>
          if is_quote ch then add_char r ch IN_QUOTED_FIELD
          else if is_comma ch then inl (save_field r START_FIELD)
          else if is_newline ch then inl (save_field r EAT_CRNL)
          else add_char r ch IN_FIELD
      end
  | EAT_CRNL =>
      match c with
      | None => inl (set_state r START_RECORD)
      | Some ch =>
          if is_newline ch then inl r
          else inr "new-line character seen in unquoted field - do you need to open the file with newline=''?"
      end
  end.

Fixpoint process_line (r : reader) (line : string) : reader + string :=
  match line with
  | EmptyString => process_char r None
  | String c rest =>
      match process_char r (Some c) with
      | inl r' => process_line r' rest
      | inr msg => inr msg
      end
  end.

Definition in_quoted (r : reader) : bool :=
  match state r with IN_QUOTED_FIELD => true | _ => false end.

Definition at_start (r : reader) : bool :=
  match state r with START_RECORD => true | _ => false end.

(** The records of [csv.reader(lines)], then the error that stopped it. *)
Fixpoint read_records (lines : list string) (r : reader)
  : list (list string) * option string :=
  match lines with
  | [] =>
      if (negb (str_is_empty (field r)) || in_quoted r)%bool
      then ([fields (save_field r START_RECORD)], None)
      else ([], None)
  | line :: rest =>
      match process_line r line with
      | inr msg => ([], Some msg)
      | inl r' =>
          if at_start r' then
            let '(records, failure) := read_records rest fresh in
            (fields r' :: records, failure)
          else read_records rest r'
      end
  end.

Fixpoint row_set (d : list (string * option string)) (k : string)
  (v : option string) : list (string * option string) :=
  match d with
  | [] => [(k, v)]
  | (k', v') :: d' =>
      if String.eqb k' k then (k', v) :: d' else (k', v') :: row_set d' k v
  end.

(** [dict(zip(fieldnames, row))], then [restval] (None) for the field names
    the row is too short for.  The entry under the key [None] that collects
    the cells of a row longer than the header is left out: the program
    never looks it up. *)
Fixpoint zip_row (names : list string) (cells : list string)
  (d : list (string * option string)) : list (string * option string) :=
  match names, cells with
  | name :: names', cell :: cells' =>
      zip_row names' cells' (row_set d name (Some cell))
  | _, [] => fold_left (fun acc name => row_set acc name None) names d
  | [], _ => d
  end.

Definition is_blank_row (cells : list string) : bool :=
  match cells with [] => true | _ => false end.

Definition csv_DictReader (lines : list string)
  : list (list (string * option string)) * option string :=
  match read_records lines fresh with
  | ([], failure) => ([], failure)
  | (fieldnames :: records, failure) =>
      (map (fun cells => zip_row fieldnames cells [])
           (filter (fun cells => negb (is_blank_row cells)) records),
       failure)
  end.

(** ** [json.loads]

    The decoder of the [json] module on a text of code points below 256:
    strict strings, [NaN], [Infinity] and [-Infinity] accepted, the last of
    two equal keys kept.  A [\u] escape above U+00FF has no counterpart in
    the model of [str] and is reported as [HostError]. *)

Definition is_json_space (c : ascii) : bool :=
  (Nat.eqb (code c) 32 || Nat.eqb (code c) 9
   || Nat.eqb (code c) 10 || Nat.eqb (code c) 13)%bool.

Definition skip_ws (s : string) : string := lstrip_with is_json_space s.

Definition hex_val (c : ascii) : option nat :=
  if is_digit c then Some (code c - 48)%nat
  else if in_range 97 102 c then Some (code c - 87)%nat
  else if in_range 65 70 c then Some (code c - 55)%nat
  else None.

Definition hex4 (a b c d : ascii) : option nat :=
  match hex_val a, hex_val b, hex_val c, hex_val d with
  | Some x, Some y, Some z, Some w =>
      Some (((x * 16 + y) * 16 + z) * 16 + w)%nat
  | _, _, _, _ => None
  end.

(** The text of a string literal after its opening quote. *)
Fixpoint scanstring (s : string) : result (string * string) :=
  match s with
  | EmptyString => Raise JSONDecodeError
  | String c rest =>
      if is_quote c then Ok ("", rest)
      else if Nat.ltb (code c) 32 then Raise JSONDecodeError
      else if Nat.eqb (code c) 92 then
        match rest with
        | String e rest' =>
            let simple (ch : nat) :=
              '(t, r) <- scanstring rest';; Ok (String (ascii_of_nat ch) t, r) in
            if is_quote e then simple 34%nat
            else if Nat.eqb (code e) 92 then simple 92%nat
            else if Ascii.eqb e "/" then simple 47%nat
            else if Ascii.eqb e "b" then simple 8%nat
            else if Ascii.eqb e "f" then simple 12%nat
            else if Ascii.eqb e "n" then simple 10%nat
            else if Ascii.eqb e "r" then simple 13%nat
            else if Ascii.eqb e "t" then simple 9%nat
            else if Ascii.eqb e "u" then
              match rest' with
              | String h1 (String h2 (String h3 (String h4 rest4))) =>
                  match hex4 h1 h2 h3 h4 with
                  | Some n =>
                      if Nat.ltb n 256 then
                        '(t, r) <- scanstring rest4;;
                        Ok (String (ascii_of_nat n) t, r)
                      else Raise HostError
                  | None => Raise JSONDecodeError
                  end
              | _ => Raise JSONDecodeError
              end
            else Raise JSONDecodeError
        | EmptyString => Raise JSONDecodeError
        end
      else '(t, r) <- scanstring rest;; Ok (String c t, r)
  end.

Fixpoint take_digits (s : string) : string * string :=
  match s with
  | String c rest =>
      if is_digit c then let '(d, r) := take_digits rest in (String c d, r)
      else ("", s)
  | EmptyString => ("", s)
  end.

(** A number: an optional minus, then 0 or a run of digits not starting
    with 0, then optionally a point and digits, then optionally an exponent
    (e or E, an optional sign, digits).  An integer without fraction and
    exponent is an [int], anything else goes through [float]. *)
Definition scan_number (s : string) : option (pyval * string) :=
  let '(sign, s1) :=
    match s with
    | String "-" s' => ("-", s')
    | _ => ("", s)
    end in
  let '(int_part, s2) :=
    match s1 with
    | String "0" s' => ("0", s')
    | _ => take_digits s1
    end in
  if str_is_empty int_part then None
  else
    let '(frac, s3) :=
      match s2 with
      | String "." s' =>
          let '(d, r) := take_digits s' in
          if str_is_empty d then ("", s2) else ("." ++ d, r)
      | _ => ("", s2)
      end in
    let '(ex, s4) :=
      match s3 with
      | String c s' =>
          if (Ascii.eqb c "e" || Ascii.eqb c "E")%bool then
            let '(sg, s'') :=
              match s' with
              | String "+" t => ("+", t)
              | String "-" t => ("-", t)
              | _ => ("", s')
              end in
            let '(d, r) := take_digits s'' in
            if str_is_empty d then ("", s3) else (String c (sg ++ d), r)
          else ("", s3)
      | _ => ("", s3)
      end in
    if (str_is_empty frac && str_is_empty ex)%bool then
      let '(v, _, _) := read_digits 0 0 int_part in
      Some (PInt (if str_is_empty sign then v else - v), s4)
    else
      match float_of_string (sign ++ int_part ++ frac ++ ex) with
      | Some f => Some (PFloat f, s4)
      | None => None
      end.

Definition strip_prefix (p s : string) : option string :=
  if String.prefix p s then Some (str_drop (String.length p) s) else None.

Definition scan_literal (s : string) : option (pyval * string) :=
  match strip_prefix "null" s with Some r => Some (PNone, r) | None =>
  match strip_prefix "true" s with Some r => Some (PBool true, r) | None =>
  match strip_prefix "false" s with Some r => Some (PBool false, r) | None =>
  match scan_number s with Some x => Some x | None =>
  match strip_prefix "NaN" s with Some r => Some (PFloat S754_nan, r) | None =>
  match strip_prefix "Infinity" s with
  | Some r => Some (PFloat (S754_infinity false), r)
  | None =>
  match strip_prefix "-Infinity" s with
  | Some r => Some (PFloat (S754_infinity true), r)
  | None => None
  end end end end end end end.

Fixpoint scan_once (fuel : nat) (s : string) : result (pyval * string) :=
  match fuel with
  | O => Raise HostError
  | S fuel' =>
      match s with
      | String c rest =>
          if is_quote c then
            '(t, r) <- scanstring rest;; Ok (PStr t, r)
          else if Ascii.eqb c "{" then
            match skip_ws rest with
            | String "}" r => Ok (PDict [], r)
            | body => scan_members fuel' body []
            end
          else if Ascii.eqb c "[" then
            match skip_ws rest with
            | String "]" r => Ok (PList [], r)
            | body => scan_items fuel' body []
            end
          else match scan_literal s with
               | Some x => Ok x
               | None => Raise JSONDecodeError
               end
      | EmptyString => Raise JSONDecodeError
      end
  end

with scan_items (fuel : nat) (s : string) (acc : list pyval)
  : result (pyval * string) :=
  match fuel with
  | O => Raise HostError
  | S fuel' =>
      '(v, r) <- scan_once fuel' s;;
      match skip_ws r with
      | String "]" r' => Ok (PList (acc ++ [v])%list, r')
      | String "," r' => scan_items fuel' (skip_ws r') (acc ++ [v])%list
      | _ => Raise JSONDecodeError
      end
  end

with scan_members (fuel : nat) (s : string) (acc : list (string * pyval))
  : result (pyval * string) :=
  match fuel with
  | O => Raise HostError
  | S fuel' =>
      match s with
      | String c rest =>
          if is_quote c then
            '(k, r) <- scanstring rest;;
            match skip_ws r with
            | String ":" r1 =>
                '(v, r2) <- scan_once fuel' (skip_ws r1);;
                match skip_ws r2 with
                | String "}" r3 => Ok (PDict (dict_set acc k v), r3)
                | String "," r3 =>
                    scan_members fuel' (skip_ws r3) (dict_set acc k v)
                | _ => Raise JSONDecodeError
                end
            | _ => Raise JSONDecodeError
            end
          else Raise JSONDecodeError
      | EmptyString => Raise JSONDecodeError
      end
  end.

Definition json_loads (text : string) : result pyval :=
  '(v, rest) <- scan_once (2 * String.length text + 2) (skip_ws text);;
  if str_is_empty (skip_ws rest) then Ok v else Raise JSONDecodeError.

(** ** [json.dumps(obj, indent=2)] *)

Definition json_escape_char (c : ascii) : string :=
  let n := code c in
  if Nat.eqb n 34 then String "\" dq
  else if Nat.eqb n 92 then "\\"
  else if Nat.eqb n 10 then "\n"
  else if Nat.eqb n 13 then "\r"
  else if Nat.eqb n 9 then "\t"
  else if Nat.eqb n 8 then "\b"
  else if Nat.eqb n 12 then "\f"
  else if in_range 32 126 c then String c ""
  else "\u00" ++ String (hex_digit (Nat.div n 16))
                   (String (hex_digit (Nat.modulo n 16)) "").

Definition json_string (s : string) : string :=
  dq ++ str_concat_map json_escape_char s ++ dq.

Definition json_float (x : float) : string :=
  match x with
  | S754_nan => "NaN"
  | S754_infinity s => if s then "-Infinity" else "Infinity"
  | _ => float_repr x
  end.

Definition indentation (level : nat) : string := nl ++ str_repeat level "  ".

Fixpoint encode (level : nat) (v : pyval) : string :=
  match v with
  | PNone => "null"
  | PBool b => if b then "true" else "false"
  | PInt z => str_of_Z z
  | PFloat f => json_float f
  | PStr s => json_string s
  | PList [] => "[]"
  | PList l =>
      "[" ++ indentation (S level)
      ++ str_join ("," ++ indentation (S level)) (map (encode (S level)) l)
      ++ indentation level ++ "]"
  | PDict [] => "{}"
  | PDict d =>
      "{" ++ indentation (S level)
      ++ str_join ("," ++ indentation (S level))
           (map (fun kv => json_string (fst kv) ++ ": " ++ encode (S level) (snd kv)) d)
      ++ indentation level ++ "}"
  end.

Definition json_dumps (v : pyval) : string := encode 0 v.

(** ** [datetime.fromisoformat]

    The texts every CPython since 3.7 reads alike: [YYYY-MM-DD], optionally
    followed by [T] or a blank and [HH:MM:SS], then optionally a fraction of
    three or six digits, then optionally an offset [+HH:MM] or [-HH:MM].
    Any other text is refused here. *)

Definition digits2 (s : string) : option (Z * string) :=
  match s with
  | String a (String b r) =>
      if (is_digit a && is_digit b)%bool
      then Some (digit_val a * 10 + digit_val b, r) else None
  | _ => None
  end.

Definition expect (c : ascii) (s : string) : option string :=
  match s with
  | String a r => if Ascii.eqb a c then Some r else None
  | EmptyString => None
  end.

Definition obind {A B} (o : option A) (k : A -> option B) : option B :=
  match o with Some a => k a | None => None end.

Definition parse_fraction (s : string) : option (Z * string) :=
  match s with
  | String "." r =>
      let '(d, rest) := take_digits r in
      let '(v, _, _) := read_digits 0 0 d in
      if Nat.eqb (String.length d) 3 then Some (v * 1000, rest)
      else if Nat.eqb (String.length d) 6 then Some (v, rest)
      else None
  | _ => Some (0, s)
  end.

Definition parse_offset (s : string) : option (option Z) :=
  match s with
  | EmptyString => Some None
  | String c r =>
      if (Ascii.eqb c "+" || Ascii.eqb c "-")%bool then
        obind (digits2 r) (fun '(h, r1) =>
        obind (expect ":" r1) (fun r2 =>
        obind (digits2 r2) (fun '(m, r3) =>
        if (str_is_empty r3 && (h <? 24) && (m <? 60))%bool
        then Some (Some ((if Ascii.eqb c "-" then -1 else 1)
                         * (h * 60 + m) * 60000000))
        else None)))
      else None
  end.

Definition valid_date (y m d : Z) : bool :=
  ((1 <=? y) && (1 <=? m) && (m <=? 12) && (1 <=? d)
   && (d <=? days_in_month y m))%bool.

Definition fromisoformat (text : string) : option datetime :=
  obind (digits2 text) (fun '(c, r0) =>
  obind (digits2 r0) (fun '(y, r1) =>
  obind (expect "-" r1) (fun r2 =>
  obind (digits2 r2) (fun '(mo, r3) =>
  obind (expect "-" r3) (fun r4 =>
  obind (digits2 r4) (fun '(d, r5) =>
  let yr := c * 100 + y in
  if negb (valid_date yr mo d) then None
  else
    match r5 with
    | EmptyString => Some (mk_datetime yr mo d 0 0 0 0 None)
    | String sep r6 =>
        if (Ascii.eqb sep "T" || Ascii.eqb sep " ")%bool then
          obind (digits2 r6) (fun '(h, r7) =>
          obind (expect ":" r7) (fun r8 =>
          obind (digits2 r8) (fun '(mi, r9) =>
          obind (expect ":" r9) (fun r10 =>
          obind (digits2 r10) (fun '(s, r11) =>
          obind (parse_fraction r11) (fun '(us, r12) =>
          obind (parse_offset r12) (fun tz =>
          if ((h <? 24) && (mi <? 60) && (s <? 60))%bool
          then Some (mk_datetime yr mo d h mi s us tz)
          else None)))))))
        else None
    end)))))).

#[export] Instance library : Library :=
  Build_Library json_loads json_dumps csv_DictReader fromisoformat float_repr.

(** A machine whose local time is a fixed number of minutes east of UTC. *)
Definition fixed_offset_host (minutes : Z) : Host :=
  {| local_utcoffset := fun _ => Ok (minutes * 60000000) |}.

Definition utc_host : Host := fixed_offset_host 0.

(** Text with the apostrophe standing for the double quote, to write JSON
    and quoted CSV inputs. *)
Definition quoted (s : string) : string :=
  str_map (fun c => if Ascii.eqb c "'" then ascii_of_nat 34 else c) s.

End Reference.

(** * Statements

    Definitions used to state the properties of the pipeline. *)

(** [-1 <= x <= 1] *)
Definition unit_float (x : float) : bool :=
  (float_leb float_neg_one x && float_leb x float_one)%bool.

(** The quotient of two ints, rounded to two decimals: the score. *)
Definition rounded_quotient (a t : Z) : option float :=
  match int_truediv a t with
  | Ok q => Some (round2 q)
  | Raise _ => None
  end.

Definition small_check (t a : nat) : bool :=
  let t := Z.of_nat t in
  let a := Z.of_nat a - 7 in
  if Z.abs a <=? t then
    match rounded_quotient a t with
    | Some x => unit_float x
    | None => false
    end
  else true.

Definition hundred_check (s : bool) (h : nat) : bool :=
  unit_float (SFdiv prec emax (S754_finite s (Pos.of_nat h) 0)
                              (S754_finite false 100 0)).

(** The count as the specification words it: the tokens, each occurrence
    counted, that equal some entry of the lexicon. *)
Definition spec_token_count (lexicon tokens : list string) : Z :=
  Z.of_nat (List.length (filter (fun token => str_mem token lexicon) tokens)).

(** The distinct tokens that equal some entry of the lexicon. *)
Definition distinct_matches (lexicon tokens : list string) : list string :=
  nodup string_dec (filter (fun token => str_mem token lexicon) tokens).

(** Inputs used in the examples below. *)

Definition csv_header : string :=
  "feedback_id,language,feedback_text,sentiment_score,timestamp".

(** A CSV document whose only row stops after its first cell. *)
Definition short_row_input : string := csv_header ++ nl ++ "FB1".

(** A record whose timestamp is a number, and one whose language is null. *)
Definition numeric_timestamp_batch : batch :=
  [PDict [("feedback_id", PStr "FB1"); ("language", PStr "en");
          ("feedback_text", PStr "good"); ("timestamp", PInt 20230321)]].

Definition null_language_batch : batch :=
  [PDict [("feedback_id", PStr "FB1"); ("language", PNone);
          ("feedback_text", PStr "good");
          ("timestamp", PStr "2023-03-21T08:00:00Z")]].

Definition null_language_input : string :=
  Reference.quoted
    "{'feedbacks': [{'feedback_id': 'FB1', 'language': null, 'feedback_text': 'good', 'timestamp': '2023-03-21T08:00:00Z'}]}".

Definition numeric_timestamp_input : string :=
  Reference.quoted
    "{'feedbacks': [{'feedback_id': 'FB1', 'language': 'en', 'feedback_text': 'good', 'timestamp': 20230321}]}".

(** A record with every required field valid and an empty feedback text. *)
Definition empty_text_batch : batch :=
  [PDict [("feedback_id", PStr "FB1"); ("language", PStr "en");
          ("feedback_text", PStr "");
          ("timestamp", PStr "2023-03-21T08:00:00Z")]].

Definition empty_text_input : string :=
  Reference.quoted
    "{'feedbacks': [{'feedback_id': 'FB1', 'language': 'en', 'feedback_text': '', 'timestamp': '2023-03-21T08:00:00Z'}]}".

(** The record of the documents below, with a given score. *)
Definition record_with_score (feedback_id : string) (score : pyval) : pyval :=
  PDict [("feedback_id", PStr feedback_id); ("language", PStr "en");
         ("feedback_text", PStr "good"); ("sentiment_score", score);
         ("timestamp", PStr "2023-03-21T08:00:00Z")].

(** JSON documents whose score is the empty string, and NULL in capitals. *)
Definition json_empty_score_input : string :=
  Reference.quoted
    "{'feedbacks': [{'feedback_id': 'FB1', 'language': 'en', 'feedback_text': 'good', 'sentiment_score': '', 'timestamp': '2023-03-21T08:00:00Z'}]}".

Definition json_upper_null_input : string :=
  Reference.quoted
    "{'feedbacks': [{'feedback_id': 'FB1', 'language': 'en', 'feedback_text': 'good', 'sentiment_score': 'NULL', 'timestamp': '2023-03-21T08:00:00Z'}]}".

(** The same record in CSV, with the cell NULL and with an empty cell. *)
Definition csv_upper_null_input : string :=
  csv_header ++ nl ++ "FB1,en,good,NULL,2023-03-21T08:00:00Z"
  ++ nl ++ "FB2,en,good,,2023-03-21T08:00:00Z".

(** Documents whose score is the text abc. *)
Definition csv_text_score_input : string :=
  csv_header ++ nl ++ "FB1,en,good,abc,2023-03-21T08:00:00Z".


(** A valid document whose timestamp carries no offset, and one with Z. *)
Definition naive_timestamp_input : string :=
  csv_header ++ nl ++ "FB1,en,good,null,2023-03-21T08:00:00".

Definition utc_timestamp_input : string :=
  csv_header ++ nl
  ++ "FB601,en,The new interface is good and intuitive,null,2023-03-21T08:00:00Z"
  ++ nl ++ "FB602,es,La calidad es buena,0.5,2023-03-21T08:10:00+02:00".

(** The decoded batch of [utc_timestamp_input]. *)
Definition sample_batch : batch :=
  [PDict [("feedback_id", PStr "FB601"); ("language", PStr "en");
          ("feedback_text", PStr "The new interface is good and intuitive");
          ("sentiment_score", PNone);
          ("timestamp", PStr "2023-03-21T08:00:00Z")];
   PDict [("feedback_id", PStr "FB602"); ("language", PStr "es");
          ("feedback_text", PStr "La calidad es buena");
          ("sentiment_score", PFloat (S754_finite false 4503599627370496 (-53)));
          ("timestamp", PStr "2023-03-21T08:10:00+02:00")]].

(** The enrichment of [sample_batch] on a host whose local time is UTC. *)
Definition sample_processed : batch :=
  Eval vm_compute in
    match process_feedback (L := Reference.library) (H := Reference.utc_host)
            sample_batch with
    | Ok processed => processed
    | Raise _ => []
    end.

(** Whether a report shows the given synchronized timestamp. *)
Definition shows_timestamp (ts : string) (outcome : result string) : bool :=
  match outcome with
  | Ok report => str_contains ("**Synchronized Timestamp:** " ++ ts) report
  | Raise _ => false
  end.

(** ** Host independence *)

Section HostIndependence.
Context {L : Library}.

(** The timestamp, once parsed, carries its own offset (or does not parse,
    or is not a string): the local time zone is not consulted. *)
Definition timestamp_has_offset (v : pyval) : bool :=
  match py_replace_Z v with
  | Ok text =>
      match fromisoformat text with
      | Some dt => match tzinfo dt with Some _ => true | None => false end
      | None => true
      end
  | Raise _ => true
  end.

Definition record_has_offset (record : pyval) : bool :=
  match getitem record "timestamp" with
  | Ok ts => timestamp_has_offset ts
  | Raise _ => true
  end.

Definition input_has_offsets (data_input : string) : bool :=
  match decode data_input with
  | Ok data => forallb record_has_offset data
  | Raise _ => true
  end.

End HostIndependence.

(** ** Enrichable records *)

Section Enrichable.
Context {L : Library} {H : Host}.

(** What validation does not check: the feedback text is a string, and the
    timestamp, once parsed, converts to UTC within the years 1..9999. *)
Definition enrichable (record : pyval) : Prop :=
  (exists s, getitem record "feedback_text" = Ok (PStr s))
  /\ forall ts text dt,
       getitem record "timestamp" = Ok ts ->
       py_replace_Z ts = Ok text ->
       fromisoformat text = Some dt ->
       exists utc, astimezone_utc dt = Ok utc.

End Enrichable.

(** ** The validation loop *)

(** The state of the validation loop is consistent when [is_valid] holds
    exactly while no message has been collected. *)
Definition consistent (st : vstate) : Prop :=
  fst st = match snd st with [] => true | _ => false end.

(** A check leaves the state alone or flags it with one message. *)
Definition one_step (st st' : vstate) : Prop :=
  st' = st \/ exists msg, st' = flag st msg.

(** ** Messages row by row *)

Section RowMessages.
Context {L : Library}.

(** The messages one record contributes, when checked as row [row_num]. *)
Definition record_messages (record : pyval) (row_num : nat)
  : result (list string) :=
  st <- validate_record record row_num (true, []);; Ok (snd st).

(** The messages of each record of a batch whose first row has number
    [idx + 1]. *)
Fixpoint batch_messages (data : batch) (idx : nat)
  : result (list (list string)) :=
  match data with
  | [] => Ok []
  | record :: rest =>
      msgs <- record_messages record (idx + 1);;
      others <- batch_messages rest (S idx);;
      Ok (msgs :: others)
  end.

(** Flagging a state with several messages in turn. *)
Definition flag_all (st : vstate) (msgs : list string) : vstate :=
  fold_left flag msgs st.

(** A check adds at most one message, and which one does not depend on the
    state it is given. *)
Definition uniform (check : vstate -> result vstate) (st st' : vstate) : Prop :=
  exists msgs, (List.length msgs <= 1)%nat
               /\ st' = flag_all st msgs
               /\ forall st2, check st2 = Ok (flag_all st2 msgs).

(** What the summary of the validation report asks of a record. *)
Definition summary_passes (record : pyval) : Prop :=
  present_and_truthy "feedback_id" record = Ok true
  /\ language_ok record = Ok true
  /\ contains "feedback_text" record = Ok true
  /\ present_and_truthy "timestamp" record = Ok true
  /\ forall rest, sentiment_status (record :: rest) = sentiment_status rest.

(** The detail report of a batch without records. *)
Definition empty_report : string :=
  detail_header 0 ++ "## Structured JSON OUTPUT" ++ nl ++ nl ++ "```json" ++ nl
  ++ json_dumps (json_output []) ++ nl ++ "```".

(** The lines that close the detail report: the payload of the processed
    batch in a fenced block. *)
Definition detail_footer (processed_data : batch) : string :=
  "## Structured JSON OUTPUT" ++ nl ++ nl ++ "```json" ++ nl
  ++ json_dumps (json_output processed_data) ++ nl ++ "```".

(** The rows that [csv.DictReader] yields for a document. *)
Definition csv_rows (csv_data : string) : list (list (string * option string)) :=
  fst (csv_DictReader (str_split_on (ascii_of_nat 10) (str_strip csv_data))).

End RowMessages.

(** ** The messages of validation *)

(** The five forms of a message of [validate_data] about row [row_num]. *)
Definition message_of_row (msg : string) (row_num : nat) : Prop :=
  (exists fields, fields <> [] /\ incl fields required_fields
                  /\ msg = msg_missing fields row_num)
  \/ msg = msg_score_range row_num
  \/ msg = msg_score_type row_num
  \/ msg = msg_language row_num
  \/ msg = msg_timestamp row_num.

(** A check leaves the state alone or flags it with a message about the
    row. *)
Definition row_step (row_num : nat) (st st' : vstate) : Prop :=
  st' = st \/ exists msg, message_of_row msg row_num /\ st' = flag st msg.

(** ** What the decoders change *)

(** Two dicts with the same keys in the same order that agree on every key
    but [sentiment_score]. *)
Definition same_but_score (d d' : list (string * pyval)) : Prop :=
  map fst d' = map fst d
  /\ forall k, k <> "sentiment_score" -> dict_get d' k = dict_get d k.

(** The score of a decoded CSV record: absent as before, or None, or the
    float that [float] makes of the cell. *)
Definition csv_score (before after : option pyval) : Prop :=
  match before with
  | None => after = None
  | Some v => after = Some PNone
              \/ exists f, py_float v = Ok f /\ after = Some (PFloat f)
  end.

(** The score of a decoded JSON record: as for CSV, or the empty string
    left in place. *)
Definition json_score (before after : option pyval) : Prop :=
  match before with
  | None => after = None
  | Some v => after = Some PNone
              \/ (exists f, py_float v = Ok f /\ after = Some (PFloat f))
              \/ (v = PStr "" /\ after = Some v)
  end.

(** A record as the CSV decoder makes it: every value is None or a string,
    but the score, which is None or a float. *)
Definition csv_typed (d : list (string * pyval)) : Prop :=
  (forall k v, k <> "sentiment_score" -> dict_get d k = Some v ->
               v = PNone \/ exists s, v = PStr s)
  /\ (forall v, dict_get d "sentiment_score" = Some v ->
                v = PNone \/ exists f, v = PFloat f).

(** ** More inputs for the examples *)

(** The decoding of [short_row_input]. *)
Definition short_row_batch : batch :=
  [PDict [("feedback_id", PStr "FB1"); ("language", PNone);
          ("feedback_text", PNone); ("sentiment_score", PNone);
          ("timestamp", PNone)]].

(** A CSV document whose second row fails four checks, its decoding, the
    messages of validation and the validation report. *)
Definition faulty_csv_input : string :=
  csv_header ++ nl ++ "FB1,en,good,null,2023-03-21T08:00:00Z"
  ++ nl ++ "FB2,english,,2,yesterday".

Definition faulty_batch : batch :=
  [record_with_score "FB1" PNone;
   PDict [("feedback_id", PStr "FB2"); ("language", PStr "english");
          ("feedback_text", PStr "");
          ("sentiment_score", PFloat (S754_finite false 4503599627370496 (-51)));
          ("timestamp", PStr "yesterday")]].

Definition faulty_batch_messages : list string :=
  ["ERROR: Missing required field(s): feedback_text in row 2.";
   "ERROR: Invalid value for the field(s): sentiment_score in row 2. Score must be between -1 and 1.";
   "ERROR: Invalid value for the field(s): language in row 2. Language must be in ISO 639-1 format.";
   "ERROR: Invalid value for the field(s): timestamp in row 2. Timestamp must be in ISO 8601 format."].

Definition faulty_batch_report : string :=
  Eval vm_compute in
    match generate_validation_report (L := Reference.library) faulty_batch with
    | Ok report => report
    | Raise _ => ""
    end.

(** The detail report of [utc_timestamp_input] on a host whose local time
    is UTC. *)
Definition sample_report : string :=
  Eval vm_compute in
    match generate_detailed_report (L := Reference.library)
            sample_batch sample_processed with
    | Ok report => report
    | Raise _ => ""
    end.

(** An input that starts with a brace and is not JSON, and a JSON object
    without the key [feedbacks]. *)
Definition broken_json_input : string := "{oops".

Definition json_without_feedbacks_input : string :=
  Reference.quoted "{'records': []}".

(** A JSON document with a numeric score, a null score and an extra field,
    and what [json.loads] makes of its [feedbacks]. *)
Definition json_scores_input : string :=
  Reference.quoted
    "{'feedbacks': [{'feedback_id': 'FB1', 'sentiment_score': 1, 'source': 'web'}, {'feedback_id': 'FB2', 'sentiment_score': null}]}".

Definition json_scores_batch : batch :=
  [PDict [("feedback_id", PStr "FB1"); ("sentiment_score", PFloat float_one);
          ("source", PStr "web")];
   PDict [("feedback_id", PStr "FB2"); ("sentiment_score", PNone)]].

(** A record without score in Spanish, and its enrichment on a host whose
    local time is UTC. *)
Definition spanish_record : pyval :=
  PDict [("feedback_id", PStr "FB606"); ("language", PStr "es");
         ("feedback_text", PStr "La calidad es good");
         ("timestamp", PStr "2023-03-21T08:50:00Z")].

Definition spanish_processed : pyval :=
  Eval vm_compute in
    match process_record (L := Reference.library) (H := Reference.utc_host)
            spanish_record with
    | Ok processed => processed
    | Raise _ => PNone
    end.

(** * Properties *)

(** ** Facts on binary64 rounding *)

Lemma digits2_pos_size p : digits2_pos p = Pos.size p.
Proof. induction p; simpl; congruence. Qed.

Lemma Zdigits2_le_of_lt (m k : Z) : 0 <= m -> 0 <= k -> m < 2 ^ k -> Zdigits2 m <= k.
Proof.
  intros Hm Hk Hlt. destruct m as [|p|p]; simpl; try lia.
  rewrite digits2_pos_size.
  pose proof (Pos.size_le p) as Hs.
  assert (H2 : 2 ^ Z.pos (Pos.size p) <= 2 * Z.pos p).
  { replace (2 ^ Z.pos (Pos.size p)) with (Z.pos (2 ^ Pos.size p)) by (rewrite Pos2Z.inj_pow; reflexivity).
    lia. }
  destruct (Z_lt_le_dec k (Z.pos (Pos.size p))) as [Hlt'|]; [|lia].
  exfalso.
  assert (2 ^ (k + 1) <= 2 ^ Z.pos (Pos.size p)) by (apply Z.pow_le_mono_r; lia).
  rewrite Z.pow_add_r in H by lia. lia.
Qed.

Lemma shr_1_m mrs : 0 <= shr_m mrs -> shr_m (shr_1 mrs) = shr_m mrs / 2.
Proof.
  destruct mrs as [m r s]; simpl. intros Hm.
  destruct m as [|p|p]; try lia; [reflexivity|].
  destruct p; simpl shr_m.
  - rewrite Pos2Z.inj_xI. apply Z.div_unique with 1; lia.
  - rewrite Pos2Z.inj_xO. apply Z.div_unique with 0; lia.
  - reflexivity.
Qed.

Lemma iter_shr_1_m p : forall mrs, 0 <= shr_m mrs ->
  shr_m (iter_pos shr_1 p mrs) = shr_m mrs / 2 ^ Z.pos p.
Proof.
  induction p as [p IH|p IH|]; intros mrs Hm; cbn [iter_pos].
  - assert (H1 : 0 <= shr_m (shr_1 mrs)) by (rewrite shr_1_m by lia; apply Z.div_pos; lia).
    assert (H2 : 0 <= shr_m (iter_pos shr_1 p (shr_1 mrs))).
    { rewrite IH by lia. apply Z.div_pos; [lia|]. apply Z.pow_pos_nonneg; lia. }
    rewrite IH by lia. rewrite IH by lia. rewrite shr_1_m by lia.
    replace (2 ^ Z.pos p~1) with (2 * 2 ^ Z.pos p * 2 ^ Z.pos p).
    + assert (0 < 2 ^ Z.pos p) by (apply Z.pow_pos_nonneg; lia).
      rewrite !Z.div_div by lia. f_equal; lia.
    + rewrite (Pos2Z.inj_xI p).
      replace (2 * Z.pos p + 1) with (1 + Z.pos p + Z.pos p) by lia.
      rewrite !Z.pow_add_r by lia. reflexivity.
  - assert (H2 : 0 <= shr_m (iter_pos shr_1 p mrs)).
    { rewrite IH by lia. apply Z.div_pos; [lia|]. apply Z.pow_pos_nonneg; lia. }
    rewrite IH by lia. rewrite IH by lia.
    replace (2 ^ Z.pos p~0) with (2 ^ Z.pos p * 2 ^ Z.pos p).
    + assert (0 < 2 ^ Z.pos p) by (apply Z.pow_pos_nonneg; lia).
      rewrite !Z.div_div by lia. f_equal; lia.
    + rewrite (Pos2Z.inj_xO p).
      replace (2 * Z.pos p) with (Z.pos p + Z.pos p) by lia.
      rewrite Z.pow_add_r by lia. reflexivity.
  - rewrite shr_1_m by lia. reflexivity.
Qed.

Lemma shr_record_of_loc_m m l : shr_m (shr_record_of_loc m l) = m.
Proof. destruct l as [|[| |]]; reflexivity. Qed.

(** What a shift keeps: the exponent grows by [k >= 0], the mantissa is
    divided by [2^k], and the exponent stays below [-53] for a value below
    one. *)
Lemma shr_fexp_bound m e l :
  0 <= m -> e <= -53 -> m < 2 ^ (- e) ->
  exists k, 0 <= k /\ snd (shr_fexp prec emax m e l) = e + k
            /\ e + k <= -53
            /\ shr_m (fst (shr_fexp prec emax m e l)) = m / 2 ^ k.
Proof.
  intros Hm He Hlt. unfold shr_fexp, shr.
  assert (Hd : Zdigits2 m + e <= 0).
  { pose proof (Zdigits2_le_of_lt m (- e) Hm ltac:(lia) Hlt). lia. }
  assert (Hf : fexp prec emax (Zdigits2 m + e) <= -53).
  { unfold fexp, emin, prec, emax. lia. }
  destruct (fexp prec emax (Zdigits2 m + e) - e) as [|p|p] eqn:E; simpl.
  - exists 0. rewrite shr_record_of_loc_m, Z.div_1_r. repeat split; lia.
  - exists (Z.pos p). rewrite iter_shr_1_m by (rewrite shr_record_of_loc_m; lia).
    rewrite shr_record_of_loc_m. repeat split; lia.
  - exists 0. rewrite shr_record_of_loc_m, Z.div_1_r. repeat split; lia.
Qed.

Lemma round_nearest_even_bound m l :
  m <= round_nearest_even m l <= m + 1.
Proof.
  unfold round_nearest_even. destruct l as [|[| |]]; try lia.
  destruct (Z.even m); lia.
Qed.

(** Rounding a value of at most 7/8, given with an exponent of at most -53,
    yields a zero or a positive double below one. *)
Lemma binary_round_aux_bound s q e l :
  0 <= q -> e <= -53 -> 8 * q <= 7 * 2 ^ (- e) ->
  binary_round_aux prec emax s q e l = S754_zero s
  \/ exists m e2, binary_round_aux prec emax s q e l = S754_finite s m e2
                  /\ e2 <= -53 /\ Z.pos m < 2 ^ (- e2).
Proof.
  intros Hq He Hb. unfold binary_round_aux.
  assert (Hpow : 2 ^ 53 <= 2 ^ (- e)) by (apply Z.pow_le_mono_r; lia).
  assert (Hlt : q < 2 ^ (- e)) by lia.
  destruct (shr_fexp_bound q e l Hq He Hlt) as (k & Hk & He1 & He1' & Hm1).
  destruct (shr_fexp prec emax q e l) as [mrs1 e1]. simpl in He1, Hm1. subst e1.
  set (m2 := round_nearest_even (shr_m mrs1) (loc_of_shr_record mrs1)).
  pose proof (round_nearest_even_bound (shr_m mrs1) (loc_of_shr_record mrs1)) as Hr.
  fold m2 in Hr.
  assert (Hpk : 0 < 2 ^ k) by (apply Z.pow_pos_nonneg; lia).
  assert (Hsplit : 2 ^ (- e) = 2 ^ (- (e + k)) * 2 ^ k).
  { rewrite <- Z.pow_add_r by lia. f_equal. lia. }
  assert (Hm1pos : 0 <= shr_m mrs1) by (rewrite Hm1; apply Z.div_pos; lia).
  assert (Hm1b : 8 * shr_m mrs1 <= 7 * 2 ^ (- (e + k))).
  { assert (shr_m mrs1 * 2 ^ k <= q).
    { rewrite Hm1. rewrite Z.mul_comm. apply Z.mul_div_le. lia. }
    nia. }
  assert (Hpow2 : 2 ^ 53 <= 2 ^ (- (e + k))) by (apply Z.pow_le_mono_r; lia).
  assert (Hm2 : m2 < 2 ^ (- (e + k))) by (change (2 ^ 53) with 9007199254740992 in Hpow2; lia).
  destruct (shr_fexp_bound m2 (e + k) loc_Exact ltac:(lia) He1' Hm2)
    as (k2 & Hk2 & He2 & He2' & Hm3).
  destruct (shr_fexp prec emax m2 (e + k) loc_Exact) as [mrs2 e2].
  simpl in He2, Hm3. subst e2.
  assert (Hpk2 : 0 < 2 ^ k2) by (apply Z.pow_pos_nonneg; lia).
  assert (Hm3b : shr_m mrs2 < 2 ^ (- (e + k + k2))).
  { assert (Hs2 : 2 ^ (- (e + k)) = 2 ^ (- (e + k + k2)) * 2 ^ k2).
    { rewrite <- Z.pow_add_r by lia. f_equal. lia. }
    assert (shr_m mrs2 * 2 ^ k2 <= m2).
    { rewrite Hm3. rewrite Z.mul_comm. apply Z.mul_div_le. lia. }
    nia. }
  assert (Hm3pos : 0 <= shr_m mrs2) by (rewrite Hm3; apply Z.div_pos; lia).
  destruct (shr_m mrs2) as [|m|m] eqn:E3; [left; reflexivity| |lia].
  right. exists m, (e + k + k2).
  replace (e + k + k2 <=? emax - prec) with true
    by (symmetry; apply Z.leb_le; unfold emax, prec; lia).
  repeat split; lia.
Qed.


Lemma below_one_unit s m e : e <= -53 -> unit_float (S754_finite s m e) = true.
Proof.
  intros He. unfold unit_float, float_leb, SFleb, float_neg_one, float_one, SFcompare.
  destruct s; cbv beta iota.
  - destruct (Z.compare_spec (-52) e); try lia; reflexivity.
  - destruct (Z.compare_spec e (-52)); try lia; reflexivity.
Qed.

Lemma zero_unit s : unit_float (S754_zero s) = true.
Proof. destruct s; reflexivity. Qed.

Lemma div_core_bound (pa pt : positive) :
  8 * Z.pos pa <= 7 * Z.pos pt ->
  exists q e l,
    SFdiv_core_binary prec emax (Z.pos pa) 0 (Z.pos pt) 0 = (q, e, l)
    /\ 0 <= q /\ e <= -53 /\ 8 * q <= 7 * 2 ^ (- e).
Proof.
  intros Hle. unfold SFdiv_core_binary.
  set (d1 := Zdigits2 (Z.pos pa)). set (d2 := Zdigits2 (Z.pos pt)).
  assert (Hd : d1 <= d2).
  { unfold d1, d2. apply Zdigits2_le_of_lt; [lia|cbn [Zdigits2]; lia|].
    cbn [Zdigits2]. rewrite (digits2_pos_size pt).
    pose proof (Pos.size_gt pt) as Ht.
    assert (Z.pos pt < 2 ^ Z.pos (Pos.size pt)).
    { change 2 with (Z.pos 2). rewrite <- Pos2Z.inj_pow. lia. }
    lia. }
  set (e' := Z.min (fexp prec emax (d1 + 0 - (d2 + 0))) (0 - 0)).
  assert (He : e' <= -53 /\ -1074 <= e').
  { unfold e', fexp, emin, prec, emax. lia. }
  replace (0 - 0 - e') with (- e') by lia.
  destruct (- e') as [|s|s] eqn:Es; try lia.
  rewrite Z.shiftl_mul_pow2 by lia.
  assert (Hp : 0 < 2 ^ Z.pos s) by (apply Z.pow_pos_nonneg; lia).
  pose proof (Z_div_mod (Z.pos pa * 2 ^ Z.pos s) (Z.pos pt) ltac:(lia)) as Hdm.
  destruct (Z.div_eucl (Z.pos pa * 2 ^ Z.pos s) (Z.pos pt)) as [q r].
  exists q, e', (new_location (Z.pos pt) r).
  split; [reflexivity|].
  rewrite Es. set (P := 2 ^ Z.pos s) in *.
  assert (Hq : 0 <= q) by nia.
  assert (Hm : 8 * q * Z.pos pt <= 7 * P * Z.pos pt) by nia.
  repeat split; try lia.
  apply Z.mul_le_mono_pos_r in Hm; lia.
Qed.

Lemma round_half_even_div_bound n d :
  0 < d -> 0 <= n -> n < 100 * d -> 0 <= round_half_even_div n d <= 100.
Proof.
  intros Hd Hn Hlt. unfold round_half_even_div.
  assert (Hq : 0 <= n / d <= 99).
  { split; [apply Z.div_pos; lia|].
    assert (n / d < 100) by (apply Z.div_lt_upper_bound; lia). lia. }
  destruct (2 * (n mod d) ?= d); [destruct (Z.even (n / d))| |]; lia.
Qed.


Lemma hundred_check_all :
  forallb (fun h => (hundred_check false h && hundred_check true h)%bool)
          (seq 1 100) = true.
Proof. vm_compute. reflexivity. Qed.

Lemma div_hundred_unit s h :
  Z.pos h <= 100 ->
  unit_float (SFdiv prec emax (S754_finite s h 0) (S754_finite false 100 0)) = true.
Proof.
  intros Hh. pose proof hundred_check_all as Hall.
  rewrite forallb_forall in Hall.
  specialize (Hall (Pos.to_nat h)).
  assert (Hin : In (Pos.to_nat h) (seq 1 100)) by (apply in_seq; lia).
  apply Hall in Hin. apply andb_true_iff in Hin. unfold hundred_check in Hin.
  rewrite Pos2Nat.id in Hin. destruct s; tauto.
Qed.

Lemma round2_below_one s m e :
  e <= -53 -> Z.pos m < 2 ^ (- e) -> unit_float (round2 (S754_finite s m e)) = true.
Proof.
  intros He Hm. unfold round2, hundredths.
  replace (0 <=? e) with false by (symmetry; apply Z.leb_gt; lia).
  assert (Hp : 0 < 2 ^ (- e)) by (apply Z.pow_pos_nonneg; lia).
  pose proof (round_half_even_div_bound (Z.pos m * 100) (2 ^ (- e)) Hp ltac:(lia) ltac:(lia)) as Hb.
  destruct (round_half_even_div (Z.pos m * 100) (2 ^ (- e))) as [|h|h]; try apply zero_unit.
  apply div_hundred_unit. lia.
Qed.


Lemma small_check_all :
  forallb (fun t => forallb (small_check t) (seq 0 15)) (seq 1 7) = true.
Proof. vm_compute. reflexivity. Qed.

Lemma rounded_quotient_unit a t :
  0 < t -> -7 <= a <= 7 -> Z.abs a <= t ->
  exists x, rounded_quotient a t = Some x /\ unit_float x = true.
Proof.
  intros Ht Ha Hat.
  destruct (Z_le_gt_dec t 7) as [Hsmall|Hbig].
  - pose proof small_check_all as Hall.
    rewrite forallb_forall in Hall.
    specialize (Hall (Z.to_nat t) ltac:(apply in_seq; lia)).
    rewrite forallb_forall in Hall.
    specialize (Hall (Z.to_nat (a + 7)) ltac:(apply in_seq; lia)).
    unfold small_check in Hall.
    rewrite !Z2Nat.id in Hall by lia.
    replace (a + 7 - 7) with a in Hall by lia.
    replace (Z.abs a <=? t) with true in Hall by (symmetry; apply Z.leb_le; lia).
    destruct (rounded_quotient a t) as [x|]; [|discriminate]. eauto.
  - unfold rounded_quotient, int_truediv.
    destruct t as [|pt|pt]; try lia.
    destruct a as [|pa|pa].
    + eexists; split; [reflexivity|]. reflexivity.
    + cbn [Z.abs Z.to_pos Z.ltb Z.compare SFdiv xorb].
      destruct (div_core_bound pa pt ltac:(lia)) as (q & e & l & Hc & Hq & He & Hb).
      rewrite Hc.
      destruct (binary_round_aux_bound false q e l Hq He Hb) as [Hz|(m & e2 & Hf & He2 & Hm)].
      * rewrite Hz. eexists; split; [reflexivity|]. reflexivity.
      * rewrite Hf. eexists; split; [reflexivity|]. apply round2_below_one; assumption.
    + cbn [Z.abs Z.to_pos Z.ltb Z.compare SFdiv xorb].
      destruct (div_core_bound pa pt ltac:(lia)) as (q & e & l & Hc & Hq & He & Hb).
      rewrite Hc.
      destruct (binary_round_aux_bound true q e l Hq He Hb) as [Hz|(m & e2 & Hf & He2 & Hm)].
      * rewrite Hz. eexists; split; [reflexivity|]. reflexivity.
      * rewrite Hf. eexists; split; [reflexivity|]. apply round2_below_one; assumption.
Qed.

(** ** Tokens and counts *)

Lemma str_mem_In s l : str_mem s l = true <-> In s l.
Proof.
  unfold str_mem. rewrite existsb_exists. split.
  - intros (x & Hin & Heq). apply String.eqb_eq in Heq. now subst.
  - intros Hin. exists s. split; [assumption|apply String.eqb_refl].
Qed.

Lemma count_words_distinct words tokens :
  NoDup words ->
  count_words words tokens = Z.of_nat (List.length (distinct_matches words tokens)).
Proof.
  intros Hnd. unfold count_words, distinct_matches. f_equal.
  apply Permutation_length. apply NoDup_Permutation.
  - now apply NoDup_filter.
  - apply NoDup_nodup.
  - intros w. rewrite nodup_In, !filter_In, !str_mem_In. tauto.
Qed.

Lemma count_words_le_tokens words tokens :
  NoDup words -> count_words words tokens <= Z.of_nat (List.length tokens).
Proof.
  intros Hnd. unfold count_words. apply inj_le.
  apply NoDup_incl_length; [now apply NoDup_filter|].
  intros w Hw. apply filter_In in Hw. now apply str_mem_In.
Qed.

Lemma count_words_le_words words tokens :
  0 <= count_words words tokens <= Z.of_nat (List.length words).
Proof.
  unfold count_words. split; [lia|]. apply inj_le. apply filter_length_le.
Qed.

Lemma NoDup_positive_words : NoDup positive_words.
Proof. unfold positive_words. repeat constructor; simpl; intuition discriminate. Qed.

Lemma NoDup_negative_words : NoDup negative_words.
Proof. unfold negative_words. repeat constructor; simpl; intuition discriminate. Qed.

Lemma is_space_lower c : is_space (lower_char c) = is_space c.
Proof. destruct c as [[] [] [] [] [] [] [] []]; reflexivity. Qed.

Lemma str_is_empty_lower s : str_is_empty (str_lower s) = str_is_empty s.
Proof. destruct s; reflexivity. Qed.

Lemma split_go_lower s :
  split_go (str_lower s)
  = (str_lower (fst (split_go s)), map str_lower (snd (split_go s))).
Proof.
  induction s as [|c s IH]; [reflexivity|].
  change (str_lower (String c s)) with (String (lower_char c) (str_lower s)).
  cbn [split_go]. rewrite IH. destruct (split_go s) as [cur toks]. cbn [fst snd].
  rewrite is_space_lower, str_is_empty_lower.
  destruct (is_space c); [destruct (str_is_empty cur)|]; reflexivity.
Qed.

Lemma str_split_lower s : str_split (str_lower s) = map str_lower (str_split s).
Proof.
  unfold str_split. rewrite split_go_lower. destruct (split_go s) as [cur toks].
  cbn [fst snd]. rewrite str_is_empty_lower. destruct (str_is_empty cur); reflexivity.
Qed.

(** ** The sentiment scorer *)

Lemma rounded_quotient_counts tokens :
  tokens <> [] ->
  let p := count_words positive_words tokens in
  let n := count_words negative_words tokens in
  exists q, int_truediv (p - n) (Z.of_nat (List.length tokens)) = Ok q
            /\ unit_float (round2 q) = true.
Proof.
  intros Hne p n.
  pose proof (count_words_le_tokens positive_words tokens NoDup_positive_words) as Hp.
  pose proof (count_words_le_tokens negative_words tokens NoDup_negative_words) as Hn.
  pose proof (count_words_le_words positive_words tokens) as Hp'.
  pose proof (count_words_le_words negative_words tokens) as Hn'.
  change (Z.of_nat (List.length positive_words)) with 7 in Hp'.
  change (Z.of_nat (List.length negative_words)) with 7 in Hn'.
  fold p in Hp, Hp'. fold n in Hn, Hn'.
  assert (Ht : 0 < Z.of_nat (List.length tokens)).
  { clear - Hne. destruct tokens; [now elim Hne|cbn [List.length]; lia]. }
  destruct (rounded_quotient_unit (p - n) (Z.of_nat (List.length tokens)))
    as (x & Hx & Hu); try lia.
  unfold rounded_quotient in Hx.
  destruct (int_truediv (p - n) (Z.of_nat (List.length tokens))) as [q|]; [|discriminate].
  exists q. split; [reflexivity|]. injection Hx as Hx. rewrite Hx. exact Hu.
Qed.

Lemma calculate_sentiment_score_eq text :
  let tokens := str_split (str_lower text) in
  let p := count_words positive_words tokens in
  let n := count_words negative_words tokens in
  let t := Z.of_nat (List.length tokens) in
  exists score,
    calculate_sentiment_score (PStr text) = Ok (score, p, n, t)
    /\ unit_float score = true
    /\ (if 0 <? t
        then exists q, int_truediv (p - n) t = Ok q /\ score = round2 q
        else score = float_zero).
Proof.
  intros tokens p n t. unfold calculate_sentiment_score. cbn [py_lower bind].
  fold tokens. fold p. fold n. fold t.
  destruct (Z.ltb_spec 0 t) as [Hpos|Hle].
  - assert (Hne : tokens <> []).
    { intro E. unfold t in Hpos. rewrite E in Hpos. cbn in Hpos. lia. }
    destruct (rounded_quotient_counts tokens Hne) as (q & Hq & Hu).
    change (int_truediv (p - n) t = Ok q) in Hq.
    exists (round2 q). rewrite Hq. cbn [bind]. eauto.
  - exists float_zero. cbn [bind]. repeat split.
Qed.

(** C2 (as amended): the scorer lower-cases the text and splits it on white
    space; [positive_count] is the number of distinct tokens that equal an
    entry of the positive lexicon (an entry is counted once however often it
    occurs), [negative_count] likewise, [total_words] is the number of
    tokens, and the score is [round((positive - negative) / total, 2)] when
    there is a token and [0.0] otherwise.  Matching is equality of whole
    tokens: "unhappy" counts for the negative lexicon only. *)
Theorem scorer_counts_lexicon_entries (text : string) :
  let tokens := str_split (str_lower text) in
  let p := Z.of_nat (List.length (distinct_matches positive_words tokens)) in
  let n := Z.of_nat (List.length (distinct_matches negative_words tokens)) in
  let t := Z.of_nat (List.length tokens) in
  exists score,
    calculate_sentiment_score (PStr text) = Ok (score, p, n, t)
    /\ (if 0 <? t
        then exists q, int_truediv (p - n) t = Ok q /\ score = round2 q
        else score = float_zero)
    /\ calculate_sentiment_score (PStr "unhappy") = Ok (float_neg_one, 0, 1, 1).
Proof.
  intros tokens p n t.
  destruct (calculate_sentiment_score_eq text) as (score & Hs & _ & Hq).
  fold tokens in Hs, Hq.
  rewrite (count_words_distinct _ _ NoDup_positive_words) in Hs, Hq.
  rewrite (count_words_distinct _ _ NoDup_negative_words) in Hs, Hq.
  exists score. split; [exact Hs|]. split; [exact Hq|]. vm_compute. reflexivity.
Qed.

(** C2 (as stated) fails: on "good good" the specification counts two
    positive tokens, the scorer reports one. *)
Lemma scorer_token_occurrences_counterexample :
  spec_token_count positive_words (str_split (str_lower "good good")) = 2
  /\ exists score,
       calculate_sentiment_score (PStr "good good") = Ok (score, 1, 0, 2).
Proof. split; [reflexivity|]. eexists. vm_compute. reflexivity. Qed.

(** C7: for every text the score lies in [-1, 1]; a text without tokens
    gets the score 0.0 and the counts 0, 0, 0, without a division. *)
Theorem sentiment_score_in_unit_interval (text : string) :
  exists score p n t,
    calculate_sentiment_score (PStr text) = Ok (score, p, n, t)
    /\ float_leb float_neg_one score = true
    /\ float_leb score float_one = true
    /\ (str_split text = [] ->
        score = float_zero /\ p = 0 /\ n = 0 /\ t = 0).
Proof.
  destruct (calculate_sentiment_score_eq text) as (score & Hs & Hu & Hq).
  apply andb_true_iff in Hu. destruct Hu as [Hlo Hhi].
  do 4 eexists. split; [exact Hs|]. split; [exact Hlo|]. split; [exact Hhi|].
  intros Hnil. rewrite str_split_lower, Hnil in *. cbn in Hq |- *.
  repeat split. exact Hq.
Qed.

(** ** Validation and the gate of [process_data] *)

Section Gate.
Context {L : Library} {H : Host}.

Lemma bind_Ok {A B} (c : result A) (k : A -> result B) (b : B) :
  bind c k = Ok b -> exists a, c = Ok a /\ k a = Ok b.
Proof. destruct c as [a|e]; cbn; [eauto|discriminate]. Qed.

Lemma Ok_inj {A} (a b : A) : Ok a = Ok b -> a = b.
Proof. intros E. now injection E. Qed.

Lemma consistent_flag st msg : consistent (flag st msg).
Proof. unfold consistent, flag. cbn. destruct (snd st); reflexivity. Qed.

Lemma one_step_consistent st st' :
  one_step st st' -> consistent st -> consistent st'.
Proof. intros [->|(msg & ->)] Hc; [assumption|apply consistent_flag]. Qed.

Ltac step_cases Hrun :=
  repeat match type of Hrun with
    | bind ?c _ = Ok _ =>
        let a := fresh "a" in let Ha := fresh "Ha" in
        apply bind_Ok in Hrun; destruct Hrun as (a & Ha & Hrun)
    | context [match ?x with _ => _ end] => destruct x eqn:?
    | Ok _ = Ok _ => injection Hrun as <-
    | Raise _ = Ok _ => discriminate Hrun
    end.

Lemma check_required_step record row st st' :
  check_required record row st = Ok st' -> one_step st st'.
Proof.
  unfold check_required. intros Hrun. step_cases Hrun;
    first [now left | right; eexists; reflexivity].
Qed.

Lemma check_sentiment_score_step record row st st' :
  check_sentiment_score record row st = Ok st' -> one_step st st'.
Proof.
  unfold check_sentiment_score. intros Hrun. step_cases Hrun;
    first [now left | right; eexists; reflexivity].
Qed.

Lemma check_language_step record row st st' :
  check_language record row st = Ok st' -> one_step st st'.
Proof.
  unfold check_language. intros Hrun. step_cases Hrun;
    first [now left | right; eexists; reflexivity].
Qed.

Lemma check_timestamp_step record row st st' :
  check_timestamp record row st = Ok st' -> one_step st st'.
Proof.
  unfold check_timestamp. intros Hrun. step_cases Hrun;
    first [now left | right; eexists; reflexivity].
Qed.

Lemma validate_record_consistent record row st st' :
  validate_record record row st = Ok st' -> consistent st -> consistent st'.
Proof.
  unfold validate_record. intros Hrun Hc.
  apply bind_Ok in Hrun. destruct Hrun as (s1 & H1 & Hrun).
  apply bind_Ok in Hrun. destruct Hrun as (s2 & H2 & Hrun).
  apply bind_Ok in Hrun. destruct Hrun as (s3 & H3 & Hrun).
  apply check_required_step in H1. apply check_sentiment_score_step in H2.
  apply check_language_step in H3. apply check_timestamp_step in Hrun.
  eauto using one_step_consistent.
Qed.

Lemma validate_loop_consistent data : forall idx st st',
  validate_loop data idx st = Ok st' -> consistent st -> consistent st'.
Proof.
  induction data as [|record rest IH]; intros idx st st' Hrun Hc; cbn in Hrun.
  - now injection Hrun as <-.
  - apply bind_Ok in Hrun. destruct Hrun as (s1 & H1 & Hrun).
    eapply IH; [exact Hrun|]. eapply validate_record_consistent; eauto.
Qed.

(** [is_valid] is false exactly when a message was collected. *)
Lemma validate_data_flag data is_valid error_messages :
  validate_data data = Ok (is_valid, error_messages) ->
  is_valid = match error_messages with [] => true | _ => false end.
Proof.
  intros Hrun.
  apply (validate_loop_consistent data 0%nat (true, []) (is_valid, error_messages) Hrun).
  reflexivity.
Qed.

(** X5: the gate: once the input is decoded and validated, [process_data]
    is the validation report when a message was collected, and enrichment
    followed by the detail report otherwise. *)
Lemma process_data_gate data_input data is_valid error_messages :
  decode data_input = Ok data ->
  validate_data data = Ok (is_valid, error_messages) ->
  process_data data_input
  = match error_messages with
    | [] => processed_data <- process_feedback data;;
            generate_detailed_report data processed_data
    | _ => generate_validation_report data
    end.
Proof.
  intros Hd Hv. unfold process_data. rewrite Hd, Hv. cbn [bind].
  rewrite (validate_data_flag _ _ _ Hv). destruct error_messages; reflexivity.
Qed.

(** X4: the validation report of a batch with messages ends with every
    collected message, in the order of collection, one on a line. *)
Lemma validation_report_lists_errors data is_valid error_messages report :
  validate_data data = Ok (is_valid, error_messages) ->
  error_messages <> [] ->
  generate_validation_report data = Ok report ->
  exists header, report = header ++ str_join nl error_messages.
Proof.
  intros Hv Hne Hr. unfold generate_validation_report in Hr. rewrite Hv in Hr.
  cbn [bind] in Hr. rewrite (validate_data_flag _ _ _ Hv) in Hr.
  destruct error_messages as [|msg rest]; [congruence|].
  repeat (apply bind_Ok in Hr; destruct Hr as (? & _ & Hr)).
  apply Ok_inj in Hr. rewrite <- Hr. eexists. reflexivity.
Qed.

End Gate.

(** ** Evaluations with the reference library *)

Section Evaluations.
Import Reference.
#[local] Existing Instance library.
#[local] Existing Instance utc_host.

(** C1 (code defect): on a CSV document whose row is shorter than the
    header the batch decodes, validation collects a message, and then
    rendering the validation report raises TypeError, so [process_data]
    returns no report at all. *)
Theorem short_row_report_raises :
  let data := [PDict [("feedback_id", PStr "FB1"); ("language", PNone);
                      ("feedback_text", PNone); ("sentiment_score", PNone);
                      ("timestamp", PNone)]] in
  decode short_row_input = Ok data
  /\ validate_data data
     = Ok (false,
           ["ERROR: Missing required field(s): language, feedback_text, timestamp in row 1."])
  /\ generate_validation_report data = Raise TypeError
  /\ process_data short_row_input = Raise TypeError.
Proof. vm_compute. repeat split. Qed.

(** C5 (code defect): a numeric timestamp makes [validate_data] raise
    AttributeError, and a null language, which [validate_data] reports as
    missing, makes [generate_validation_report] raise TypeError. *)
Theorem validation_path_raises :
  validate_data numeric_timestamp_batch = Raise AttributeError
  /\ process_data numeric_timestamp_input = Raise AttributeError
  /\ validate_data null_language_batch
     = Ok (false, ["ERROR: Missing required field(s): language in row 1."])
  /\ generate_validation_report null_language_batch = Raise TypeError
  /\ process_data null_language_input = Raise TypeError.
Proof. vm_compute. repeat split. Qed.

(** C6 (code defect): an empty feedback text is reported as a missing
    required field by [validate_data], while the summary of the same report
    marks [feedback_text] as valid; the record never reaches enrichment. *)
Theorem empty_feedback_text_reported_missing :
  validate_data empty_text_batch
  = Ok (false, ["ERROR: Missing required field(s): feedback_text in row 1."])
  /\ decode empty_text_input = Ok empty_text_batch
  /\ exists report,
       process_data empty_text_input = Ok report
       /\ str_contains "  feedback_text: valid" report = true
       /\ str_contains "ERROR: Missing required field(s): feedback_text in row 1."
                       report = true.
Proof.
  split; [vm_compute; reflexivity|]. split; [vm_compute; reflexivity|].
  eexists. split; [vm_compute; reflexivity|]. split; vm_compute; reflexivity.
Qed.

(** C3 (code defect): the JSON decoder leaves an empty-string score in
    place, so validation flags it as a type error, and lets [float] fail on
    NULL in capitals, so [process_data] returns that failure as a decode
    error; the CSV decoder turns both into None. *)
Theorem json_decoder_keeps_empty_and_upper_null :
  parse_json json_empty_score_input = Ok [record_with_score "FB1" (PStr "")]
  /\ validate_data [record_with_score "FB1" (PStr "")]
     = Ok (false, [msg_score_type 1])
  /\ parse_json json_upper_null_input
     = Raise (ValueError "could not convert string to float: 'NULL'")
  /\ process_data json_upper_null_input
     = Ok "could not convert string to float: 'NULL'"
  /\ parse_csv csv_upper_null_input
     = Ok [record_with_score "FB1" PNone; record_with_score "FB2" PNone].
Proof. vm_compute. repeat split. Qed.


End Evaluations.

(** ** Decoding a score that is not a number *)

Section TextScore.
Context {L : Library} {H : Host}.

Lemma mapM_Ok_inv {A B} (f : A -> result B) l out :
  mapM f l = Ok out -> Forall2 (fun x y => f x = Ok y) l out.
Proof.
  revert out. induction l as [|x l IH]; intros out Hrun; cbn in Hrun.
  - apply Ok_inj in Hrun. subst. constructor.
  - apply bind_Ok in Hrun. destruct Hrun as (y & Hy & Hrun).
    apply bind_Ok in Hrun. destruct Hrun as (r & Hr & Hrun).
    apply Ok_inj in Hrun. subst. constructor; auto.
Qed.


Lemma csv_row_failure row e :
  csv_row row = Raise e -> exists msg, e = invalid_csv msg.
Proof.
  unfold csv_row. intros Hrun.
  repeat match type of Hrun with
         | context [match ?x with _ => _ end] => destruct x eqn:?
         end; try discriminate.
  injection Hrun as <-. eauto.
Qed.



(** Messages are only ever added. *)
Lemma one_step_keeps st st' msg :
  one_step st st' -> In msg (snd st) -> In msg (snd st').
Proof.
  intros [->|(m & ->)] Hin; [assumption|]. cbn. apply in_or_app. now left.
Qed.


Lemma validate_record_keeps record row st st' msg :
  validate_record record row st = Ok st' -> In msg (snd st) -> In msg (snd st').
Proof.
  unfold validate_record. intros Hrun Hin.
  apply bind_Ok in Hrun. destruct Hrun as (s1 & H1 & Hrun).
  apply bind_Ok in Hrun. destruct Hrun as (s2 & H2 & Hrun).
  apply bind_Ok in Hrun. destruct Hrun as (s3 & H3 & Hrun).
  apply check_required_step in H1. apply check_sentiment_score_step in H2.
  apply check_language_step in H3. apply check_timestamp_step in Hrun.
  eauto using one_step_keeps.
Qed.


Lemma validate_loop_keeps data : forall idx st st' msg,
  validate_loop data idx st = Ok st' -> In msg (snd st) -> In msg (snd st').
Proof.
  induction data as [|record rest IH]; intros idx st st' msg Hrun Hin; cbn in Hrun.
  - apply Ok_inj in Hrun. now subst.
  - apply bind_Ok in Hrun. destruct Hrun as (s1 & H1 & Hrun).
    eapply IH; [exact Hrun|]. eapply validate_record_keeps; eauto.
Qed.




End TextScore.

(** ** Enrichment *)

Section Enrichment.
Context {L : Library} {H : Host}.

(** C8: the enricher returns as many records as it was given, and the
    record at each position of its output is the enrichment of the record
    at the same position of its input. *)
Theorem process_feedback_preserves_records data processed_data :
  process_feedback data = Ok processed_data ->
  List.length processed_data = List.length data
  /\ Forall2 (fun record processed => process_record record = Ok processed)
             data processed_data.
Proof.
  intros Hrun. apply mapM_Ok_inv in Hrun. split; [|exact Hrun].
  symmetry. eapply Forall2_length. exact Hrun.
Qed.





End Enrichment.

(** ** Dependence on the host *)

Section Hosts.
Context {L : Library}.

Lemma synchronize_timestamp_host (H1 H2 : Host) ts :
  timestamp_has_offset ts = true ->
  synchronize_timestamp (H := H1) ts = synchronize_timestamp (H := H2) ts.
Proof.
  unfold timestamp_has_offset, synchronize_timestamp, astimezone_utc.
  destruct (py_replace_Z ts) as [text|e]; [|reflexivity]. cbn [bind].
  destruct (fromisoformat text) as [dt|]; [|reflexivity].
  destruct (tzinfo dt); [reflexivity|discriminate].
Qed.

Lemma process_record_host (H1 H2 : Host) record :
  record_has_offset record = true ->
  process_record (H := H1) record = process_record (H := H2) record.
Proof.
  unfold record_has_offset, process_record. intros Hoff.
  destruct (getitem record "feedback_id"); [|reflexivity]. cbn [bind].
  destruct (getitem record "language"); [|reflexivity]. cbn [bind].
  destruct (getitem record "feedback_text"); [|reflexivity]. cbn [bind].
  destruct (getitem record "timestamp") as [ts|]; [|reflexivity]. cbn [bind].
  rewrite (synchronize_timestamp_host H1 H2 ts Hoff). reflexivity.
Qed.

Lemma process_feedback_host (H1 H2 : Host) data :
  forallb record_has_offset data = true ->
  process_feedback (H := H1) data = process_feedback (H := H2) data.
Proof.
  unfold process_feedback. induction data as [|record rest IH]; [reflexivity|].
  cbn [forallb mapM]. intros Hall. apply andb_true_iff in Hall.
  destruct Hall as [Hr Hrest]. rewrite (process_record_host H1 H2 record Hr).
  rewrite (IH Hrest). reflexivity.
Qed.

(** C10 (as amended): on one host [process_data] is a function of its
    input; on two hosts it returns the same outcome for every input in
    which each timestamp that parses carries its own UTC offset (an
    explicit offset or the suffix Z). *)
Theorem process_data_host_independent (H1 H2 : Host) data_input :
  input_has_offsets data_input = true ->
  process_data (H := H1) data_input = process_data (H := H2) data_input.
Proof.
  unfold input_has_offsets, process_data. intros Hoff.
  destruct (decode data_input) as [data|e]; [|reflexivity].
  destruct (validate_data data) as [[is_valid error_messages]|e]; [|reflexivity].
  cbn [bind]. destruct is_valid; [|reflexivity]. cbn [negb].
  rewrite (process_feedback_host H1 H2 data Hoff). reflexivity.
Qed.

End Hosts.

Section HostEvaluations.
Import Reference.
#[local] Existing Instance library.

(** C10 (as stated) fails: a timestamp without offset passes validation and
    is normalized to a different text on a host one hour east of UTC than
    on a host at UTC, and so the two reports differ. *)
Lemma naive_timestamp_counterexample :
  (exists data, decode naive_timestamp_input = Ok data
                /\ validate_data data = Ok (true, []))
  /\ synchronize_timestamp (H := utc_host) (PStr "2023-03-21T08:00:00")
     = Ok "2023-03-21T08:00:00+00:00"
  /\ synchronize_timestamp (H := fixed_offset_host 60) (PStr "2023-03-21T08:00:00")
     = Ok "2023-03-21T07:00:00+00:00"
  /\ process_data (H := utc_host) naive_timestamp_input
     <> process_data (H := fixed_offset_host 60) naive_timestamp_input.
Proof.
  split.
  { exists [PDict [("feedback_id", PStr "FB1"); ("language", PStr "en");
                   ("feedback_text", PStr "good"); ("sentiment_score", PNone);
                   ("timestamp", PStr "2023-03-21T08:00:00")]].
    vm_compute. split; reflexivity. }
  split; [vm_compute; reflexivity|]. split; [vm_compute; reflexivity|].
  intros E. apply (f_equal (shows_timestamp "2023-03-21T08:00:00+00:00")) in E.
  vm_compute in E. discriminate.
Qed.

(** The enrichment of the two-record sample batch on the reference library. *)
Lemma process_feedback_preserves_records_witness :
  process_feedback (H := utc_host) sample_batch = Ok sample_processed
  /\ List.length sample_processed = List.length sample_batch
  /\ Forall2 (fun record processed =>
                process_record (H := utc_host) record = Ok processed)
             sample_batch sample_processed.
Proof.
  split; [vm_compute; reflexivity|].
  apply (process_feedback_preserves_records (H := utc_host) sample_batch sample_processed).
  vm_compute; reflexivity.
Defined.


(** A document whose timestamps carry an offset, on a host at UTC and on a
    host one hour east of it. *)
Lemma process_data_host_independent_witness :
  input_has_offsets utc_timestamp_input = true
  /\ process_data (H := utc_host) utc_timestamp_input
     = process_data (H := fixed_offset_host 60) utc_timestamp_input.
Proof.
  split; [vm_compute; reflexivity|].
  apply (process_data_host_independent utc_host (fixed_offset_host 60) utc_timestamp_input).
  vm_compute; reflexivity.
Defined.


End HostEvaluations.

(** ** Valid batches are enriched *)

Section ValidBatches.
Context {L : Library} {H : Host}.

Lemma flag_nonempty st msg : snd (flag st msg) <> [].
Proof. unfold flag. cbn. destruct (snd st); discriminate. Qed.

Lemma one_step_clean st st' : one_step st st' -> snd st' = [] -> st' = st.
Proof.
  intros [->|(msg & ->)] Hnil; [reflexivity|]. now apply flag_nonempty in Hnil.
Qed.

Lemma filterM_nil {A} (p : A -> result bool) l :
  filterM p l = Ok [] -> Forall (fun x => p x = Ok false) l.
Proof.
  induction l as [|x l IH]; intros Hrun; [constructor|]. cbn in Hrun.
  apply bind_Ok in Hrun. destruct Hrun as (b & Hb & Hrun).
  apply bind_Ok in Hrun. destruct Hrun as (r & Hr & Hrun).
  apply Ok_inj in Hrun. destruct b; [discriminate|]. subst r. constructor; auto.
Qed.

Lemma is_missing_false record field :
  is_missing record field = Ok false ->
  exists d v, record = PDict d /\ dict_get d field = Some v /\ truthy v = true.
Proof.
  unfold is_missing. intros Hrun.
  destruct record as [|b|z|f|s|l|d]; try discriminate;
    cbn [contains bind getitem] in Hrun;
    try (destruct (negb _) in Hrun; discriminate).
  unfold dict_has in Hrun.
  destruct (dict_get d field) as [v|] eqn:Ed; cbn in Hrun; [|discriminate].
  apply Ok_inj in Hrun. exists d, v. repeat split; auto.
  now destruct (truthy v).
Qed.

Lemma check_required_clean record row st st' :
  check_required record row st = Ok st' -> snd st' = [] ->
  Forall (fun field => is_missing record field = Ok false) required_fields.
Proof.
  unfold check_required. intros Hrun Hnil.
  apply bind_Ok in Hrun. destruct Hrun as (missing & Hm & Hrun).
  destruct missing.
  - now apply filterM_nil.
  - apply Ok_inj in Hrun. subst st'. now apply flag_nonempty in Hnil.
Qed.

Lemma valid_record_enriches record row st st' :
  validate_record record row st = Ok st' -> snd st' = [] ->
  enrichable record ->
  exists processed, process_record record = Ok processed.
Proof.
  unfold validate_record. intros Hrun Hnil (Htext & Hutc).
  apply bind_Ok in Hrun. destruct Hrun as (s1 & H1 & Hrun).
  apply bind_Ok in Hrun. destruct Hrun as (s2 & H2 & Hrun).
  apply bind_Ok in Hrun. destruct Hrun as (s3 & H3 & H4).
  pose proof (one_step_clean _ _ (check_timestamp_step _ _ _ _ H4) Hnil) as E4.
  subst st'.
  pose proof (one_step_clean _ _ (check_language_step _ _ _ _ H3) Hnil) as E3.
  subst s3.
  pose proof (one_step_clean _ _ (check_sentiment_score_step _ _ _ _ H2) Hnil) as E2.
  subst s2.
  pose proof (check_required_clean _ _ _ _ H1 Hnil) as Hreq.
  unfold required_fields in Hreq.
  inversion Hreq as [|? ? Hid Hreq1]; subst.
  inversion Hreq1 as [|? ? Hlang Hreq2]; subst.
  inversion Hreq2 as [|? ? Htxt Hreq3]; subst.
  inversion Hreq3 as [|? ? Hts _]; subst.
  apply is_missing_false in Hid. destruct Hid as (d & vid & -> & Gid & _).
  apply is_missing_false in Hlang. destruct Hlang as (d1 & vlang & E & Glang & _).
  injection E as <-.
  apply is_missing_false in Htxt. destruct Htxt as (d1 & vtext & E & Gtext & _).
  injection E as <-.
  apply is_missing_false in Hts. destruct Hts as (d1 & vts & E & Gts & Tts).
  injection E as <-.
  destruct Htext as (s & Hs). cbn [getitem] in Hs. rewrite Gtext in Hs.
  apply Ok_inj in Hs. subst vtext.
  (* the timestamp parses *)
  unfold check_timestamp in H4. cbn [contains getitem bind] in H4. unfold dict_has in H4.
  rewrite Gts in H4. cbn [bind] in H4. rewrite Tts in H4.
  destruct (py_replace_Z vts) as [text|e] eqn:Erep; [|discriminate]. cbn [bind] in H4.
  destruct (fromisoformat text) as [dt|] eqn:Eiso;
    [|apply Ok_inj in H4; rewrite <- H4 in Hnil; now apply flag_nonempty in Hnil].
  destruct (Hutc vts text dt) as (utc & Eutc); auto.
  { cbn [getitem]. now rewrite Gts. }
  (* the score, when provided, converts *)
  unfold check_sentiment_score in H2. cbn [contains getitem bind] in H2.
  unfold dict_has in H2.
  unfold process_record. cbn [getitem contains]. unfold dict_has.
  rewrite Gid, Glang, Gtext, Gts. cbn [bind].
  unfold synchronize_timestamp. rewrite Erep. cbn [bind]. rewrite Eiso, Eutc.
  cbn [bind].
  assert (Hscore : exists r, calculate_sentiment_score
                               (translate_feedback (PStr s) vlang) = Ok r).
  { unfold translate_feedback. destruct (eq_str vlang "en").
    - destruct (calculate_sentiment_score_eq s) as (score & -> & _). eauto.
    - match goal with |- context [PStr ?t] =>
        destruct (calculate_sentiment_score_eq t) as (score & -> & _) end. eauto. }
  destruct Hscore as ([[[score p] n] t] & Hscore).
  destruct (dict_get d "sentiment_score") as [v|]; cbn [bind] in H2 |- *.
  - destruct (is_none v).
    + rewrite Hscore. cbn [bind]. eauto.
    + destruct (py_float v) as [f|e]; cbn [bind]; [eauto|].
      destruct (is_value_or_type_error e); [|discriminate].
      apply Ok_inj in H2. rewrite <- H2 in Hnil. now apply flag_nonempty in Hnil.
  - rewrite Hscore. cbn [bind]. eauto.
Qed.

Lemma validate_loop_clean data : forall idx st st',
  validate_loop data idx st = Ok st' -> snd st' = [] ->
  Forall enrichable data ->
  exists processed_data, process_feedback data = Ok processed_data.
Proof.
  induction data as [|record rest IH]; intros idx st st' Hrun Hnil Hall.
  - exists []. reflexivity.
  - cbn in Hrun. apply bind_Ok in Hrun. destruct Hrun as (s1 & H1 & Hrun).
    inversion Hall as [|? ? Hrec Hrest]; subst.
    assert (Hs1 : snd s1 = []).
    { destruct (snd s1) as [|msg l] eqn:E; [reflexivity|].
      pose proof (validate_loop_keeps rest _ _ _ msg Hrun) as Hk.
      rewrite E, Hnil in Hk. destruct Hk. now left. }
    destruct (valid_record_enriches _ _ _ _ H1 Hs1 Hrec) as (processed & Hp).
    destruct (IH _ _ _ Hrun Hnil Hrest) as (out & Hout).
    exists (processed :: out). unfold process_feedback in *. cbn.
    rewrite Hp, Hout. reflexivity.
Qed.

(** X11: a batch that validation accepts, whose feedback texts are strings
    and whose timestamps convert, is enriched: [process_feedback] returns. *)
Lemma valid_batch_is_enriched data :
  validate_data data = Ok (true, []) ->
  Forall enrichable data ->
  exists processed_data, process_feedback data = Ok processed_data.
Proof. intros Hv. exact (validate_loop_clean data _ _ _ Hv eq_refl). Qed.

End ValidBatches.

(** ** What the two decoders do with a score that stands for null *)

Lemma csv_row_null row cell :
  dict_get row "sentiment_score" = Some cell ->
  cell = PNone \/ (exists s, cell = PStr s /\ (s = "" \/ str_lower s = "null")) ->
  csv_row row = Ok (PDict (dict_set row "sentiment_score" PNone)).
Proof.
  intros Hg Hcell. unfold csv_row. rewrite Hg.
  destruct Hcell as [->|(s & -> & [->|Hs])]; try reflexivity.
  cbn [truthy]. rewrite Hs. cbn. now rewrite orb_true_r.
Qed.

Lemma json_record_null d v :
  dict_get d "sentiment_score" = Some v ->
  v = PNone \/ v = PStr "null" ->
  json_record (PDict d) = Ok (PDict (dict_set d "sentiment_score" PNone)).
Proof.
  intros Hg Hv. unfold json_record. cbn [contains getitem]. unfold dict_has.
  rewrite Hg. cbn [bind]. destruct Hv as [->| ->]; reflexivity.
Qed.

Lemma json_record_empty d :
  dict_get d "sentiment_score" = Some (PStr "") ->
  json_record (PDict d) = Ok (PDict d).
Proof.
  intros Hg. unfold json_record. cbn [contains getitem]. unfold dict_has.
  rewrite Hg. reflexivity.
Qed.

(** * Further properties of the pipeline *)

(** ** The messages of validation, row by row *)

Section Rows.
Context {L : Library}.

Ltac run_cases Hrun :=
  repeat match type of Hrun with
    | bind ?c _ = Ok _ =>
        let a := fresh "a" in let Ha := fresh "Ha" in
        apply bind_Ok in Hrun; destruct Hrun as (a & Ha & Hrun)
    | context [match ?x with _ => _ end] => destruct x eqn:?
    | Ok _ = Ok _ => apply Ok_inj in Hrun; subst
    | Raise _ = Ok _ => discriminate Hrun
    end.

Ltac replay :=
  repeat first
    [ progress cbn [bind]
    | match goal with
      | E : ?x = _ |- context [?x] => rewrite E
      end ];
  try reflexivity.

Lemma check_required_uniform record row st st' :
  check_required record row st = Ok st' ->
  uniform (check_required record row) st st'.
Proof.
  unfold check_required. intros Hrun. run_cases Hrun.
  - exists []. split; [cbn; lia|]. split; [reflexivity|]. intros st2. replay.
  - eexists [_]. split; [cbn; lia|]. split; [reflexivity|]. intros st2. replay.
Qed.

Lemma check_sentiment_score_uniform record row st st' :
  check_sentiment_score record row st = Ok st' ->
  uniform (check_sentiment_score record row) st st'.
Proof.
  unfold check_sentiment_score. intros Hrun. run_cases Hrun;
    first [ exists []; split; [cbn; lia|]; split; [reflexivity|]; intros st2; now replay
          | eexists [_]; split; [cbn; lia|]; split; [reflexivity|]; intros st2; now replay ].
Qed.

Lemma check_language_uniform record row st st' :
  check_language record row st = Ok st' ->
  uniform (check_language record row) st st'.
Proof.
  unfold check_language. intros Hrun. run_cases Hrun;
    first [ exists []; split; [cbn; lia|]; split; [reflexivity|]; intros st2; now replay
          | eexists [_]; split; [cbn; lia|]; split; [reflexivity|]; intros st2; now replay ].
Qed.

Lemma check_timestamp_uniform record row st st' :
  check_timestamp record row st = Ok st' ->
  uniform (check_timestamp record row) st st'.
Proof.
  unfold check_timestamp. intros Hrun. run_cases Hrun;
    first [ exists []; split; [cbn; lia|]; split; [reflexivity|]; intros st2; now replay
          | eexists [_]; split; [cbn; lia|]; split; [reflexivity|]; intros st2; now replay ].
Qed.

Lemma flag_all_app st a b : flag_all st (a ++ b)%list = flag_all (flag_all st a) b.
Proof. unfold flag_all. apply fold_left_app. Qed.

Lemma snd_flag_all st msgs : snd (flag_all st msgs) = (snd st ++ msgs)%list.
Proof.
  revert st. induction msgs as [|m msgs IH]; intros st; cbn.
  - now rewrite app_nil_r.
  - unfold flag_all in IH. rewrite IH. cbn. now rewrite <- app_assoc.
Qed.

(** The checks of one record add at most four messages, the same whatever
    was collected before. *)
Lemma validate_record_uniform record row st st' :
  validate_record record row st = Ok st' ->
  exists msgs, (List.length msgs <= 4)%nat
               /\ st' = flag_all st msgs
               /\ forall st2, validate_record record row st2 = Ok (flag_all st2 msgs).
Proof.
  unfold validate_record. intros Hrun.
  apply bind_Ok in Hrun. destruct Hrun as (s1 & H1 & Hrun).
  apply bind_Ok in Hrun. destruct Hrun as (s2 & H2 & Hrun).
  apply bind_Ok in Hrun. destruct Hrun as (s3 & H3 & H4).
  apply check_required_uniform in H1. destruct H1 as (m1 & L1 & -> & U1).
  apply check_sentiment_score_uniform in H2. destruct H2 as (m2 & L2 & -> & U2).
  apply check_language_uniform in H3. destruct H3 as (m3 & L3 & -> & U3).
  apply check_timestamp_uniform in H4. destruct H4 as (m4 & L4 & -> & U4).
  exists (m1 ++ m2 ++ m3 ++ m4)%list. split; [rewrite !length_app; lia|].
  split; [now rewrite !flag_all_app|].
  intros st2. rewrite U1. cbn [bind]. rewrite U2. cbn [bind]. rewrite U3.
  cbn [bind]. rewrite U4. now rewrite !flag_all_app.
Qed.

Lemma validate_loop_rows data : forall idx st st',
  validate_loop data idx st = Ok st' ->
  exists per_record,
    batch_messages data idx = Ok per_record
    /\ snd st' = (snd st ++ List.concat per_record)%list
    /\ List.length per_record = List.length data
    /\ Forall (fun msgs => (List.length msgs <= 4)%nat) per_record.
Proof.
  induction data as [|record rest IH]; intros idx st st' Hrun; cbn in Hrun.
  - apply Ok_inj in Hrun. subst. exists []. cbn. rewrite app_nil_r. auto.
  - apply bind_Ok in Hrun. destruct Hrun as (s1 & H1 & Hrun).
    apply validate_record_uniform in H1. destruct H1 as (msgs & Hlen & -> & U).
    destruct (IH _ _ _ Hrun) as (per & Hper & Hsnd & Hl & Hall).
    exists (msgs :: per). cbn [batch_messages]. unfold record_messages.
    rewrite U. cbn [bind]. rewrite Hper. cbn [bind].
    rewrite snd_flag_all in Hsnd |- *. cbn [snd app List.concat List.length].
    rewrite Hsnd, <- app_assoc. repeat split; auto.
Qed.

(** X1: the messages of a batch are those of its records taken one by one,
    each checked on its own with its 1-based row number, concatenated in row
    order; a record contributes at most four messages. *)
Theorem validate_data_by_rows data is_valid error_messages :
  validate_data data = Ok (is_valid, error_messages) ->
  exists per_record,
    batch_messages data 0 = Ok per_record
    /\ error_messages = List.concat per_record
    /\ List.length per_record = List.length data
    /\ Forall (fun msgs => (List.length msgs <= 4)%nat) per_record.
Proof.
  intros Hrun. destruct (validate_loop_rows data 0%nat _ _ Hrun)
    as (per & Hper & Hsnd & Hl & Hall).
  exists per. auto.
Qed.
End Rows.

(** ** More on the scorer *)

Lemma count_words_app a b tokens :
  count_words (a ++ b)%list tokens = count_words a tokens + count_words b tokens.
Proof. unfold count_words. rewrite filter_app, length_app. lia. Qed.

Lemma NoDup_lexicon : NoDup (positive_words ++ negative_words)%list.
Proof.
  unfold positive_words, negative_words. cbn [app].
  repeat constructor; cbn; intuition discriminate.
Qed.

(** X6: the two counts are between 0 and 7 and together never exceed the
    number of tokens: no token is counted for both lexicons, and a word is
    counted once. *)
Theorem scorer_counts_bounded (text : string) :
  exists score p n t,
    calculate_sentiment_score (PStr text) = Ok (score, p, n, t)
    /\ 0 <= p <= 7 /\ 0 <= n <= 7 /\ p + n <= t.
Proof.
  destruct (calculate_sentiment_score_eq text) as (score & Hs & _).
  do 4 eexists. split; [exact Hs|].
  pose proof (count_words_le_words positive_words (str_split (str_lower text))) as Hp.
  pose proof (count_words_le_words negative_words (str_split (str_lower text))) as Hn.
  change (Z.of_nat (List.length positive_words)) with 7 in Hp.
  change (Z.of_nat (List.length negative_words)) with 7 in Hn.
  rewrite <- count_words_app.
  pose proof (count_words_le_tokens _ (str_split (str_lower text)) NoDup_lexicon).
  lia.
Qed.

Lemma str_lower_app a b : str_lower (a ++ b) = str_lower a ++ str_lower b.
Proof.
  unfold str_lower. induction a as [|c a IH]; cbn [append str_map]; [reflexivity|].
  now rewrite IH.
Qed.

(** A word without white space, followed by a white-space character, is the
    first token. *)
Lemma split_go_word w sp rest :
  str_forallb (fun c => negb (is_space c)) w = true ->
  is_space sp = true ->
  split_go (w ++ String sp rest) = (w, str_split rest).
Proof.
  intros Hw Hsp. induction w as [|c w IH]; cbn [append split_go].
  - rewrite Hsp. unfold str_split. destruct (split_go rest) as [cur toks].
    reflexivity.
  - cbn in Hw. apply andb_true_iff in Hw. destruct Hw as [Hc Hw].
    rewrite (IH Hw). apply negb_true_iff in Hc. now rewrite Hc.
Qed.

Lemma str_split_word w sp rest :
  w <> "" ->
  str_forallb (fun c => negb (is_space c)) w = true ->
  is_space sp = true ->
  str_split (w ++ String sp rest) = w :: str_split rest.
Proof.
  intros Hne Hw Hsp. unfold str_split at 1. rewrite split_go_word by assumption.
  destruct w; [congruence|reflexivity].
Qed.

Lemma is_az_lower c : is_az c = true -> lower_char c = c.
Proof. destruct c as [[] [] [] [] [] [] [] []]; intros E; try discriminate E; reflexivity. Qed.

Lemma is_az_not_space c : is_az c = true -> is_space c = false.
Proof. destruct c as [[] [] [] [] [] [] [] []]; intros E; try discriminate E; reflexivity. Qed.

Lemma count_words_skip words token tokens :
  Forall (fun word => String.eqb word token = false) words ->
  count_words words (token :: tokens) = count_words words tokens.
Proof.
  intros Hall. unfold count_words. do 2 f_equal.
  apply filter_ext_in. intros word Hin. rewrite Forall_forall in Hall.
  unfold str_mem. cbn [existsb]. now rewrite (Hall word Hin).
Qed.

Lemma lexicon_not_code words a b :
  words = positive_words \/ words = negative_words ->
  Forall (fun word => String.eqb word (String a (String b "]")) = false) words.
Proof.
  intros [-> | ->]; repeat constructor; cbn [String.eqb];
    destruct (Ascii.eqb _ a); try reflexivity;
    destruct (Ascii.eqb _ b); reflexivity.
Qed.

Lemma lexicon_not_annotation words :
  words = positive_words \/ words = negative_words ->
  Forall (fun word => String.eqb word "[translated" = false) words
  /\ Forall (fun word => String.eqb word "from" = false) words.
Proof. intros [-> | ->]; split; repeat constructor. Qed.

(** The tokens of a translated text: three for the annotation, then those
    of the original. *)
Lemma translated_tokens a b s :
  is_az a = true -> is_az b = true ->
  str_split (str_lower ("[Translated from " ++ String a (String b "") ++ "] " ++ s))
  = "[translated" :: "from" :: String a (String b "]") :: str_split (str_lower s).
Proof.
  intros Ha Hb.
  change ("[Translated from " ++ String a (String b "") ++ "] " ++ s)
    with ("[Translated" ++ String " " ("from" ++ String " "
            (String a (String b "]") ++ String " " s))).
  rewrite str_lower_app. change (str_lower "[Translated") with "[translated".
  change (str_lower (String " " ?x)) with (String " " (str_lower x)).
  cbn [str_lower str_map].
  fold (str_lower ("from" ++ String " " (String a (String b "]") ++ String " " s))).
  rewrite str_split_word by (try discriminate; reflexivity).
  rewrite str_lower_app. change (str_lower "from") with "from".
  cbn [str_lower str_map].
  fold (str_lower (String a (String b "]") ++ String " " s)).
  rewrite str_split_word by (try discriminate; reflexivity).
  rewrite str_lower_app. cbn [str_lower str_map].
  rewrite (is_az_lower a Ha), (is_az_lower b Hb).
  change (lower_char "]") with "]"%char. change (lower_char " ") with " "%char.
  fold (str_lower s).
  rewrite str_split_word; [reflexivity|discriminate| |reflexivity].
  cbn. now rewrite (is_az_not_space a Ha), (is_az_not_space b Hb).
Qed.

Section TranslatedScore.
Context {L : Library}.

(** X7: for a language code of two lower-case letters other than en, the
    scorer sees the translated text as the three tokens of the annotation
    followed by the tokens of the original: the counts of lexicon words are
    those of the original text and the number of words is three more, so the
    score is [round((p - n) / (t + 3), 2)]. *)
Theorem translated_text_adds_three_tokens a b s score p n t :
  is_az a = true -> is_az b = true ->
  String a (String b "") <> "en" ->
  calculate_sentiment_score (PStr s) = Ok (score, p, n, t) ->
  exists q,
    int_truediv (p - n) (t + 3) = Ok q
    /\ calculate_sentiment_score
         (translate_feedback (PStr s) (PStr (String a (String b ""))))
       = Ok (round2 q, p, n, t + 3).
Proof.
  intros Ha Hb Hen Hs.
  destruct (calculate_sentiment_score_eq s) as (score0 & Hs0 & _).
  rewrite Hs in Hs0. apply Ok_inj in Hs0.
  injection Hs0 as _ Hp Hn Ht.
  unfold translate_feedback. cbn [eq_str].
  destruct (String.eqb_spec (String a (String b "")) "en") as [E|_]; [congruence|].
  cbn [py_str].
  match goal with |- context [PStr ?x] => set (text := x) end.
  destruct (calculate_sentiment_score_eq text) as (score1 & Hs1 & _ & Hq).
  unfold text in Hs1, Hq. rewrite (translated_tokens a b s Ha Hb) in Hs1, Hq.
  assert (Hcount : forall words,
             words = positive_words \/ words = negative_words ->
             count_words words ("[translated" :: "from" :: String a (String b "]")
                                  :: str_split (str_lower s))
             = count_words words (str_split (str_lower s))).
  { intros words Hw. destruct (lexicon_not_annotation words Hw) as [H1 H2].
    rewrite !count_words_skip; auto using lexicon_not_code. }
  rewrite (Hcount positive_words), (Hcount negative_words) in Hs1, Hq by auto.
  rewrite <- Hp, <- Hn in Hs1, Hq.
  replace (Z.of_nat (List.length ("[translated" :: "from" :: String a (String b "]")
                                    :: str_split (str_lower s))))
    with (t + 3) in Hs1, Hq by (rewrite Ht; cbn [List.length]; lia).
  replace (0 <? t + 3) with true in Hq by (symmetry; apply Z.ltb_lt; lia).
  destruct Hq as (q & Hq & ->). exists q. split; [exact Hq|exact Hs1].
Qed.

End TranslatedScore.

(** ** The range check and NaN *)

Lemma SFltb_false_leb s m e s2 m2 e2 :
  SFltb (S754_finite s m e) (S754_finite s2 m2 e2) = false ->
  SFleb (S754_finite s2 m2 e2) (S754_finite s m e) = true.
Proof.
  unfold SFltb, SFleb, SFcompare.
  rewrite (Z.compare_antisym e e2).
  replace (Pos.compare_cont Eq m2 m) with (CompOpp (Pos.compare_cont Eq m m2))
    by (rewrite Pos.compare_cont_antisym; reflexivity).
  destruct s, s2; cbv beta iota; try (intros; reflexivity); try discriminate;
    destruct (e ?= e2); cbn [CompOpp]; try (intros; reflexivity); try discriminate;
    destruct (Pos.compare_cont Eq m m2); cbn [CompOpp];
    try (intros; reflexivity); discriminate.
Qed.

(** What passes the range check is within [-1, 1], or is NaN. *)
Lemma in_range_or_nan x :
  out_of_range x = false -> unit_float x = true \/ x = S754_nan.
Proof.
  unfold out_of_range, unit_float, float_ltb, float_leb. intros Hr.
  apply orb_false_iff in Hr. destruct Hr as [Hlo Hhi].
  destruct x as [s|s| |s m e].
  - left. destruct s; reflexivity.
  - destruct s; discriminate.
  - now right.
  - left. unfold float_neg_one, float_one in *.
    rewrite (SFltb_false_leb _ _ _ _ _ _ Hlo), (SFltb_false_leb _ _ _ _ _ _ Hhi).
    reflexivity.
Qed.

Section Scores.
Context {L : Library} {H : Host}.

(** The score of an enriched record is [float] of the supplied score when
    the record has one that is not None, and otherwise the score the scorer
    gives to the translated text, which is then a string. *)
Lemma enriched_score_origin record processed :
  process_record record = Ok processed ->
  exists score,
    getitem processed "sentiment_score" = Ok (PFloat score)
    /\ ((exists v, getitem record "sentiment_score" = Ok v
                   /\ is_none v = false /\ py_float v = Ok score)
        \/ (exists feedback_text language s p n t,
              getitem record "feedback_text" = Ok feedback_text
              /\ getitem record "language" = Ok language
              /\ translate_feedback feedback_text language = PStr s
              /\ calculate_sentiment_score (PStr s) = Ok (score, p, n, t)
              /\ (contains "sentiment_score" record = Ok false
                  \/ getitem record "sentiment_score" = Ok PNone))).
Proof.
  unfold process_record. intros Hrun.
  apply bind_Ok in Hrun. destruct Hrun as (fid & Hid & Hrun).
  apply bind_Ok in Hrun. destruct Hrun as (lang & Hlang & Hrun).
  apply bind_Ok in Hrun. destruct Hrun as (text & Htext & Hrun).
  apply bind_Ok in Hrun. destruct Hrun as (lang' & Hlang' & Hrun).
  apply bind_Ok in Hrun. destruct Hrun as (ts & Hts & Hrun).
  apply bind_Ok in Hrun. destruct Hrun as (sync & Hsync & Hrun).
  apply bind_Ok in Hrun. destruct Hrun as (has & Hhas & Hrun).
  apply bind_Ok in Hrun. destruct Hrun as (provided & Hprov & Hrun).
  destruct provided as [v|].
  - apply bind_Ok in Hrun. destruct Hrun as (score & Hscore & Hrun).
    apply Ok_inj in Hrun. subst processed. exists score. split; [reflexivity|].
    left. destruct has; [|discriminate].
    apply bind_Ok in Hprov. destruct Hprov as (v' & Hv' & Hprov).
    apply Ok_inj in Hprov. destruct (is_none v') eqn:En; [discriminate|].
    injection Hprov as <-. eauto.
  - apply bind_Ok in Hrun. destruct Hrun as ([[[score p] n] t] & Hscore & Hrun).
    apply Ok_inj in Hrun. subst processed. exists score. split; [reflexivity|].
    right.
    assert (Hstr : exists s, translate_feedback text lang' = PStr s).
    { destruct (translate_feedback text lang'); try discriminate Hscore. eauto. }
    destruct Hstr as (s & Hstr). rewrite Hstr in Hscore.
    rewrite Hlang in Hlang'. apply Ok_inj in Hlang'. subst lang'.
    exists text, lang, s, p, n, t. repeat split; auto.
    destruct has.
    + right. apply bind_Ok in Hprov. destruct Hprov as (v' & Hv' & Hprov).
      apply Ok_inj in Hprov. destruct v'; try discriminate. exact Hv'.
    + left. exact Hhas.
Qed.

Lemma check_sentiment_score_clean record row st st' v score :
  check_sentiment_score record row st = Ok st' -> snd st' = [] ->
  getitem record "sentiment_score" = Ok v -> is_none v = false ->
  py_float v = Ok score ->
  out_of_range score = false.
Proof.
  unfold check_sentiment_score. intros Hrun Hnil Hg Hn Hf.
  destruct record as [|b|z|f|s|l|d]; try discriminate Hg.
  cbn [getitem] in Hg. cbn [contains getitem bind] in Hrun. unfold dict_has in Hrun.
  destruct (dict_get d "sentiment_score") as [v'|]; [|discriminate Hg].
  apply Ok_inj in Hg. subst v'. cbn [bind] in Hrun. rewrite Hn, Hf in Hrun.
  destruct (out_of_range score); [|reflexivity].
  apply Ok_inj in Hrun. subst st'. now apply flag_nonempty in Hnil.
Qed.

Lemma scorer_unit s score p n t :
  calculate_sentiment_score (PStr s) = Ok (score, p, n, t) ->
  unit_float score = true.
Proof.
  intros Hs. destruct (calculate_sentiment_score_eq s) as (score' & Hs' & Hu & _).
  rewrite Hs in Hs'. apply Ok_inj in Hs'. now injection Hs' as ->.
Qed.

Lemma valid_record_score record row st st' processed :
  validate_record record row st = Ok st' -> snd st' = [] ->
  process_record record = Ok processed ->
  exists score, getitem processed "sentiment_score" = Ok (PFloat score)
                /\ (unit_float score = true \/ score = S754_nan).
Proof.
  unfold validate_record. intros Hrun Hnil Hp.
  apply bind_Ok in Hrun. destruct Hrun as (s1 & H1 & Hrun).
  apply bind_Ok in Hrun. destruct Hrun as (s2 & H2 & Hrun).
  apply bind_Ok in Hrun. destruct Hrun as (s3 & H3 & H4).
  pose proof (one_step_clean _ _ (check_timestamp_step _ _ _ _ H4) Hnil) as E4.
  subst st'.
  pose proof (one_step_clean _ _ (check_language_step _ _ _ _ H3) Hnil) as E3.
  subst s3.
  destruct (enriched_score_origin _ _ Hp) as (score & Hg & Horigin).
  exists score. split; [exact Hg|].
  destruct Horigin as [(v & Hv & Hn & Hf)|(ft & lang & s & p & n & t & _ & _ & _ & Hs & _)].
  - apply in_range_or_nan.
    eapply check_sentiment_score_clean; eauto.
  - left. eapply scorer_unit; eauto.
Qed.

Lemma valid_loop_scores data : forall idx st st' processed_data,
  validate_loop data idx st = Ok st' -> snd st' = [] ->
  process_feedback data = Ok processed_data ->
  Forall (fun processed =>
            exists score, getitem processed "sentiment_score" = Ok (PFloat score)
                          /\ (unit_float score = true \/ score = S754_nan))
         processed_data.
Proof.
  induction data as [|record rest IH]; intros idx st st' out Hrun Hnil Hp.
  - apply Ok_inj in Hp. subst. constructor.
  - cbn in Hrun. apply bind_Ok in Hrun. destruct Hrun as (s1 & H1 & Hrun).
    unfold process_feedback in Hp. cbn in Hp.
    apply bind_Ok in Hp. destruct Hp as (processed & Hrec & Hp).
    apply bind_Ok in Hp. destruct Hp as (others & Hrest & Hp).
    apply Ok_inj in Hp. subst out.
    assert (Hs1 : snd s1 = []).
    { destruct (snd s1) as [|msg l] eqn:E; [reflexivity|].
      pose proof (validate_loop_keeps rest _ _ _ msg Hrun) as Hk.
      rewrite E, Hnil in Hk. destruct Hk. now left. }
    constructor; [eapply valid_record_score; eauto|].
    eapply IH; eauto.
Qed.

(** X10: every record enriched from a batch that validation accepts carries
    a float score that lies in [-1, 1] or is NaN (the range check compares
    with [<] and [>], which NaN passes). *)
Theorem processed_scores_in_range_or_nan data processed_data :
  validate_data data = Ok (true, []) ->
  process_feedback data = Ok processed_data ->
  Forall (fun processed =>
            exists score, getitem processed "sentiment_score" = Ok (PFloat score)
                          /\ (unit_float score = true \/ score = S754_nan))
         processed_data.
Proof.
  intros Hv Hp. exact (valid_loop_scores data _ _ _ _ Hv eq_refl Hp).
Qed.

(** X9: for a record without a score (the key is absent, or its value is
    None) the score of the enriched record is the one the scorer gives to
    the enriched feedback text, so the calculation that the detail report
    shows, which scores that text again, ends in the final score. *)
Theorem unscored_record_gets_scorer_value record processed :
  process_record record = Ok processed ->
  contains "sentiment_score" record = Ok false
  \/ getitem record "sentiment_score" = Ok PNone ->
  exists text score p n t,
    getitem processed "feedback_text" = Ok (PStr text)
    /\ calculate_sentiment_score (PStr text) = Ok (score, p, n, t)
    /\ getitem processed "sentiment_score" = Ok (PFloat score).
Proof.
  unfold process_record. intros Hrun Hnone.
  apply bind_Ok in Hrun. destruct Hrun as (fid & Hid & Hrun).
  apply bind_Ok in Hrun. destruct Hrun as (lang & Hlang & Hrun).
  apply bind_Ok in Hrun. destruct Hrun as (ftext & Htext & Hrun).
  apply bind_Ok in Hrun. destruct Hrun as (lang' & Hlang' & Hrun).
  apply bind_Ok in Hrun. destruct Hrun as (ts & Hts & Hrun).
  apply bind_Ok in Hrun. destruct Hrun as (sync & Hsync & Hrun).
  apply bind_Ok in Hrun. destruct Hrun as (has & Hhas & Hrun).
  apply bind_Ok in Hrun. destruct Hrun as (provided & Hprov & Hrun).
  assert (Ep : provided = None).
  { destruct Hnone as [Hno|Hnone].
    - rewrite Hno in Hhas. apply Ok_inj in Hhas. subst has.
      now apply Ok_inj in Hprov.
    - destruct has; [|now apply Ok_inj in Hprov].
      rewrite Hnone in Hprov. now apply Ok_inj in Hprov. }
  subst provided.
  apply bind_Ok in Hrun. destruct Hrun as ([[[score p] n] t] & Hscore & Hrun).
  apply Ok_inj in Hrun. subst processed.
  destruct (translate_feedback ftext lang') as [|b|z|f|text|l|d] eqn:Et;
    try discriminate Hscore.
  exists text, score, p, n, t.
  split; [reflexivity|]. split; [exact Hscore|reflexivity].
Qed.

(** ** The normalized timestamp *)

Lemma format_offset_utc : format_offset 0 = "+00:00".
Proof. vm_compute. reflexivity. Qed.

Lemma str_append_assoc (a b c : string) : (a ++ b) ++ c = a ++ (b ++ c).
Proof. induction a as [|x a IH]; cbn; [reflexivity|]. now rewrite IH. Qed.

(** X8: whenever [synchronize_timestamp] returns, its result carries the
    offset of UTC: it ends with "+00:00" (a timestamp written with Z does
    not come back with Z). *)
Theorem synchronized_timestamp_is_utc timestamp text :
  synchronize_timestamp timestamp = Ok text ->
  exists body, text = body ++ "+00:00".
Proof.
  unfold synchronize_timestamp. intros Hrun.
  apply bind_Ok in Hrun. destruct Hrun as (replaced & _ & Hrun).
  destruct (fromisoformat replaced) as [dt|]; [|discriminate].
  apply bind_Ok in Hrun. destruct Hrun as (utc & Hutc & Hrun).
  apply Ok_inj in Hrun. subst text.
  unfold astimezone_utc in Hutc.
  apply bind_Ok in Hutc. destruct Hutc as (offset & _ & Hutc).
  unfold shift_to_utc in Hutc.
  destruct (_ || _)%bool; [discriminate|].
  destruct (ord2ymd _) as [[y m] d].
  apply Ok_inj in Hutc. subst utc.
  unfold isoformat. cbn [year month day hour minute second microsecond tzinfo].
  rewrite format_offset_utc.
  eexists. rewrite <- !str_append_assoc. reflexivity.
Qed.

End Scores.

(** ** What the decoders change *)

(** ** What the decoders change *)

Lemma dict_get_set_other d k v k' :
  k' <> k -> dict_get (dict_set d k v) k' = dict_get d k'.
Proof.
  intros Hne. induction d as [|[k0 v0] d IH]; cbn.
  - destruct (String.eqb_spec k k'); [congruence|reflexivity].
  - destruct (String.eqb_spec k0 k) as [->|Hk]; cbn.
    + destruct (String.eqb_spec k k'); [congruence|reflexivity].
    + destruct (String.eqb_spec k0 k'); [reflexivity|exact IH].
Qed.

Lemma dict_get_set_same d k v : dict_get (dict_set d k v) k = Some v.
Proof.
  induction d as [|[k0 v0] d IH]; cbn.
  - now rewrite String.eqb_refl.
  - destruct (String.eqb_spec k0 k) as [->|Hk]; cbn.
    + now rewrite String.eqb_refl.
    + destruct (String.eqb_spec k0 k); [congruence|exact IH].
Qed.

Lemma dict_set_keys d k v x :
  dict_get d k = Some x -> map fst (dict_set d k v) = map fst d.
Proof.
  induction d as [|[k0 v0] d IH]; cbn; [discriminate|].
  destruct (String.eqb_spec k0 k) as [->|Hk]; cbn; [reflexivity|].
  intros Hg. now rewrite IH.
Qed.

Lemma same_but_score_refl d : same_but_score d d.
Proof. split; auto. Qed.

Lemma same_but_score_set d v x :
  dict_get d "sentiment_score" = Some x ->
  same_but_score d (dict_set d "sentiment_score" v).
Proof.
  intros Hg. split; [eapply dict_set_keys; eauto|].
  intros k Hk. now apply dict_get_set_other.
Qed.

Lemma csv_row_decoded row record :
  csv_row row = Ok record ->
  exists d, record = PDict d /\ same_but_score row d
            /\ csv_score (dict_get row "sentiment_score")
                         (dict_get d "sentiment_score").
Proof.
  unfold csv_row, csv_score. intros Hrun.
  destruct (dict_get row "sentiment_score") as [v|] eqn:Eg.
  - destruct (_ || _)%bool.
    + apply Ok_inj in Hrun. subst record. eexists. split; [reflexivity|].
      split; [eapply same_but_score_set; eauto|].
      left. apply dict_get_set_same.
    + destruct (py_float v) as [f|e] eqn:Ef; [|discriminate].
      apply Ok_inj in Hrun. subst record. eexists. split; [reflexivity|].
      split; [eapply same_but_score_set; eauto|].
      right. exists f. split; [reflexivity|apply dict_get_set_same].
  - apply Ok_inj in Hrun. subst record. exists row. split; [reflexivity|].
    split; [apply same_but_score_refl|exact Eg].
Qed.

Section Decoders.
Context {L : Library}.

(** X14: [parse_csv], when it returns, returns one dict for each row that the
    reader yields, in order, with the keys of the row in their order and
    the cell of every column other than [sentiment_score] unchanged; the
    score is absent where the row has none, and otherwise None or the float
    that [float] makes of the cell: never a string. *)
Theorem parse_csv_changes_only_scores csv_data records :
  parse_csv csv_data = Ok records ->
  Forall2 (fun row record =>
             exists d, record = PDict d
                       /\ same_but_score (row_dict row) d
                       /\ csv_score (dict_get (row_dict row) "sentiment_score")
                                    (dict_get d "sentiment_score"))
          (csv_rows csv_data) records.
Proof.
  unfold parse_csv, csv_rows. intros Hrun.
  destruct (csv_DictReader _) as [rows failure]. cbn [fst].
  apply bind_Ok in Hrun. destruct Hrun as (out & Hout & Hrun).
  destruct failure; [discriminate|]. apply Ok_inj in Hrun. subst out.
  apply mapM_Ok_inv in Hout.
  induction Hout as [|row record rows' out' Hrow _ IH]; constructor; [|exact IH].
  now apply csv_row_decoded.
Qed.

Lemma json_record_decoded record record' :
  json_record record = Ok record' ->
  match record with
  | PDict d =>
      exists d', record' = PDict d' /\ same_but_score d d'
                 /\ json_score (dict_get d "sentiment_score")
                               (dict_get d' "sentiment_score")
  | _ => record' = record
  end.
Proof.
  unfold json_record, json_score. intros Hrun.
  destruct record as [|b|z|f|s|l|d]; cbn [contains bind] in Hrun;
    try discriminate.
  - destruct (str_contains _ _); cbn [getitem bind] in Hrun; [discriminate|].
    now apply Ok_inj in Hrun.
  - destruct (existsb _ _); cbn [getitem bind] in Hrun; [discriminate|].
    now apply Ok_inj in Hrun.
  - unfold dict_has in Hrun. cbn [getitem] in Hrun.
    destruct (dict_get d "sentiment_score") as [v|] eqn:Eg; cbn [bind] in Hrun.
    + destruct (is_none v || eq_str v "null")%bool.
      * apply Ok_inj in Hrun. subst record'. eexists. split; [reflexivity|].
        split; [eapply same_but_score_set; eauto|].
        left. apply dict_get_set_same.
      * destruct (eq_str v "") eqn:Ee; cbn [negb] in Hrun.
        -- apply Ok_inj in Hrun. subst record'. exists d. split; [reflexivity|].
           split; [apply same_but_score_refl|].
           right. right. split; [|exact Eg].
           destruct v; try discriminate. cbn in Ee.
           apply String.eqb_eq in Ee. now subst.
        -- apply bind_Ok in Hrun. destruct Hrun as (f & Hf & Hrun).
           apply Ok_inj in Hrun. subst record'. eexists. split; [reflexivity|].
           split; [eapply same_but_score_set; eauto|].
           right. left. exists f. split; [exact Hf|apply dict_get_set_same].
    + apply Ok_inj in Hrun. subst record'. exists d. split; [reflexivity|].
      split; [apply same_but_score_refl|exact Eg].
Qed.

(** X15: [parse_json], when it returns, returns one record for each element
    of the [feedbacks] list, in order; an element that is a dict keeps its
    keys in their order and every value other than [sentiment_score]; its
    score is absent as before, None, the float that [float] makes of it, or
    the empty string left as it was; an element that is not a dict is
    returned as it is. *)
Theorem parse_json_changes_only_scores json_data records :
  parse_json json_data = Ok records ->
  exists data feedbacks,
    json_loads json_data = Ok data
    /\ getitem data "feedbacks" = Ok (PList feedbacks)
    /\ Forall2 (fun record record' =>
                  match record with
                  | PDict d =>
                      exists d', record' = PDict d' /\ same_but_score d d'
                                 /\ json_score (dict_get d "sentiment_score")
                                               (dict_get d' "sentiment_score")
                  | _ => record' = record
                  end)
               feedbacks records.
Proof.
  unfold parse_json. intros Hrun.
  destruct (json_loads json_data) as [data|e]; [|destruct e; discriminate].
  apply bind_Ok in Hrun. destruct Hrun as (has & Hhas & Hrun).
  destruct has; [|discriminate].
  apply bind_Ok in Hrun. destruct Hrun as (fb & Hfb & Hrun).
  destruct fb as [|b|z|f|s|l|d]; try discriminate.
  exists data, l. split; [reflexivity|]. split; [exact Hfb|].
  clear Hfb Hhas. apply mapM_Ok_inv in Hrun.
  induction Hrun as [|record record' rest out' Hrec _ IH]; constructor; [|exact IH].
  now apply json_record_decoded.
Qed.

End Decoders.

(** ** Records as the CSV decoder makes them *)

Lemma row_dict_cells row k v :
  dict_get (row_dict row) k = Some v -> v = PNone \/ exists s, v = PStr s.
Proof.
  induction row as [|[k0 c] row IH]; cbn; [discriminate|].
  destruct (String.eqb k0 k); [|exact IH].
  intros E. apply (f_equal (fun o => match o with Some x => x | None => PNone end)) in E.
  subst v. destruct c; cbn; eauto.
Qed.

Lemma csv_row_typed row record :
  csv_row (row_dict row) = Ok record ->
  exists d, record = PDict d /\ csv_typed d
            /\ dict_get d "language" = dict_get (row_dict row) "language".
Proof.
  intros Hrun. apply csv_row_decoded in Hrun.
  destruct Hrun as (d & -> & (_ & Hsame) & Hscore).
  exists d. split; [reflexivity|]. split; [split|].
  - intros k v Hk Hg. rewrite (Hsame k Hk) in Hg. eapply row_dict_cells; eauto.
  - intros v Hg. unfold csv_score in Hscore.
    destruct (dict_get (row_dict row) "sentiment_score").
    + destruct Hscore as [E|(f & _ & E)]; rewrite E in Hg;
        apply (f_equal (fun o => match o with Some x => x | None => PNone end)) in Hg;
        subst v; eauto.
    + congruence.
  - apply Hsame. discriminate.
Qed.

Section Totality.
Context {L : Library}.

Lemma filterM_total {A} (p : A -> result bool) l :
  (forall x, exists b, p x = Ok b) -> exists r, filterM p l = Ok r.
Proof.
  intros Hp. induction l as [|x l (r & IH)]; [now exists []|].
  destruct (Hp x) as (b & Hb). cbn. rewrite Hb, IH. cbn. eauto.
Qed.

Lemma allM_total {A} (p : A -> result bool) l :
  Forall (fun x => exists b, p x = Ok b) l -> exists b, allM p l = Ok b.
Proof.
  induction 1 as [|x l (b & Hb) _ (r & IH)]; [now exists true|].
  cbn. rewrite Hb. cbn. destruct b; eauto.
Qed.

Lemma is_missing_dict d field : exists b, is_missing (PDict d) field = Ok b.
Proof.
  unfold is_missing. cbn [contains bind getitem]. unfold dict_has.
  destruct (dict_get d field); cbn; eauto.
Qed.

Lemma check_required_dict d row st :
  exists st', check_required (PDict d) row st = Ok st'.
Proof.
  unfold check_required.
  destruct (filterM_total (is_missing (PDict d)) required_fields
              (is_missing_dict d)) as (r & ->).
  cbn [bind]. destruct r; eauto.
Qed.

Lemma check_sentiment_score_typed d row st :
  csv_typed d -> exists st', check_sentiment_score (PDict d) row st = Ok st'.
Proof.
  intros (_ & Hscore). unfold check_sentiment_score.
  cbn [contains bind getitem]. unfold dict_has.
  destruct (dict_get d "sentiment_score") as [v|]; cbn [bind]; [|eauto].
  destruct (Hscore v eq_refl) as [->|(f & ->)]; cbn [is_none py_float]; [eauto|].
  destruct (out_of_range f); eauto.
Qed.

Lemma match_language_str s : exists b, match_language (PStr s) = Ok b.
Proof. destruct s as [|a [|b rest]]; cbn [match_language]; eauto. Qed.

Lemma check_language_typed d row st :
  csv_typed d -> exists st', check_language (PDict d) row st = Ok st'.
Proof.
  intros (Hcells & _). unfold check_language.
  cbn [contains bind getitem]. unfold dict_has.
  destruct (dict_get d "language") as [v|] eqn:Eg; cbn [bind]; [|eauto].
  destruct (Hcells "language" v ltac:(discriminate) Eg) as [->|(s & ->)];
    [cbn [truthy]; eauto|].
  destruct (truthy (PStr s)); [|eauto].
  destruct (match_language_str s) as (b & ->). cbn [bind]. destruct b; eauto.
Qed.

Lemma check_timestamp_typed d row st :
  csv_typed d -> exists st', check_timestamp (PDict d) row st = Ok st'.
Proof.
  intros (Hcells & _). unfold check_timestamp.
  cbn [contains bind getitem]. unfold dict_has.
  destruct (dict_get d "timestamp") as [v|] eqn:Eg; cbn [bind]; [|eauto].
  destruct (Hcells "timestamp" v ltac:(discriminate) Eg) as [->|(s & ->)];
    [cbn [truthy]; eauto|].
  destruct (truthy (PStr s)); [|eauto].
  cbn [py_replace_Z bind]. destruct (fromisoformat _); eauto.
Qed.

Lemma validate_record_typed d row st :
  csv_typed d -> exists st', validate_record (PDict d) row st = Ok st'.
Proof.
  intros Ht. unfold validate_record.
  destruct (check_required_dict d row st) as (s1 & ->). cbn [bind].
  destruct (check_sentiment_score_typed d row s1 Ht) as (s2 & ->). cbn [bind].
  destruct (check_language_typed d row s2 Ht) as (s3 & ->). cbn [bind].
  apply check_timestamp_typed. exact Ht.
Qed.

Lemma validate_loop_typed data :
  Forall (fun record => exists d, record = PDict d /\ csv_typed d) data ->
  forall idx st, exists st', validate_loop data idx st = Ok st'.
Proof.
  induction 1 as [|record rest (d & -> & Ht) _ IH]; intros idx st; cbn; [eauto|].
  destruct (validate_record_typed d (idx + 1) st Ht) as (s1 & ->). cbn [bind].
  apply IH.
Qed.

Lemma parse_csv_typed csv_data data :
  parse_csv csv_data = Ok data ->
  Forall2 (fun row record =>
             exists d, record = PDict d /\ csv_typed d
                       /\ dict_get d "language" = dict_get (row_dict row) "language")
          (csv_rows csv_data) data.
Proof.
  unfold parse_csv, csv_rows. intros Hrun.
  destruct (csv_DictReader _) as [rows failure]. cbn [fst].
  apply bind_Ok in Hrun. destruct Hrun as (out & Hout & Hrun).
  destruct failure; [discriminate|]. apply Ok_inj in Hrun. subst out.
  apply mapM_Ok_inv in Hout.
  induction Hout as [|row record rows' out' Hrow _ IH]; constructor; [|exact IH].
  now apply csv_row_typed.
Qed.

Lemma Forall2_right {A B} (P : A -> B -> Prop) (Q : B -> Prop) l l' :
  (forall a b, P a b -> Q b) -> Forall2 P l l' -> Forall Q l'.
Proof. intros HPQ. induction 1; constructor; eauto. Qed.

(** X16: on the records that [parse_csv] returns, [validate_data] returns:
    no check raises, whatever the cells hold. *)
Theorem csv_validation_returns csv_data data :
  parse_csv csv_data = Ok data ->
  exists is_valid error_messages,
    validate_data data = Ok (is_valid, error_messages).
Proof.
  intros Hrun. apply parse_csv_typed in Hrun.
  assert (Hall : Forall (fun record => exists d, record = PDict d /\ csv_typed d) data).
  { eapply Forall2_right; [|exact Hrun]. intros row record (d & E & Ht & _). eauto. }
  destruct (validate_loop_typed data Hall 0%nat (true, [])) as ([v msgs] & Hv).
  exists v, msgs. exact Hv.
Qed.

(** *** The validation report *)

Lemma present_and_truthy_dict field d :
  exists b, present_and_truthy field (PDict d) = Ok b.
Proof.
  unfold present_and_truthy. cbn [contains bind getitem]. unfold dict_has.
  destruct (dict_get d field); cbn; eauto.
Qed.

Lemma language_ok_typed d :
  csv_typed d -> dict_get d "language" <> Some PNone ->
  exists b, language_ok (PDict d) = Ok b.
Proof.
  intros (Hcells & _) Hlang. unfold language_ok.
  cbn [contains bind getitem]. unfold dict_has.
  destruct (dict_get d "language") as [v|] eqn:Eg; cbn [bind]; [|eauto].
  destruct (Hcells "language" v ltac:(discriminate) Eg) as [->|(s & ->)];
    [congruence|].
  apply match_language_str.
Qed.

Lemma sentiment_status_typed data :
  Forall (fun record => exists d, record = PDict d /\ csv_typed d) data ->
  exists s, sentiment_status data = Ok s.
Proof.
  induction 1 as [|record rest (d & -> & (_ & Hscore)) _ (s & IH)]; cbn [sentiment_status];
    [eauto|].
  cbn [contains bind getitem]. unfold dict_has.
  destruct (dict_get d "sentiment_score") as [v|]; cbn [bind]; [|eauto].
  destruct (Hscore v eq_refl) as [->|(f & ->)]; cbn [is_none py_float]; [eauto|].
  destruct (out_of_range f); eauto.
Qed.

Lemma Forall_dicts (P : pyval -> Prop) (Q : list (string * pyval) -> Prop) data :
  (forall d, Q d -> P (PDict d)) ->
  Forall (fun record => exists d, record = PDict d /\ Q d) data ->
  Forall P data.
Proof.
  intros HPQ. induction 1 as [|record rest (d & -> & Hd) _ IH]; constructor; auto.
Qed.

Lemma report_typed data is_valid error_messages :
  Forall (fun record => exists d, record = PDict d
                                  /\ csv_typed d
                                  /\ dict_get d "language" <> Some PNone) data ->
  validate_data data = Ok (is_valid, error_messages) ->
  exists report, generate_validation_report data = Ok report.
Proof.
  intros Hall Hv. unfold generate_validation_report. rewrite Hv. cbn [bind].
  destruct (allM_total (present_and_truthy "feedback_id") data) as (b1 & ->).
  { eapply Forall_dicts; [|exact Hall]. intros d _. apply present_and_truthy_dict. }
  cbn [bind].
  destruct (allM_total language_ok data) as (b2 & ->).
  { eapply Forall_dicts; [|exact Hall]. intros d (Ht & Hl). now apply language_ok_typed. }
  cbn [bind].
  destruct (allM_total (contains "feedback_text") data) as (b3 & ->).
  { eapply Forall_dicts; [|exact Hall]. intros d _. cbn. eauto. }
  cbn [bind].
  destruct (allM_total (present_and_truthy "timestamp") data) as (b4 & ->).
  { eapply Forall_dicts; [|exact Hall]. intros d _. apply present_and_truthy_dict. }
  cbn [bind].
  destruct (sentiment_status_typed data) as (s & ->).
  { eapply Forall_impl; [|exact Hall]. intros record (d & E & Ht & _). eauto. }
  cbn [bind]. eauto.
Qed.

Lemma Forall2_left_right {A B} (P : A -> B -> Prop) (Q : A -> Prop) (R : B -> Prop) l l' :
  (forall a b, P a b -> Q a -> R b) -> Forall2 P l l' -> Forall Q l -> Forall R l'.
Proof.
  intros HPQ H2. induction H2; intros HQ; constructor;
    inversion HQ; subst; eauto.
Qed.

Context {H : Host}.

(** X17: a CSV document that decodes, in which no row lacks its language
    cell, and for which validation collects a message, is answered with the
    validation report, which ends with the collected messages: nothing
    raises. *)
Theorem csv_invalid_input_is_reported data_input data :
  str_startswith "{" (str_strip data_input) = false ->
  parse_csv data_input = Ok data ->
  Forall (fun row => dict_get (row_dict row) "language" <> Some PNone)
         (csv_rows data_input) ->
  exists is_valid error_messages,
    validate_data data = Ok (is_valid, error_messages)
    /\ (error_messages <> [] ->
        exists header,
          process_data data_input = Ok (header ++ str_join nl error_messages)).
Proof.
  intros Hstart Hparse Hlang.
  pose proof (parse_csv_typed _ _ Hparse) as Hrows.
  assert (Hall : Forall (fun record => exists d, record = PDict d /\ csv_typed d
                                       /\ dict_get d "language" <> Some PNone) data).
  { eapply Forall2_left_right; [|exact Hrows|exact Hlang].
    intros row record (d & E & Ht & El) Hl. exists d. rewrite El. auto. }
  assert (Hall' : Forall (fun record => exists d, record = PDict d /\ csv_typed d) data).
  { eapply Forall_impl; [|exact Hall]. intros record (d & E & Ht & _). eauto. }
  destruct (validate_loop_typed data Hall' 0%nat (true, [])) as ([v msgs] & Hv).
  exists v, msgs. split; [exact Hv|]. intros Hne.
  destruct (report_typed data v msgs Hall Hv) as (report & Hr).
  unfold process_data, decode. rewrite Hstart, Hparse.
  change (validate_loop data 0%nat (true, [])) with (validate_data data) in Hv.
  rewrite Hv. cbn [bind].
  rewrite (validate_data_flag _ _ _ Hv). destruct msgs as [|m msgs]; [congruence|].
  cbn [negb]. 
  unfold generate_validation_report in Hr |- *. rewrite Hv in Hr |- *.
  cbn [bind] in Hr |- *.
  rewrite (validate_data_flag _ _ _ Hv) in Hr |- *.
  repeat (apply bind_Ok in Hr; destruct Hr as (? & -> & Hr); cbn [bind]).
  eexists. reflexivity.
Qed.

End Totality.

(** ** What [process_data] answers *)

Section Answers.
Context {L : Library} {H : Host}.

(** X2: [is_valid] is true exactly when no message was collected. *)
Theorem validate_data_valid_iff_clean data is_valid error_messages :
  validate_data data = Ok (is_valid, error_messages) ->
  is_valid = true <-> error_messages = [].
Proof.
  intros Hrun. rewrite (validate_data_flag _ _ _ Hrun).
  destruct error_messages; split; congruence.
Qed.

Lemma mapM_Raise_inv {A B} (f : A -> result B) l e :
  mapM f l = Raise e -> exists x, In x l /\ f x = Raise e.
Proof.
  induction l as [|a l IH]; cbn; [discriminate|].
  destruct (f a) as [y|e'] eqn:Ea; cbn.
  - destruct (mapM f l) as [r|e'']; cbn; [discriminate|].
    intros E. injection E as <-. destruct (IH eq_refl) as (x & Hin & Hx). eauto.
  - intros E. injection E as <-. eauto.
Qed.

Lemma parse_csv_failure csv_data e :
  parse_csv csv_data = Raise e -> exists msg, e = invalid_csv msg.
Proof.
  unfold parse_csv. destruct (csv_DictReader _) as [rows failure].
  destruct (mapM _ rows) as [records|e'] eqn:Em; cbn [bind].
  - destruct failure as [msg|]; [|discriminate]. intros E. injection E as <-. eauto.
  - intros E. injection E as <-. apply mapM_Raise_inv in Em.
    destruct Em as (row & _ & Hrow). eapply csv_row_failure; eauto.
Qed.

(** X18: whatever goes wrong while a CSV document is decoded (the reader
    stops, or a score cell is not a number), [process_data] does not raise:
    it returns a string that starts with "ERROR: Invalid CSV format. ". *)
Theorem csv_decode_failure_is_returned data_input e :
  str_startswith "{" (str_strip data_input) = false ->
  parse_csv data_input = Raise e ->
  exists msg,
    process_data data_input = Ok ("ERROR: Invalid CSV format. " ++ msg).
Proof.
  intros Hstart Hrun. destruct (parse_csv_failure _ _ Hrun) as (msg & ->).
  exists msg. unfold process_data, decode. rewrite Hstart, Hrun. reflexivity.
Qed.

(** X19: an input that starts with a brace and is not a JSON document is
    answered with "ERROR: Invalid JSON format.". *)
Theorem invalid_json_is_returned data_input :
  str_startswith "{" (str_strip data_input) = true ->
  json_loads data_input = Raise JSONDecodeError ->
  process_data data_input = Ok "ERROR: Invalid JSON format.".
Proof.
  intros Hstart Hload. unfold process_data, decode, parse_json.
  rewrite Hstart, Hload. reflexivity.
Qed.

(** X20: a JSON object without the key [feedbacks], or whose [feedbacks] is
    not a list, is answered with the structure error. *)
Theorem json_without_feedbacks_is_returned data_input d :
  str_startswith "{" (str_strip data_input) = true ->
  json_loads data_input = Ok (PDict d) ->
  (forall records, dict_get d "feedbacks" <> Some (PList records)) ->
  process_data data_input
  = Ok "ERROR: Invalid JSON structure. Expected 'feedbacks' array.".
Proof.
  intros Hstart Hload Hfb. unfold process_data, decode, parse_json.
  rewrite Hstart, Hload. cbn [contains bind getitem]. unfold dict_has.
  destruct (dict_get d "feedbacks") as [v|]; cbn [bind]; [|reflexivity].
  destruct v; try reflexivity. now destruct (Hfb l).
Qed.

(** X13: an input that decodes to no record at all (an empty document, a
    CSV header without rows, an empty [feedbacks] list) is not an error: it
    is answered with the detail report of zero records. *)
Theorem empty_batch_is_reported data_input :
  decode data_input = Ok [] ->
  process_data data_input = Ok empty_report.
Proof.
  intros Hd. unfold process_data. rewrite Hd. reflexivity.
Qed.

(** *** Valid inputs are answered *)

Lemma translate_feedback_str s language :
  exists t, translate_feedback (PStr s) language = PStr t.
Proof. unfold translate_feedback. destruct (eq_str language "en"); eauto. Qed.

Lemma get_or_dict d k default : exists v, get_or (PDict d) k default = Ok v.
Proof. cbn. eauto. Qed.

Lemma detail_block_returns record processed s :
  process_record record = Ok processed ->
  getitem record "feedback_text" = Ok (PStr s) ->
  exists block, detail_block record processed = Ok block.
Proof.
  unfold process_record. intros Hrun Htext.
  apply bind_Ok in Hrun. destruct Hrun as (fid & Hid & Hrun).
  apply bind_Ok in Hrun. destruct Hrun as (lang & Hlang & Hrun).
  apply bind_Ok in Hrun. destruct Hrun as (text & Htext' & Hrun).
  apply bind_Ok in Hrun. destruct Hrun as (lang' & Hlang' & Hrun).
  apply bind_Ok in Hrun. destruct Hrun as (ts & Hts & Hrun).
  apply bind_Ok in Hrun. destruct Hrun as (sync & Hsync & Hrun).
  apply bind_Ok in Hrun. destruct Hrun as (has & Hhas & Hrun).
  apply bind_Ok in Hrun. destruct Hrun as (provided & Hprov & Hrun).
  rewrite Htext in Htext'. apply Ok_inj in Htext'. subst text.
  destruct (translate_feedback_str s lang') as (t & Et).
  destruct (calculate_sentiment_score_eq t) as (sc & Hsc & _).
  assert (Hd : exists d, record = PDict d).
  { destruct record; try discriminate Hid. eauto. }
  destruct Hd as (d & ->).
  assert (Hshape : exists score,
             processed = PDict [("feedback_id", fid); ("language", lang);
                                ("feedback_text", PStr t);
                                ("timestamp", PStr sync);
                                ("sentiment_score", PFloat score)]).
  { rewrite Et in Hrun. destruct provided as [v|].
    - apply bind_Ok in Hrun. destruct Hrun as (score & _ & Hrun).
      apply Ok_inj in Hrun. subst processed. cbn. eauto.
    - apply bind_Ok in Hrun. destruct Hrun as ([[[score p] n] t0] & _ & Hrun).
      apply Ok_inj in Hrun. subst processed. cbn. eauto. }
  destruct Hshape as (score & ->).
  unfold detail_block.
  change (getitem (PDict [("feedback_id", fid); ("language", lang);
                          ("feedback_text", PStr t); ("timestamp", PStr sync);
                          ("sentiment_score", PFloat score)]) "feedback_text")
    with (Ok (PStr t)).
  cbn [bind]. rewrite Hsc. cbn [bind]. rewrite Hid, Hlang, Htext, Hts.
  cbn [bind get_or]. eexists. reflexivity.
Qed.

Lemma detail_blocks_return data : forall processed_data report,
  process_feedback data = Ok processed_data ->
  Forall (fun record => exists s, getitem record "feedback_text" = Ok (PStr s)) data ->
  exists out, detail_blocks (combine data processed_data) report = Ok out.
Proof.
  induction data as [|record rest IH]; intros out report Hrun Hall.
  - cbn. eauto.
  - unfold process_feedback in Hrun. cbn in Hrun.
    apply bind_Ok in Hrun. destruct Hrun as (processed & Hrec & Hrun).
    apply bind_Ok in Hrun. destruct Hrun as (others & Hrest & Hrun).
    apply Ok_inj in Hrun. subst out.
    inversion Hall as [|? ? (s & Hs) Hall']; subst.
    destruct (detail_block_returns _ _ _ Hrec Hs) as (block & Hb).
    cbn [combine detail_blocks]. rewrite Hb. cbn [bind].
    apply IH; assumption.
Qed.

(** X12: an input that decodes and that validation accepts, whose feedback
    texts are strings and whose timestamps convert to UTC, is answered with
    a detail report: neither enrichment nor the report raises. *)
Theorem valid_input_is_answered data_input data :
  decode data_input = Ok data ->
  validate_data data = Ok (true, []) ->
  Forall enrichable data ->
  exists processed_data report,
    process_feedback data = Ok processed_data
    /\ generate_detailed_report data processed_data = Ok report
    /\ process_data data_input = Ok report.
Proof.
  intros Hd Hv Hall.
  destruct (validate_loop_clean data _ _ _ Hv eq_refl Hall) as (processed_data & Hp).
  assert (Htexts : Forall (fun record =>
                             exists s, getitem record "feedback_text" = Ok (PStr s)) data).
  { eapply Forall_impl; [|exact Hall]. intros record (Hs & _). exact Hs. }
  destruct (detail_blocks_return data processed_data
              (detail_header (List.length data)) Hp Htexts) as (out & Hout).
  exists processed_data. eexists. split; [exact Hp|].
  unfold process_data. rewrite Hd, Hv. cbn [bind negb]. rewrite Hp. cbn [bind].
  unfold generate_detailed_report. rewrite Hout. cbn [bind]. split; reflexivity.
Qed.

End Answers.

(** ** The report of an accepted batch *)

Section CleanReport.
Context {L : Library}.

Lemma clean_record_passes record row st st' :
  validate_record record row st = Ok st' -> snd st' = [] ->
  summary_passes record.
Proof.
  unfold validate_record. intros Hrun Hnil.
  apply bind_Ok in Hrun. destruct Hrun as (s1 & H1 & Hrun).
  apply bind_Ok in Hrun. destruct Hrun as (s2 & H2 & Hrun).
  apply bind_Ok in Hrun. destruct Hrun as (s3 & H3 & H4).
  pose proof (one_step_clean _ _ (check_timestamp_step _ _ _ _ H4) Hnil) as E4.
  subst st'.
  pose proof (one_step_clean _ _ (check_language_step _ _ _ _ H3) Hnil) as E3.
  subst s3.
  pose proof (one_step_clean _ _ (check_sentiment_score_step _ _ _ _ H2) Hnil) as E2.
  subst s2.
  pose proof (check_required_clean _ _ _ _ H1 Hnil) as Hreq.
  unfold required_fields in Hreq.
  inversion Hreq as [|? ? Hid Hreq1]; subst.
  inversion Hreq1 as [|? ? Hlang Hreq2]; subst.
  inversion Hreq2 as [|? ? Htxt Hreq3]; subst.
  inversion Hreq3 as [|? ? Hts _]; subst.
  apply is_missing_false in Hid. destruct Hid as (d & vid & -> & Gid & Tid).
  apply is_missing_false in Hlang. destruct Hlang as (d1 & vlang & E & Glang & Tlang).
  injection E as <-.
  apply is_missing_false in Htxt. destruct Htxt as (d1 & vtext & E & Gtext & _).
  injection E as <-.
  apply is_missing_false in Hts. destruct Hts as (d1 & vts & E & Gts & Tts).
  injection E as <-.
  unfold summary_passes, present_and_truthy, language_ok.
  cbn [contains getitem bind]. unfold dict_has.
  rewrite Gid, Glang, Gtext, Gts. cbn [bind]. rewrite Tid, Tts.
  repeat split.
  - unfold check_language in H3. cbn [contains getitem bind] in H3.
    unfold dict_has in H3. rewrite Glang in H3. cbn [bind] in H3.
    rewrite Tlang in H3.
    destruct (match_language vlang) as [m|e]; [|discriminate]. cbn [bind] in H3.
    destruct m; [reflexivity|].
    apply Ok_inj in H3. rewrite <- H3 in Hnil. now apply flag_nonempty in Hnil.
  - intros rest. unfold check_sentiment_score in H2.
    cbn [contains getitem bind] in H2. unfold dict_has in H2.
    cbn [sentiment_status contains getitem bind]. unfold dict_has.
    destruct (dict_get d "sentiment_score") as [v|]; cbn [bind] in H2 |- *;
      [|reflexivity].
    destruct (is_none v); [reflexivity|].
    destruct (py_float v) as [score|e].
    + destruct (out_of_range score); [|reflexivity].
      apply Ok_inj in H2. rewrite <- H2 in Hnil. now apply flag_nonempty in Hnil.
    + destruct (is_value_or_type_error e); [|discriminate].
      apply Ok_inj in H2. rewrite <- H2 in Hnil. now apply flag_nonempty in Hnil.
Qed.

Lemma clean_loop_passes data : forall idx st st',
  validate_loop data idx st = Ok st' -> snd st' = [] ->
  Forall summary_passes data.
Proof.
  induction data as [|record rest IH]; intros idx st st' Hrun Hnil; [constructor|].
  cbn in Hrun. apply bind_Ok in Hrun. destruct Hrun as (s1 & H1 & Hrun).
  assert (Hs1 : snd s1 = []).
  { destruct (snd s1) as [|msg l] eqn:E; [reflexivity|].
    pose proof (validate_loop_keeps rest _ _ _ msg Hrun) as Hk.
    rewrite E, Hnil in Hk. destruct Hk. now left. }
  constructor; [eapply clean_record_passes; eauto|eapply IH; eauto].
Qed.

Lemma allM_true {A} (p : A -> result bool) l :
  Forall (fun x => p x = Ok true) l -> allM p l = Ok true.
Proof. induction 1 as [|x l Hx _ IH]; [reflexivity|]. cbn. now rewrite Hx. Qed.

Lemma sentiment_status_passes data :
  Forall summary_passes data -> sentiment_status data = Ok "valid".
Proof.
  induction 1 as [|record rest (_ & _ & _ & _ & Hs) _ IH]; [reflexivity|].
  now rewrite Hs.
Qed.

(** X3: the summary of the validation report agrees with the checks of
    [validate_data] on a batch they accept: every field is shown as
    present or valid, and the report closes with the success message. *)
Theorem accepted_batch_report data :
  validate_data data = Ok (true, []) ->
  generate_validation_report data
  = Ok (validation_header (List.length data)
          "present" "valid" "valid" "valid" "valid" ++ success_message).
Proof.
  intros Hv. pose proof (clean_loop_passes data _ _ _ Hv eq_refl) as Hall.
  unfold generate_validation_report. rewrite Hv. cbn [bind].
  rewrite (allM_true (present_and_truthy "feedback_id") data)
    by (eapply Forall_impl; [|exact Hall]; intros r Hr; apply Hr).
  cbn [bind].
  rewrite (allM_true language_ok data)
    by (eapply Forall_impl; [|exact Hall]; intros r Hr; apply Hr).
  cbn [bind].
  rewrite (allM_true (contains "feedback_text") data)
    by (eapply Forall_impl; [|exact Hall]; intros r Hr; apply Hr).
  cbn [bind].
  rewrite (allM_true (present_and_truthy "timestamp") data)
    by (eapply Forall_impl; [|exact Hall]; intros r Hr; apply Hr).
  cbn [bind].
  rewrite (sentiment_status_passes data Hall). reflexivity.
Qed.

End CleanReport.

(** ** The detail report, and records without a required key *)

Section DetailReport.
Context {L : Library} {H : Host}.

Lemma str_append_nil_r (s : string) : s ++ "" = s.
Proof. induction s as [|c s IH]; cbn; [reflexivity|]. now rewrite IH. Qed.

Lemma str_join_empty_cons block blocks :
  str_join "" (block :: blocks) = block ++ str_join "" blocks.
Proof.
  destruct blocks as [|b bs]; cbn [str_join]; [now rewrite str_append_nil_r|].
  reflexivity.
Qed.

Lemma detail_blocks_by_records pairs : forall report out,
  detail_blocks pairs report = Ok out ->
  exists blocks,
    Forall2 (fun pair block => detail_block (fst pair) (snd pair) = Ok block)
            pairs blocks
    /\ out = report ++ str_join "" blocks.
Proof.
  induction pairs as [|[original processed] rest IH]; intros report out Hrun.
  - apply Ok_inj in Hrun. subst out. exists []. split; [constructor|].
    cbn [str_join]. now rewrite str_append_nil_r.
  - cbn [detail_blocks] in Hrun.
    apply bind_Ok in Hrun. destruct Hrun as (block & Hb & Hrun).
    destruct (IH _ _ Hrun) as (blocks & Hall & ->).
    exists (block :: blocks). split; [constructor; assumption|].
    rewrite str_join_empty_cons. apply str_append_assoc.
Qed.

(** X21: the detail report is its header, which counts the input records,
    then one block for each pair of an input record and the processed
    record at the same position, in order, then the JSON payload of the
    whole processed batch. *)
Theorem detailed_report_by_records data processed_data report :
  generate_detailed_report data processed_data = Ok report ->
  exists blocks,
    Forall2 (fun pair block => detail_block (fst pair) (snd pair) = Ok block)
            (combine data processed_data) blocks
    /\ report = detail_header (List.length data) ++ str_join "" blocks
                ++ detail_footer processed_data.
Proof.
  unfold generate_detailed_report. intros Hrun.
  apply bind_Ok in Hrun. destruct Hrun as (body & Hbody & Hrun).
  apply Ok_inj in Hrun. subst report.
  destruct (detail_blocks_by_records _ _ _ Hbody) as (blocks & Hall & ->).
  exists blocks. split; [exact Hall|]. apply str_append_assoc.
Qed.

Lemma required_fields_cases field :
  In field required_fields ->
  field = "feedback_id" \/ field = "language" \/ field = "feedback_text"
  \/ field = "timestamp".
Proof. cbn. intuition auto. Qed.

(** X22: [process_feedback] does not check its input: a record that is a
    dict without one of the four required keys makes the loop body raise
    KeyError, before the timestamp is looked at. *)
Theorem process_record_missing_field d field :
  In field required_fields ->
  dict_get d field = None ->
  process_record (PDict d) = Raise KeyError.
Proof.
  intros Hin Hg. unfold process_record. cbn [getitem].
  apply required_fields_cases in Hin.
  destruct Hin as [-> | [-> | [-> | ->]]]; rewrite Hg;
    repeat match goal with
      | |- context [dict_get d ?k] => destruct (dict_get d k)
      end; reflexivity.
Qed.

End DetailReport.

(** ** Examples on the reference library *)

Section Examples.
Import Reference.
#[local] Existing Instance library.

(** The faulty batch: its first record adds no message, its second four. *)
Lemma validate_data_by_rows_witness :
  validate_data faulty_batch = Ok (false, faulty_batch_messages)
  /\ exists per_record,
       batch_messages faulty_batch 0 = Ok per_record
       /\ faulty_batch_messages = List.concat per_record
       /\ List.length per_record = List.length faulty_batch
       /\ Forall (fun msgs => (List.length msgs <= 4)%nat) per_record.
Proof.
  split; [vm_compute; reflexivity|].
  apply (validate_data_by_rows (L := library) faulty_batch false faulty_batch_messages).
  vm_compute; reflexivity.
Defined.

Lemma validate_data_valid_iff_clean_witness :
  validate_data faulty_batch = Ok (false, faulty_batch_messages)
  /\ (false = true <-> faulty_batch_messages = []).
Proof.
  split; [vm_compute; reflexivity|].
  apply (validate_data_valid_iff_clean (L := library) faulty_batch false
           faulty_batch_messages).
  vm_compute; reflexivity.
Defined.

Lemma accepted_batch_report_witness :
  validate_data sample_batch = Ok (true, [])
  /\ generate_validation_report sample_batch
     = Ok (validation_header 2 "present" "valid" "valid" "valid" "valid"
           ++ success_message).
Proof.
  split; [vm_compute; reflexivity|].
  apply (accepted_batch_report (L := library) sample_batch).
  vm_compute; reflexivity.
Defined.

Lemma validation_report_lists_errors_witness :
  validate_data faulty_batch = Ok (false, faulty_batch_messages)
  /\ generate_validation_report faulty_batch = Ok faulty_batch_report
  /\ exists header,
       faulty_batch_report = header ++ str_join nl faulty_batch_messages.
Proof.
  split; [vm_compute; reflexivity|]. split; [vm_compute; reflexivity|].
  apply (validation_report_lists_errors (L := library) faulty_batch false
           faulty_batch_messages faulty_batch_report).
  - vm_compute; reflexivity.
  - discriminate.
  - vm_compute; reflexivity.
Defined.

Lemma process_data_gate_witness :
  decode faulty_csv_input = Ok faulty_batch
  /\ validate_data faulty_batch = Ok (false, faulty_batch_messages)
  /\ process_data (H := utc_host) faulty_csv_input
     = generate_validation_report faulty_batch.
Proof.
  split; [vm_compute; reflexivity|]. split; [vm_compute; reflexivity|].
  apply (process_data_gate (L := library) (H := utc_host) faulty_csv_input
           faulty_batch false faulty_batch_messages).
  - vm_compute; reflexivity.
  - vm_compute; reflexivity.
Defined.

Lemma translated_text_adds_three_tokens_witness :
  calculate_sentiment_score (PStr "La calidad es good")
  = Ok (S754_finite false 4503599627370496 (-54), 1, 0, 4)
  /\ exists q,
       int_truediv (1 - 0) (4 + 3) = Ok q
       /\ calculate_sentiment_score
            (translate_feedback (PStr "La calidad es good") (PStr "es"))
          = Ok (round2 q, 1, 0, 4 + 3).
Proof.
  split; [vm_compute; reflexivity|].
  apply (translated_text_adds_three_tokens (L := library) "e" "s" "La calidad es good"
           (S754_finite false 4503599627370496 (-54)) 1 0 4).
  - reflexivity.
  - reflexivity.
  - discriminate.
  - vm_compute; reflexivity.
Defined.

Lemma synchronized_timestamp_is_utc_witness :
  synchronize_timestamp (H := utc_host) (PStr "2023-03-21T08:10:00+02:00")
  = Ok "2023-03-21T06:10:00+00:00"
  /\ exists body, "2023-03-21T06:10:00+00:00" = body ++ "+00:00".
Proof.
  split; [vm_compute; reflexivity|].
  apply (synchronized_timestamp_is_utc (L := library) (H := utc_host)
           (PStr "2023-03-21T08:10:00+02:00") "2023-03-21T06:10:00+00:00").
  vm_compute; reflexivity.
Defined.

Lemma unscored_record_gets_scorer_value_witness :
  process_record (H := utc_host) spanish_record = Ok spanish_processed
  /\ contains "sentiment_score" spanish_record = Ok false
  /\ exists text score p n t,
       getitem spanish_processed "feedback_text" = Ok (PStr text)
       /\ calculate_sentiment_score (PStr text) = Ok (score, p, n, t)
       /\ getitem spanish_processed "sentiment_score" = Ok (PFloat score).
Proof.
  split; [vm_compute; reflexivity|]. split; [vm_compute; reflexivity|].
  apply (unscored_record_gets_scorer_value (L := library) (H := utc_host)
           spanish_record spanish_processed).
  - vm_compute; reflexivity.
  - left. vm_compute; reflexivity.
Defined.

Lemma processed_scores_in_range_or_nan_witness :
  validate_data sample_batch = Ok (true, [])
  /\ process_feedback (H := utc_host) sample_batch = Ok sample_processed
  /\ Forall (fun processed =>
               exists score,
                 getitem processed "sentiment_score" = Ok (PFloat score)
                 /\ (unit_float score = true \/ score = S754_nan))
            sample_processed.
Proof.
  split; [vm_compute; reflexivity|]. split; [vm_compute; reflexivity|].
  apply (processed_scores_in_range_or_nan (L := library) (H := utc_host)
           sample_batch sample_processed).
  - vm_compute; reflexivity.
  - vm_compute; reflexivity.
Defined.

(** The records of the sample batch have string texts, and their
    timestamps convert to UTC. *)
Lemma sample_batch_enrichable :
  Forall (enrichable (L := library) (H := utc_host)) sample_batch.
Proof.
  repeat constructor.
  - eexists; reflexivity.
  - intros ts text dt Hg Hr Hf.
    vm_compute in Hg. apply Ok_inj in Hg. subst ts.
    vm_compute in Hr. apply Ok_inj in Hr. subst text.
    vm_compute in Hf. injection Hf as <-.
    destruct (astimezone_utc _) as [utc|e] eqn:E; [eauto|].
    vm_compute in E. discriminate.
  - eexists; reflexivity.
  - intros ts text dt Hg Hr Hf.
    vm_compute in Hg. apply Ok_inj in Hg. subst ts.
    vm_compute in Hr. apply Ok_inj in Hr. subst text.
    vm_compute in Hf. injection Hf as <-.
    destruct (astimezone_utc _) as [utc|e] eqn:E; [eauto|].
    vm_compute in E. discriminate.
Defined.

Lemma valid_batch_is_enriched_witness :
  validate_data sample_batch = Ok (true, [])
  /\ exists processed_data,
       process_feedback (H := utc_host) sample_batch = Ok processed_data.
Proof.
  split; [vm_compute; reflexivity|].
  apply (valid_batch_is_enriched (L := library) (H := utc_host) sample_batch).
  - vm_compute; reflexivity.
  - exact sample_batch_enrichable.
Defined.

Lemma valid_input_is_answered_witness :
  decode utc_timestamp_input = Ok sample_batch
  /\ validate_data sample_batch = Ok (true, [])
  /\ exists processed_data report,
       process_feedback (H := utc_host) sample_batch = Ok processed_data
       /\ generate_detailed_report sample_batch processed_data = Ok report
       /\ process_data (H := utc_host) utc_timestamp_input = Ok report.
Proof.
  split; [vm_compute; reflexivity|]. split; [vm_compute; reflexivity|].
  apply (valid_input_is_answered (L := library) (H := utc_host)
           utc_timestamp_input sample_batch).
  - vm_compute; reflexivity.
  - vm_compute; reflexivity.
  - exact sample_batch_enrichable.
Defined.

(** A header without rows decodes to no record. *)
Lemma empty_batch_is_reported_witness :
  decode csv_header = Ok []
  /\ process_data (H := utc_host) csv_header = Ok empty_report.
Proof.
  split; [vm_compute; reflexivity|].
  apply (empty_batch_is_reported (L := library) (H := utc_host) csv_header).
  vm_compute; reflexivity.
Defined.

Lemma parse_csv_changes_only_scores_witness :
  parse_csv faulty_csv_input = Ok faulty_batch
  /\ Forall2 (fun row record =>
                exists d, record = PDict d
                          /\ same_but_score (row_dict row) d
                          /\ csv_score (dict_get (row_dict row) "sentiment_score")
                                       (dict_get d "sentiment_score"))
             (csv_rows faulty_csv_input) faulty_batch.
Proof.
  split; [vm_compute; reflexivity|].
  apply (parse_csv_changes_only_scores (L := library) faulty_csv_input faulty_batch).
  vm_compute; reflexivity.
Defined.

Lemma parse_json_changes_only_scores_witness :
  parse_json json_scores_input = Ok json_scores_batch
  /\ exists data feedbacks,
       json_loads json_scores_input = Ok data
       /\ getitem data "feedbacks" = Ok (PList feedbacks)
       /\ Forall2 (fun record record' =>
                     match record with
                     | PDict d =>
                         exists d', record' = PDict d' /\ same_but_score d d'
                                    /\ json_score (dict_get d "sentiment_score")
                                                  (dict_get d' "sentiment_score")
                     | _ => record' = record
                     end)
                  feedbacks json_scores_batch.
Proof.
  split; [vm_compute; reflexivity|].
  apply (parse_json_changes_only_scores (L := library) json_scores_input
           json_scores_batch).
  vm_compute; reflexivity.
Defined.

(** The short row: every cell after the first is None, and validation
    returns. *)
Lemma csv_validation_returns_witness :
  parse_csv short_row_input = Ok short_row_batch
  /\ exists is_valid error_messages,
       validate_data short_row_batch = Ok (is_valid, error_messages).
Proof.
  split; [vm_compute; reflexivity|].
  apply (csv_validation_returns (L := library) short_row_input short_row_batch).
  vm_compute; reflexivity.
Defined.

Lemma csv_invalid_input_is_reported_witness :
  parse_csv faulty_csv_input = Ok faulty_batch
  /\ exists is_valid error_messages,
       validate_data faulty_batch = Ok (is_valid, error_messages)
       /\ (error_messages <> [] ->
           exists header,
             process_data (H := utc_host) faulty_csv_input
             = Ok (header ++ str_join nl error_messages)).
Proof.
  split; [vm_compute; reflexivity|].
  apply (csv_invalid_input_is_reported (L := library) (H := utc_host)
           faulty_csv_input faulty_batch).
  - vm_compute; reflexivity.
  - vm_compute; reflexivity.
  - vm_compute. repeat constructor; discriminate.
Defined.

Lemma csv_decode_failure_is_returned_witness :
  parse_csv csv_text_score_input
  = Raise (invalid_csv "could not convert string to float: 'abc'")
  /\ exists msg,
       process_data (H := utc_host) csv_text_score_input
       = Ok ("ERROR: Invalid CSV format. " ++ msg).
Proof.
  split; [vm_compute; reflexivity|].
  apply (csv_decode_failure_is_returned (L := library) (H := utc_host)
           csv_text_score_input
           (invalid_csv "could not convert string to float: 'abc'")).
  - vm_compute; reflexivity.
  - vm_compute; reflexivity.
Defined.

Lemma invalid_json_is_returned_witness :
  json_loads broken_json_input = Raise JSONDecodeError
  /\ process_data (H := utc_host) broken_json_input
     = Ok "ERROR: Invalid JSON format.".
Proof.
  split; [vm_compute; reflexivity|].
  apply (invalid_json_is_returned (L := library) (H := utc_host) broken_json_input).
  - vm_compute; reflexivity.
  - vm_compute; reflexivity.
Defined.

Lemma json_without_feedbacks_is_returned_witness :
  json_loads json_without_feedbacks_input = Ok (PDict [("records", PList [])])
  /\ process_data (H := utc_host) json_without_feedbacks_input
     = Ok "ERROR: Invalid JSON structure. Expected 'feedbacks' array.".
Proof.
  split; [vm_compute; reflexivity|].
  apply (json_without_feedbacks_is_returned (L := library) (H := utc_host)
           json_without_feedbacks_input [("records", PList [])]).
  - vm_compute; reflexivity.
  - vm_compute; reflexivity.
  - intros records. vm_compute. discriminate.
Defined.

Lemma detailed_report_by_records_witness :
  generate_detailed_report sample_batch sample_processed = Ok sample_report
  /\ exists blocks,
       Forall2 (fun pair block => detail_block (fst pair) (snd pair) = Ok block)
               (combine sample_batch sample_processed) blocks
       /\ sample_report = detail_header (List.length sample_batch)
                           ++ str_join "" blocks
                           ++ detail_footer sample_processed.
Proof.
  split; [vm_compute; reflexivity|].
  apply (detailed_report_by_records (L := library) sample_batch sample_processed
           sample_report).
  vm_compute; reflexivity.
Defined.

(** A record that holds nothing but its id. *)
Lemma process_record_missing_field_witness :
  In "timestamp" required_fields
  /\ dict_get [("feedback_id", PStr "FB1")] "timestamp" = None
  /\ process_record (H := utc_host) (PDict [("feedback_id", PStr "FB1")])
     = Raise KeyError.
Proof.
  split; [cbn; auto|]. split; [reflexivity|].
  apply (process_record_missing_field (L := library) (H := utc_host)
           [("feedback_id", PStr "FB1")] "timestamp").
  - cbn; auto.
  - reflexivity.
Defined.

End Examples.

(** ** The forms of the messages, and supplied scores *)

Section Templates.
Context {L : Library}.

Lemma filterM_incl {A} (p : A -> result bool) l r :
  filterM p l = Ok r -> incl r l.
Proof.
  revert r. induction l as [|x l IH]; intros r Hrun; cbn in Hrun.
  - apply Ok_inj in Hrun. subst r. apply incl_refl.
  - apply bind_Ok in Hrun. destruct Hrun as (b & _ & Hrun).
    apply bind_Ok in Hrun. destruct Hrun as (r' & Hr' & Hrun).
    apply Ok_inj in Hrun. subst r. specialize (IH r' Hr').
    destruct b; [apply incl_cons; [now left|]|]; apply incl_tl; exact IH.
Qed.

Lemma check_required_row record row st st' :
  check_required record row st = Ok st' -> row_step row st st'.
Proof.
  unfold check_required. intros Hrun.
  apply bind_Ok in Hrun. destruct Hrun as (missing & Hm & Hrun).
  apply filterM_incl in Hm.
  destruct missing as [|field rest].
  - apply Ok_inj in Hrun. now left.
  - apply Ok_inj in Hrun. right. eexists. split; [|symmetry; exact Hrun].
    left. exists (field :: rest). split; [discriminate|]. split; [exact Hm|reflexivity].
Qed.

Ltac row_cases Hrun :=
  repeat match type of Hrun with
    | bind ?c _ = Ok _ =>
        let a := fresh "a" in let Ha := fresh "Ha" in
        apply bind_Ok in Hrun; destruct Hrun as (a & Ha & Hrun)
    | context [match ?x with _ => _ end] => destruct x eqn:?
    | Ok _ = Ok _ => apply Ok_inj in Hrun; subst
    | Raise _ = Ok _ => discriminate Hrun
    end.

Lemma check_sentiment_score_row record row st st' :
  check_sentiment_score record row st = Ok st' -> row_step row st st'.
Proof.
  unfold check_sentiment_score. intros Hrun. row_cases Hrun;
    first [ now left
          | right; eexists; split; [|reflexivity]; unfold message_of_row; tauto ].
Qed.

Lemma check_language_row record row st st' :
  check_language record row st = Ok st' -> row_step row st st'.
Proof.
  unfold check_language. intros Hrun. row_cases Hrun;
    first [ now left
          | right; eexists; split; [|reflexivity]; unfold message_of_row; tauto ].
Qed.

Lemma check_timestamp_row record row st st' :
  check_timestamp record row st = Ok st' -> row_step row st st'.
Proof.
  unfold check_timestamp. intros Hrun. row_cases Hrun;
    first [ now left
          | right; eexists; split; [|reflexivity]; unfold message_of_row; tauto ].
Qed.

Lemma row_step_messages row st st' msg :
  row_step row st st' -> In msg (snd st') ->
  In msg (snd st) \/ message_of_row msg row.
Proof.
  intros [->|(m & Hm & ->)] Hin; [now left|].
  cbn in Hin. apply in_app_or in Hin. destruct Hin as [Hin|[<-|[]]]; auto.
Qed.

Lemma validate_record_messages record row st st' msg :
  validate_record record row st = Ok st' -> In msg (snd st') ->
  In msg (snd st) \/ message_of_row msg row.
Proof.
  unfold validate_record. intros Hrun Hin.
  apply bind_Ok in Hrun. destruct Hrun as (s1 & H1 & Hrun).
  apply bind_Ok in Hrun. destruct Hrun as (s2 & H2 & Hrun).
  apply bind_Ok in Hrun. destruct Hrun as (s3 & H3 & H4).
  apply check_required_row in H1. apply check_sentiment_score_row in H2.
  apply check_language_row in H3. apply check_timestamp_row in H4.
  destruct (row_step_messages _ _ _ _ H4 Hin) as [Hin3|]; [|now right].
  destruct (row_step_messages _ _ _ _ H3 Hin3) as [Hin2|]; [|now right].
  destruct (row_step_messages _ _ _ _ H2 Hin2) as [Hin1|]; [|now right].
  exact (row_step_messages _ _ _ _ H1 Hin1).
Qed.

Lemma validate_loop_messages data : forall idx st st' msg,
  validate_loop data idx st = Ok st' -> In msg (snd st') ->
  In msg (snd st)
  \/ exists i, (i < List.length data)%nat /\ message_of_row msg (idx + i + 1).
Proof.
  induction data as [|record rest IH]; intros idx st st' msg Hrun Hin; cbn in Hrun.
  - apply Ok_inj in Hrun. subst. now left.
  - apply bind_Ok in Hrun. destruct Hrun as (s1 & H1 & Hrun).
    destruct (IH _ _ _ _ Hrun Hin) as [Hin1|(i & Hi & Hm)].
    + destruct (validate_record_messages _ _ _ _ _ H1 Hin1) as [Hin0|Hm];
        [now left|].
      right. exists 0%nat. split; [cbn; lia|]. now rewrite Nat.add_0_r.
    + right. exists (S i). split; [cbn; lia|].
      now replace (idx + S i + 1)%nat with (S idx + i + 1)%nat by lia.
Qed.

(** X23: whenever [validate_data] returns, every message it collected is
    about a row of the batch, numbered from 1, and has one of five forms:
    the required fields that are missing (a non-empty selection of the four),
    the score out of range, the score of a wrong type, the language not in
    ISO 639-1 format, the timestamp not in ISO 8601 format. *)
Theorem validation_messages_name_rows data is_valid error_messages :
  validate_data data = Ok (is_valid, error_messages) ->
  Forall (fun msg => exists i, (i < List.length data)%nat
                               /\ message_of_row msg (i + 1))
         error_messages.
Proof.
  intros Hrun. apply Forall_forall. intros msg Hin.
  destruct (validate_loop_messages data 0%nat _ _ msg Hrun Hin) as [[]|Hm].
  exact Hm.
Qed.

End Templates.

Section Supplied.
Context {L : Library} {H : Host}.

(** X24: a score that the record supplies (the key is there and its value
    is not None) is kept: the enriched score is [float] of it, and the
    scorer is not consulted. *)
Theorem supplied_score_is_kept record processed v :
  process_record record = Ok processed ->
  getitem record "sentiment_score" = Ok v ->
  is_none v = false ->
  exists score,
    py_float v = Ok score
    /\ getitem processed "sentiment_score" = Ok (PFloat score).
Proof.
  intros Hrun Hg Hn.
  destruct (enriched_score_origin _ _ Hrun) as (score & Hs & Horigin).
  exists score. split; [|exact Hs].
  destruct Horigin as [(v' & Hv' & _ & Hf)|(ft & lang & s & p & n & t & _ & _ & _ & _ & Hno)].
  - rewrite Hg in Hv'. apply Ok_inj in Hv'. now subst v'.
  - destruct Hno as [Hno|Hnone].
    + destruct record; try discriminate Hg. cbn [contains getitem] in Hno, Hg.
      unfold dict_has in Hno. destruct (dict_get _ _); discriminate.
    + rewrite Hg in Hnone. apply Ok_inj in Hnone. subst v. discriminate.
Qed.

End Supplied.

Section MoreExamples.
Import Reference.
#[local] Existing Instance library.

Lemma validation_messages_name_rows_witness :
  validate_data faulty_batch = Ok (false, faulty_batch_messages)
  /\ Forall (fun msg => exists i, (i < List.length faulty_batch)%nat
                                  /\ message_of_row msg (i + 1))
            faulty_batch_messages.
Proof.
  split; [vm_compute; reflexivity|].
  apply (validation_messages_name_rows (L := library) faulty_batch false
           faulty_batch_messages).
  vm_compute; reflexivity.
Defined.

(** The second record of the sample batch supplies the score 0.5. *)
Lemma supplied_score_is_kept_witness :
  process_record (H := utc_host) (nth 1 sample_batch PNone)
  = Ok (nth 1 sample_processed PNone)
  /\ exists score,
       py_float (PFloat (S754_finite false 4503599627370496 (-53))) = Ok score
       /\ getitem (nth 1 sample_processed PNone) "sentiment_score"
          = Ok (PFloat score).
Proof.
  split; [vm_compute; reflexivity|].
  apply (supplied_score_is_kept (L := library) (H := utc_host)
           (nth 1 sample_batch PNone) (nth 1 sample_processed PNone)
           (PFloat (S754_finite false 4503599627370496 (-53)))).
  - vm_compute; reflexivity.
  - reflexivity.
  - reflexivity.
Defined.

End MoreExamples.
